(** * The short-URL backend: short-code allocation and click analytics

    A shallow embedding of the Mongoose model [Url] (schema, [incrementClicks],
    [generateShortCode]) and of the Express handlers [createShortUrl],
    [getUrlAnalytics] and [redirectToOriginal], followed by the properties of
    the specification that concern them.

    Conventions.
    - A JavaScript [Date] is its time value: an integer number of
      milliseconds since the epoch, a [Z].  Counters are [Z] as well; the
      2^53 limit of JavaScript numbers is modelled only where a number is
      read from a string ([toDouble]).
    - A field that may be [undefined] or [null] is an [option].
    - The collection is a finite map from [_id] to document. *)

From Stdlib Require Import ZArith NArith String Ascii List Lia.
From Stdlib.Strings Require Import Byte.
From stdpp Require Import base option list sorting gmap strings.

Local Open Scope Z_scope.

(** ** JavaScript string primitives used by the sources *)

Module Js.

(** [s.charAt(i)]: the one-character string at index [i], or the empty
    string when [i] is out of range. *)
Definition charAt (s : string) (i : nat) : string :=
  match String.get i s with
  | Some c => String c EmptyString
  | None => EmptyString
  end.

(** [s.substring(a, b)]: the characters at indices [min a b] up to, but not
    including, [max a b], clamped to the length of [s]. *)
Definition substring (a b : nat) (s : string) : string :=
  String.substring (Nat.min a b) (Nat.max a b - Nat.min a b) s.

(** The digits of [Number.prototype.toString(36)]. *)
Definition digits36 : string := "0123456789abcdefghijklmnopqrstuvwxyz".

Fixpoint toString36_loop (fuel : nat) (n : N) (acc : string) : string :=
  match fuel with
  | O => acc
  | S fuel' =>
      let acc' := charAt digits36 (N.to_nat (n mod 36)) +:+ acc in
      if (n / 36 =? 0)%N then acc' else toString36_loop fuel' (n / 36)%N acc'
  end.

(** [n.toString(36)] for a non-negative integer [n].  The fuel is the
    number of binary digits of [n], which bounds the number of base-36
    digits. *)
Definition toString36 (n : N) : string :=
  toString36_loop (S (N.to_nat (N.log2 n))) n EmptyString.

(** Reading a base-36 numeral back, used to check [toString36]. *)
Definition digitValue (c : ascii) : option N :=
  let k := N_of_ascii c in
  if ((48 <=? k) && (k <=? 57))%N then Some (k - 48)%N
  else if ((97 <=? k) && (k <=? 122))%N then Some (k - 87)%N
  else None.

Fixpoint parse36_loop (s : string) (acc : N) : option N :=
  match s with
  | EmptyString => Some acc
  | String c s' =>
      match digitValue c with
      | Some d => parse36_loop s' (acc * 36 + d)%N
      | None => None
      end
  end.

Definition parse36 (s : string) : option N := parse36_loop s 0%N.

(** Every character of [s] satisfies [p]. *)
Fixpoint allChars (p : ascii -> bool) (s : string) : bool :=
  match s with
  | EmptyString => true
  | String c s' => p c && allChars p s'
  end.

(** [c] occurs in [s]. *)
Fixpoint occurs (c : ascii) (s : string) : bool :=
  match s with
  | EmptyString => false
  | String d s' => if Ascii.eqb c d then true else occurs c s'
  end.

(** The characters of [s] before the first [sep]: [s.split(sep)[0]]. *)
Fixpoint beforeFirst (sep : ascii) (s : string) : string :=
  match s with
  | EmptyString => EmptyString
  | String c s' => if Ascii.eqb c sep then EmptyString else String c (beforeFirst sep s')
  end.

(** The white space of ASCII: tab to carriage return, and the space. *)
Definition isSpace (c : ascii) : bool :=
  let k := N_of_ascii c in
  ((9 <=? k) && (k <=? 13) || (k =? 32))%N.

Fixpoint trimStart (s : string) : string :=
  match s with
  | EmptyString => EmptyString
  | String c s' => if isSpace c then trimStart s' else s
  end.

Fixpoint trimEnd (s : string) : string :=
  match s with
  | EmptyString => EmptyString
  | String c s' =>
      match trimEnd s' with
      | EmptyString => if isSpace c then EmptyString else String c EmptyString
      | t => String c t
      end
  end.

(** [s.trim()] on a string of ASCII characters. *)
Definition trimAscii (s : string) : string := trimEnd (trimStart s).

End Js.

(** ** Errors and settled promises *)

(** The errors the handlers distinguish: by [error.code] and
    [error.keyPattern] (the keys of the violated index, in index order), by
    [error.name === 'ValidationError'], or not at all. *)
Inductive JsError : Type :=
| MongoServerError (code : Z) (keyPattern : option (list string))
| ValidationError (errors : list (string * string))
| TypeError (message : string)
| OtherError (message : string).

(** The two ways an awaited call ends. *)
Inductive Settled (A : Type) : Type :=
| Resolved (a : A)
| Rejected (e : JsError).
Arguments Resolved {A} a.
Arguments Rejected {A} e.

(** ** The [Url] model (models/Url.js) *)

Definition ObjectId := N.

Module Click.
(** [clickSchema]: one entry of [recentClicks]. *)
Record t : Type := Build {
  timestamp : Z;
  ip : option string;
  userAgent : option string;
  referer : option string
}.
End Click.

Module DailyStat.
(** One entry of [dailyStats]. *)
Record t : Type := Build {
  date : Z;
  clicks : Z
}.
End DailyStat.

(** What the redirect handler extracts from the request. *)
Record ClickData : Type := {
  cd_ip : option string;
  cd_userAgent : option string;
  cd_referer : option string
}.

(** [urlSchema], with the [timestamps: true] fields. *)
Record UrlDoc : Type := {
  _id : ObjectId;
  originalUrl : string;
  shortCode : string;
  userId : option ObjectId;
  title : string;
  description : string;
  clicks : Z;
  lastClicked : option Z;
  isActive : bool;
  expiryDate : option Z;
  qrCode : option string;
  tags : list string;
  recentClicks : list Click.t;
  dailyStats : list DailyStat.t;
  createdAt : Z;
  updatedAt : Z
}.

(** What the host provides and the repository does not define: the local
    time zone ([new Date(y, m, d)] is local midnight), the WHATWG URL parser
    and [String.prototype.trim]. *)
Class Host : Type := {
  (** [new Date(now.getFullYear(), now.getMonth(), now.getDate())] *)
  localMidnight : Z -> Z;
  (** [new URL(s).hostname], or [None] where [new URL(s)] throws *)
  urlHostname : string -> option string;
  (** [s.trim()] *)
  trim : string -> string;
  (** [d.setDate(d.getDate() - n)]: the same local time [n] days earlier *)
  daysBefore : Z -> Z -> Z;
  (** [process.env.BASE_URL] *)
  env_BASE_URL : option string
}.

(** *** MongoDB update operators, as far as [incrementClicks] uses them *)

(** [$slice: -n] after a [$push]: keep the last [n] elements. *)
Definition sliceLast {A : Type} (n : nat) (l : list A) : list A :=
  drop (length l - n) l.

(** [$push: { field: { $each: [x], $slice: -n } }] *)
Definition pushSlice {A : Type} (x : A) (n : nat) (l : list A) : list A :=
  sliceLast n (l ++ [x]).

(** The part of the update document that concerns [dailyStats]: either
    [$inc: { 'dailyStats.<i>.clicks': 1 }] or
    [$push: { dailyStats: { $each: [stat], $slice: -keep } }]. *)
Inductive DailyStatsUpdate : Type :=
| IncAt (i : nat) (by_ : Z)
| PushStat (stat : DailyStat.t) (keep : nat).

(** The update document built by [incrementClicks]. *)
Record UpdateData : Type := {
  inc_clicks : Z;
  set_lastClicked : Z;
  push_recentClicks : Click.t;
  slice_recentClicks : nat;
  upd_dailyStats : DailyStatsUpdate
}.

Definition incStat (by_ : Z) (s : DailyStat.t) : DailyStat.t :=
  DailyStat.Build (DailyStat.date s) (DailyStat.clicks s + by_).

(** The effect of the [dailyStats] part on the stored array.  A positional
    path beyond the end of the array makes MongoDB pad the array with nulls
    and create a stat without a date: such an array is no longer of the
    schema's shape and is not represented here, hence [None]. *)
Definition applyDailyStats (u : DailyStatsUpdate) (l : list DailyStat.t)
  : option (list DailyStat.t) :=
  match u with
  | IncAt i by_ =>
      match l !! i with
      | Some s => Some (<[i := incStat by_ s]> l)
      | None => None
      end
  | PushStat stat keep => Some (pushSlice stat keep l)
  end.

(** The stored document after the update; [stamp] is the [updatedAt] that
    Mongoose adds to every update of a schema with [timestamps: true]. *)
Definition applyUpdate (stamp : Z) (u : UpdateData) (d : UrlDoc) : option UrlDoc :=
  match applyDailyStats (upd_dailyStats u) (dailyStats d) with
  | Some stats =>
      Some {| _id := _id d;
              originalUrl := originalUrl d;
              shortCode := shortCode d;
              userId := userId d;
              title := title d;
              description := description d;
              clicks := clicks d + inc_clicks u;
              lastClicked := Some (set_lastClicked u);
              isActive := isActive d;
              expiryDate := expiryDate d;
              qrCode := qrCode d;
              tags := tags d;
              recentClicks :=
                pushSlice (push_recentClicks u) (slice_recentClicks u) (recentClicks d);
              dailyStats := stats;
              createdAt := createdAt d;
              updatedAt := stamp |}
  | None => None
  end.

(** *** [incrementClicks] *)

(** [this.dailyStats.findIndex(stat => stat.date.getTime() === today.getTime())]:
    the first index whose date is [today], [None] for -1. *)
Fixpoint findIndex (today : Z) (l : list DailyStat.t) : option nat :=
  match l with
  | [] => None
  | s :: l' =>
      if DailyStat.date s =? today then Some O
      else match findIndex today l' with
           | Some i => Some (S i)
           | None => None
           end
  end.

(** Lines 183-215: the update document, from the in-memory document [this],
    the clock reading [now] and the click data. *)
Definition updateData `{Host} (this : UrlDoc) (now : Z) (clickData : ClickData)
  : UpdateData :=
  let today := localMidnight now in
  {| inc_clicks := 1;
     set_lastClicked := now;
     push_recentClicks :=
       Click.Build now (cd_ip clickData) (cd_userAgent clickData) (cd_referer clickData);
     slice_recentClicks := 1000;
     upd_dailyStats :=
       match findIndex today (dailyStats this) with
       | Some todayStatsIndex => IncAt todayStatsIndex 1
       | None => PushStat (DailyStat.Build today 1) 365
       end |}.

(** How a call of [incrementClicks] ends. *)
Inductive ClickResult : Type :=
| Returned (result : UrlDoc) (store : gmap ObjectId UrlDoc) (task : option ObjectId)
    (** [result] is returned and copied over [this]; [store] is the
        collection afterwards; [task] is the owner whose [totalClicks] the
        [setImmediate] callback will increment, best effort. *)
| Threw (e : JsError)
    (** the promise is rejected, the collection is unchanged *)
| OffSchema.
    (** the positional [$inc] fell beyond the stored array, see
        [applyDailyStats] *)

(** [urlSchema.methods.incrementClicks], against the collection [store].
    [findByIdAndUpdate] resolves to [null] when no document has [this._id];
    reading [result.clicks] then throws, and the [catch] rethrows. *)
Definition incrementClicks `{Host} (now stamp : Z) (clickData : ClickData)
    (this : UrlDoc) (store : gmap ObjectId UrlDoc) : ClickResult :=
  let u := updateData this now clickData in
  match store !! _id this with
  | None => Threw (TypeError "Cannot read properties of null (reading 'clicks')")
  | Some stored =>
      match applyUpdate stamp u stored with
      | Some result => Returned result (<[_id this := result]> store) (userId this)
      | None => OffSchema
      end
  end.

(** *** Queries *)

(** [Url.findOne(filter)]: a stored document that satisfies the filter, or
    [None] for [null]. *)
Definition findOne (filter : UrlDoc -> bool) (store : gmap ObjectId UrlDoc)
  : option UrlDoc :=
  head (List.filter filter (snd <$> map_to_list store)).

(** The filter [{ shortCode }]. *)
Definition byShortCode (code : string) (d : UrlDoc) : bool :=
  String.eqb (shortCode d) code.

(** *** [generateShortCode] *)

Definition characters : string :=
  "abcdefghijklmnopqrstuvwxyzABCDEFGHIJKLMNOPQRSTUVWXYZ0123456789_-".

Definition maxAttempts : nat := 50.

(** The class [[a-zA-Z0-9_-]] of the schema's [match] and of the custom-code
    check. *)
Definition isCodeChar (c : ascii) : bool :=
  let k := N_of_ascii c in
  ((97 <=? k) && (k <=? 122) || (65 <=? k) && (k <=? 90)
   || (48 <=? k) && (k <=? 57) || (k =? 95) || (k =? 45))%N.

(** What one call draws from outside: randomness and the clock.
    - [cryptoThrows a]: whether [require('crypto')] or [randomBytes] throws
      at attempt [a], which sends that attempt to [Math.random];
    - [randomBytes a i]: byte [i] of the buffer drawn at attempt [a];
    - [mathRandom a i]: the numerator [k] of the [i]-th [Math.random()] of
      attempt [a], a double [k / 2^53] of [[0, 1)];
    - [dateNow]: [Date.now()] when the fallback is built;
    - [mathRandom36]: the string [Math.random().toString(36)] of the
      fallback, whose conversion from a double is not modelled. *)
Record Chance : Type := {
  cryptoThrows : nat -> bool;
  randomBytes : nat -> nat -> byte;
  mathRandom : nat -> nat -> N;
  dateNow : N;
  mathRandom36 : string
}.

(** The index of the [i]-th character of attempt [a]:
    [randomBytes[i] % characters.length], or, in the [catch] (and where
    [require] is undefined, which does the same),
    [Math.floor(Math.random() * characters.length)], a product by 64 that is
    exact on doubles. *)
Definition pick (c : Chance) (a i : nat) : nat :=
  if cryptoThrows c a
  then N.to_nat (mathRandom c a i * N.of_nat (String.length characters) / 2 ^ 53)%N
  else N.to_nat (Byte.to_N (randomBytes c a i) mod N.of_nat (String.length characters))%N.

(** The candidate of attempt [a]: [length] characters appended one by one. *)
Definition candidate (c : Chance) (length a : nat) : string :=
  fold_left (fun shortCode i => shortCode +:+ Js.charAt characters (pick c a i))
    (seq 0 length) "".

(** The [for] loop over the attempts [a], [a + 1], ... while [remaining]
    attempts are left: the first candidate no stored document has. *)
Fixpoint attempts (c : Chance) (store : gmap ObjectId UrlDoc) (length a remaining : nat)
  : option string :=
  match remaining with
  | O => None
  | S remaining' =>
      let shortCode := candidate c length a in
      match findOne (byShortCode shortCode) store with
      | None => Some shortCode
      | Some _ => attempts c store length (S a) remaining'
      end
  end.

(** Lines 289-291: the timestamp in base 36, then up to six characters of
    the random string after its ["0."], cut to [max(length, 8)]. *)
Definition fallbackCode (c : Chance) (length : nat) : string :=
  let timestamp := Js.toString36 (dateNow c) in
  let random := Js.substring 2 8 (mathRandom36 c) in
  Js.substring 0 (Nat.max length 8) (timestamp +:+ random).

(** [urlSchema.statics.generateShortCode] *)
Definition generateShortCode (c : Chance) (store : gmap ObjectId UrlDoc)
    (length : nat) : Settled string :=
  match attempts c store length 0 maxAttempts with
  | Some shortCode => Resolved shortCode
  | None =>
      match findOne (byShortCode (fallbackCode c length)) store with
      | None => Resolved (fallbackCode c length)
      | Some _ =>
          Rejected (OtherError "Unable to generate unique short code after all attempts")
      end
  end.

(** *** Creation defaults *)

(** The [urlData] object that [createShortUrl] hands to [Url.create]. *)
Record UrlData : Type := {
  ud_originalUrl : string;
  ud_shortCode : string;
  ud_userId : option ObjectId;
  ud_title : string;
  ud_description : string;
  ud_expiryDate : option Z;
  ud_tags : list string
}.

(** The document [Url.create(urlData)] builds: the given fields and the
    schema defaults ([clicks: 0], [lastClicked: null], [isActive: true],
    [qrCode: null], empty [recentClicks] and [dailyStats]). *)
Definition newDoc (id : ObjectId) (created : Z) (u : UrlData) : UrlDoc :=
  {| _id := id;
     originalUrl := ud_originalUrl u;
     shortCode := ud_shortCode u;
     userId := ud_userId u;
     title := ud_title u;
     description := ud_description u;
     clicks := 0;
     lastClicked := None;
     isActive := true;
     expiryDate := ud_expiryDate u;
     qrCode := None;
     tags := ud_tags u;
     recentClicks := [];
     dailyStats := [];
     createdAt := created;
     updatedAt := created |}.

(** *** Sequences of clicks *)

(** One click as it reaches [incrementClicks]: the clock reading [now], the
    time Mongoose stamps on the update and the click data. *)
Record Arrival : Type := {
  ar_now : Z;
  ar_stamp : Z;
  ar_data : ClickData
}.

(** The entry [incrementClicks] pushes for an arrival. *)
Definition clickOf (a : Arrival) : Click.t :=
  Click.Build (ar_now a) (cd_ip (ar_data a)) (cd_userAgent (ar_data a))
    (cd_referer (ar_data a)).

(** Clicks recorded one after the other on the document [id], the way
    [redirectToOriginal] does it: [Url.findById] fetches the document, then
    [incrementClicks] runs on it.  [None] when a call does not return. *)
Fixpoint recordClicks `{Host} (id : ObjectId) (arrivals : list Arrival)
    (store : gmap ObjectId UrlDoc) : option (gmap ObjectId UrlDoc) :=
  match arrivals with
  | [] => Some store
  | a :: rest =>
      match store !! id with
      | Some urlDoc =>
          match incrementClicks (ar_now a) (ar_stamp a) (ar_data a) urlDoc store with
          | Returned _ store' _ => recordClicks id rest store'
          | _ => None
          end
      | None => None
      end
  end.

(** [stats.reduce((sum, stat) => sum + stat.clicks, 0)] *)
Definition sumClicks (stats : list DailyStat.t) : Z :=
  fold_left (fun sum stat => sum + DailyStat.clicks stat) stats 0.

(** ** Handlers (controllers/urlController.js, controllers/redirectController.js) *)

(** *** Awaited calls *)

(** The filters the handlers pass to [Url.findOne]. *)
Inductive Query : Type :=
| ByShortCode (code : string)
    (** [{ shortCode }] *)
| ByShortCodeActive (code : string)
    (** [{ shortCode, isActive: true }] *)
| ByOwnerUrlActive (owner : ObjectId) (url : string)
    (** [{ userId, originalUrl, isActive: true }] *)
| ByIdOwner (id : ObjectId) (owner : ObjectId).
    (** [{ _id: id, userId }] *)

Definition matches (q : Query) (d : UrlDoc) : bool :=
  match q with
  | ByShortCode code => byShortCode code d
  | ByShortCodeActive code => byShortCode code d && isActive d
  | ByOwnerUrlActive owner url =>
      bool_decide (userId d = Some owner) && String.eqb (originalUrl d) url && isActive d
  | ByIdOwner id owner =>
      bool_decide (_id d = id) && bool_decide (userId d = Some owner)
  end.

(** What a handler awaits or reads from outside, with the type of what it
    gets back.  A handler is written against these calls alone; what answers
    them (the database, the QR library, the clock) is an environment. *)
Inductive Call : Type -> Type :=
| UrlFindOne (q : Query) : Call (Settled (option UrlDoc))
| UrlFindById (id : ObjectId) : Call (Settled (option UrlDoc))
| UrlCreate (urlData : UrlData) : Call (Settled UrlDoc)
| UrlGenerateShortCode (length : nat) : Call (Settled string)
| DocSave (doc : UrlDoc) : Call (Settled UrlDoc)
| DocIncrementClicks (doc : UrlDoc) (clickData : ClickData) : Call (Settled UrlDoc)
| QRCodeToDataURL (text : string) : Call (Settled string)
| NewDate : Call Z.

(** A handler: a tree of calls, each continued by its answer. *)
Inductive Prog (R : Type) : Type :=
| Ret (r : R)
| Do {A : Type} (call : Call A) (k : A -> Prog R).
Arguments Ret {R} r.
Arguments Do {R A} call k.

Fixpoint bindProg {R S : Type} (m : Prog R) (f : R -> Prog S) : Prog S :=
  match m with
  | Ret r => f r
  | Do call k => Do call (fun a => bindProg (k a) f)
  end.

(** Code that may throw: it ends with a value or with the error thrown. *)
Definition Throwing (R : Type) : Type := Prog (Settled R).

Definition pure {R : Type} (r : R) : Throwing R := Ret (Resolved r).

Definition throw {R : Type} (e : JsError) : Throwing R := Ret (Rejected e).

Definition bind {R S : Type} (m : Throwing R) (f : R -> Throwing S) : Throwing S :=
  bindProg m (fun r => match r with
                       | Resolved a => f a
                       | Rejected e => Ret (Rejected e)
                       end).

(** [await call]: a rejected promise throws. *)
Definition await {R : Type} (call : Call (Settled R)) : Throwing R := Do call Ret.

(** A call that cannot fail. *)
Definition ask {R : Type} (call : Call R) : Throwing R :=
  Do call (fun a => Ret (Resolved a)).

(** [try { m } catch (error) { handler error }] *)
Definition tryCatch {R : Type} (m : Throwing R) (handler : JsError -> Throwing R)
  : Throwing R :=
  bindProg m (fun r => match r with
                       | Resolved a => Ret (Resolved a)
                       | Rejected e => handler e
                       end).

Declare Scope prog_scope.
Delimit Scope prog_scope with prog.
Notation "'let*' x ':=' m 'in' k" := (bind m (fun x => k))
  (at level 10, x name, m at level 100, k at level 200) : prog_scope.
Local Open Scope prog_scope.

(** *** Environments and runs *)

(** One answered call. *)
Inductive Event : Type :=
| Answered {A : Type} (call : Call A) (answer : A).

(** What answers the calls: a state and, for each call, an answer and the
    next state. *)
Record Env : Type := {
  world : Type;
  answer : forall A : Type, Call A -> world -> A * world
}.
Arguments answer _ {A} _ _.

(** The run of a handler: its result, the last state and the answered calls
    in order. *)
Fixpoint run {R : Type} (env : Env) (p : Prog R) (w : world env)
  : R * world env * list Event :=
  match p with
  | Ret r => (r, w, [])
  | Do call k =>
      let '(a, w1) := answer env call w in
      let '(r, w2, events) := run env (k a) w1 in
      (r, w2, Answered call a :: events)
  end.

(** The events that are inserts, and those that are code generations. *)
Definition isInsert (event : Event) : bool :=
  match event with
  | Answered call _ => match call with UrlCreate _ => true | _ => false end
  end.

Definition isGenerate (event : Event) : bool :=
  match event with
  | Answered call _ => match call with UrlGenerateShortCode _ => true | _ => false end
  end.

(** The result and the answered calls of a run. *)
Definition outcome {R : Type} (env : Env) (p : Prog R) (w : world env)
  : R * list Event :=
  let '(r, _, events) := run env p w in (r, events).

(** *** Requests and responses *)

(** The fields the create and update responses list under [data.url]. *)
Record UrlView : Type := {
  v_id : ObjectId;
  v_originalUrl : string;
  v_shortCode : string;
  v_shortUrl : string;
  v_title : string;
  v_description : string;
  v_clicks : Z;
  v_expiryDate : option Z;
  v_qrCode : option string;
  v_tags : list string;
  v_createdAt : Z
}.

(** The virtual [shortUrl]. *)
Definition shortUrl `{Host} (d : UrlDoc) : string :=
  let baseUrl := match env_BASE_URL with
                 | Some b => if String.eqb b "" then "http://localhost:5001" else b
                 | None => "http://localhost:5001"
                 end in
  baseUrl +:+ "/" +:+ shortCode d.

Definition urlView `{Host} (d : UrlDoc) : UrlView :=
  {| v_id := _id d;
     v_originalUrl := originalUrl d;
     v_shortCode := shortCode d;
     v_shortUrl := shortUrl d;
     v_title := title d;
     v_description := description d;
     v_clicks := clicks d;
     v_expiryDate := expiryDate d;
     v_qrCode := qrCode d;
     v_tags := tags d;
     v_createdAt := createdAt d |}.

(** [recentClicks] of the analytics response. *)
Record RecentClicksAnalysis : Type := {
  rc_total : nat;
  rc_last24Hours : nat;
  rc_last7Days : nat
}.

(** A property of the object that the [reduce] of [topReferrers] builds: a
    count or, where [+ 1] met a value that is no number, a string. *)
Inductive Tally : Type :=
| Count (n : Z)
| Text (s : string).

(** [data.analytics] of the analytics response, without [clickRate], a
    floating-point quotient whose computation cannot throw. *)
Record Analytics : Type := {
  an_totalClicks : Z;
  an_weeklyClicks : Z;
  an_monthlyClicks : Z;
  an_recentClicks : RecentClicksAnalysis;
  an_dailyStats : list DailyStat.t;
  an_topReferrers : gmap string Tally;
  an_isExpired : bool
}.

(** The [data] of a response; the analytics response lists some fields of
    the document, which is given whole here. *)
Inductive Payload : Type :=
| NoData
| ErrorList (errors : list (string * string))
| UrlPayload (url : UrlView)
| AnalyticsPayload (url : UrlDoc) (analytics : Analytics).

(** What the handler sends: [res.status(status).json(...)] or
    [res.redirect(status, location)]. *)
Inductive Response : Type :=
| Json (status : Z) (success : bool) (message : option string) (data : Payload)
| RedirectTo (status : Z) (location : string).

(** [req.body] of [POST /api/urls]; [rb_expiryDate] is the time value of
    [new Date(expiryDate)]. *)
Record CreateBody : Type := {
  rb_originalUrl : string;
  rb_customCode : option string;
  rb_title : option string;
  rb_description : option string;
  rb_expiryDate : option Z;
  rb_tags : option (list string)
}.

(** The request as the create handler reads it: the result of
    [validationResult(req)], [req.user] reduced to its id, and the body. *)
Record CreateRequest : Type := {
  cr_errors : list (string * string);
  cr_user : option ObjectId;
  cr_body : CreateBody
}.

(** *** [createShortUrl] *)

Definition customCodeMessage : string :=
  "Custom code must be 4-10 characters long and contain only letters, numbers, hyphens, and underscores".

(** The test of line 54: the pattern, which needs one character at least,
    and the length. *)
Definition isValidCustomCode (customCode : string) : bool :=
  negb (String.eqb customCode "")
  && Js.allChars isCodeChar customCode
  && (4 <=? String.length customCode)%nat
  && (String.length customCode <=? 10)%nat.

(** Lines 51-73: the custom code when one is given and free, a generated
    code otherwise; [inl] is a response sent early. *)
Definition chooseShortCode (customCode : option string)
  : Throwing (Response + string) :=
  match customCode with
  | Some customCode =>
      if String.eqb customCode "" then
        let* shortCode := await (UrlGenerateShortCode 6) in pure (inr shortCode)
      else if negb (isValidCustomCode customCode) then
        pure (inl (Json 400 false (Some customCodeMessage) NoData))
      else
        let* existingCustomCode := await (UrlFindOne (ByShortCode customCode)) in
        match existingCustomCode with
        | Some _ => pure (inl (Json 400 false (Some "Custom short code is already taken") NoData))
        | None => pure (inr customCode)
        end
  | None =>
      let* shortCode := await (UrlGenerateShortCode 6) in pure (inr shortCode)
  end%prog.

(** Lines 75-85. *)
Definition parseExpiryDate (expiryDate : option Z) : Throwing (Response + option Z) :=
  match expiryDate with
  | Some parsedExpiryDate =>
      let* now := ask NewDate in
      if parsedExpiryDate <=? now
      then pure (inl (Json 400 false (Some "Expiry date must be in the future") NoData))
      else pure (inr (Some parsedExpiryDate))
  | None => pure (inr None)
  end%prog.

(** What lines 15-96 leave for the insert. *)
Record Prepared : Type := {
  p_userId : ObjectId;
  p_normalizedUrl : string;
  p_urlData : UrlData
}.

(** [s?.trim() || ''] *)
Definition trimOrEmpty `{Host} (s : option string) : string :=
  match s with
  | Some s => trim s
  | None => ""
  end.

(** Lines 15-96: the checks before the insert; [inl] is a response sent
    early. *)
Definition prepare `{Host} (req : CreateRequest) : Throwing (Response + Prepared) :=
  let body := cr_body req in
  match cr_errors req with
  | _ :: _ => pure (inl (Json 400 false (Some "Validation failed") (ErrorList (cr_errors req))))
  | [] =>
      match cr_user req with
      | None => pure (inl (Json 401 false (Some "Authentication required") NoData))
      | Some userId =>
          match urlHostname (rb_originalUrl body) with
          | None => pure (inl (Json 400 false (Some "Please provide a valid URL") NoData))
          | Some _ =>
              let normalizedUrl := trim (rb_originalUrl body) in
              let* chosen := chooseShortCode (rb_customCode body) in
              match chosen with
              | inl response => pure (inl response)
              | inr shortCode =>
                  let* parsed := parseExpiryDate (rb_expiryDate body) in
                  match parsed with
                  | inl response => pure (inl response)
                  | inr parsedExpiryDate =>
                      pure (inr {|
                        p_userId := userId;
                        p_normalizedUrl := normalizedUrl;
                        p_urlData := {|
                          ud_originalUrl := normalizedUrl;
                          ud_shortCode := shortCode;
                          ud_userId := Some userId;
                          ud_title := trimOrEmpty (rb_title body);
                          ud_description := trimOrEmpty (rb_description body);
                          ud_expiryDate := parsedExpiryDate;
                          ud_tags :=
                            match rb_tags body with
                            | Some tags =>
                                List.filter (fun tag => (0 <? String.length tag)%nat)
                                  (trim <$> tags)
                            | None => []
                            end |} |})
                  end
              end
          end
      end
  end%prog.

Definition withQrCode (url : UrlDoc) (qrCodeDataUrl : string) : UrlDoc :=
  {| _id := _id url;
     originalUrl := originalUrl url;
     shortCode := shortCode url;
     userId := userId url;
     title := title url;
     description := description url;
     clicks := clicks url;
     lastClicked := lastClicked url;
     isActive := isActive url;
     expiryDate := expiryDate url;
     qrCode := Some qrCodeDataUrl;
     tags := tags url;
     recentClicks := recentClicks url;
     dailyStats := dailyStats url;
     createdAt := createdAt url;
     updatedAt := updatedAt url |}.

(** Lines 105-113 and 150-157: the QR code, best effort.  The assignment to
    [url.qrCode] precedes the save, so the in-memory document carries the
    code even when the save fails; an error of either call is logged and
    dropped. *)
Definition attachQrCode `{Host} (url : UrlDoc) : Throwing UrlDoc :=
  tryCatch
    (let* qrCodeDataUrl := await (QRCodeToDataURL (shortUrl url)) in
     let url' := withQrCode url qrCodeDataUrl in
     tryCatch (let* _ := await (DocSave url') in pure url')
              (fun qrError => pure url'))
    (fun qrError => pure url).

Definition withShortCode (urlData : UrlData) (newShortCode : string) : UrlData :=
  {| ud_originalUrl := ud_originalUrl urlData;
     ud_shortCode := newShortCode;
     ud_userId := ud_userId urlData;
     ud_title := ud_title urlData;
     ud_description := ud_description urlData;
     ud_expiryDate := ud_expiryDate urlData;
     ud_tags := ud_tags urlData |}.

Definition created `{Host} (url : UrlDoc) : Response :=
  Json 201 true (Some "URL shortened successfully") (UrlPayload (urlView url)).

(** Lines 144-184: one new code, one more insert. *)
Definition retryWithNewCode `{Host} (urlData : UrlData) : Throwing Response :=
  tryCatch
    (let* newShortCode := await (UrlGenerateShortCode 6) in
     let* retryUrl := await (UrlCreate (withShortCode urlData newShortCode)) in
     let* retryUrl := attachQrCode retryUrl in
     pure (created retryUrl))
    (fun retryError =>
       pure (Json 500 false (Some "Failed to generate unique short code. Please try again.")
               NoData)).

(** Lines 186-214: the lookup of the document the owner already has. *)
Definition returnExisting `{Host} (userId : ObjectId) (normalizedUrl : string)
    (error : JsError) : Throwing Response :=
  let* existingUrl := await (UrlFindOne (ByOwnerUrlActive userId normalizedUrl)) in
  match existingUrl with
  | Some existingUrl =>
      pure (Json 200 true (Some "URL already exists") (UrlPayload (urlView existingUrl)))
  | None => throw error
  end.

(** Lines 98-219: the insert and the recovery from duplicate keys;
    [duplicateField] is the first key of [error.keyPattern]. *)
Definition createAndRespond `{Host} (userId : ObjectId) (normalizedUrl : string)
    (urlData : UrlData) : Throwing Response :=
  tryCatch
    (let* url := await (UrlCreate urlData) in
     let* url := attachQrCode url in
     pure (created url))
    (fun error =>
       match error with
       | MongoServerError code keyPattern =>
           if code =? 11000 then
             let duplicateField := head (default [] keyPattern) in
             if decide (duplicateField = Some "shortCode")
             then retryWithNewCode urlData
             else returnExisting userId normalizedUrl error
           else throw error
       | _ => throw error
       end).

(** Lines 222-242: the outer [catch]. *)
Definition createFailed (error : JsError) : Response :=
  match error with
  | ValidationError errors => Json 400 false (Some "Validation failed") (ErrorList errors)
  | _ => Json 500 false (Some "Server error while creating short URL") NoData
  end.

Definition createShortUrl `{Host} (req : CreateRequest) : Prog Response :=
  bindProg
    (let* prepared := prepare req in
     match prepared with
     | inl response => pure response
     | inr p => createAndRespond (p_userId p) (p_normalizedUrl p) (p_urlData p)
     end)%prog
    (fun outcome => match outcome with
                    | Resolved response => Ret response
                    | Rejected error => Ret (createFailed error)
                    end).

(** *** [redirectToOriginal] *)

(** The request as the redirect handler reads it. *)
Record RedirectRequest : Type := {
  rr_errors : list (string * string);
  rr_shortCode : string;
  rr_ip : option string;
  rr_remoteAddress : option string;
  rr_forwardedFor : option string;
  rr_userAgent : option string;
  rr_referer : option string;
  rr_referrer : option string
}.

(** [a || b] on strings that may be undefined. *)
Definition orElse (a b : option string) : option string :=
  match a with
  | Some s => if String.eqb s "" then b else a
  | None => b
  end.

(** Lines 49-53. *)
Definition clickDataOf `{Host} (req : RedirectRequest) : ClickData :=
  {| cd_ip :=
       orElse (rr_ip req)
         (orElse (rr_remoteAddress req)
            ((fun forwarded => trim (Js.beforeFirst "," forwarded)) <$> rr_forwardedFor req));
     cd_userAgent := rr_userAgent req;
     cd_referer := orElse (rr_referer req) (rr_referrer req) |}.

(** Lines 56-70: the click, recorded before the redirect; whatever is
    thrown is logged and dropped. *)
Definition recordClickBeforeRedirect (id : ObjectId) (clickData : ClickData) : Throwing unit :=
  tryCatch
    (let* urlDoc := await (UrlFindById id) in
     match urlDoc with
     | Some urlDoc =>
         if isActive urlDoc
         then let* _ := await (DocIncrementClicks urlDoc clickData) in pure tt
         else pure tt
     | None => pure tt
     end)
    (fun analyticsError => pure tt).

Definition redirectToOriginal `{Host} (req : RedirectRequest) : Prog Response :=
  bindProg
    (match rr_errors req with
     | _ :: _ =>
         pure (Json 400 false (Some "Invalid short code format") (ErrorList (rr_errors req)))
     | [] =>
         let* url := await (UrlFindOne (ByShortCodeActive (rr_shortCode req))) in
         match url with
         | None => pure (Json 404 false (Some "Short URL not found") NoData)
         | Some url =>
             let* expired :=
               match expiryDate url with
               | Some expiry => let* now := ask NewDate in pure (expiry <? now)
               | None => pure false
               end in
             if (expired : bool)
             then pure (Json 410 false (Some "This short URL has expired") NoData)
             else
               let clickData := clickDataOf req in
               let* _ := recordClickBeforeRedirect (_id url) clickData in
               pure (RedirectTo 302 (originalUrl url))
         end
     end)
    (fun outcome => match outcome with
                    | Resolved response => Ret response
                    | Rejected error =>
                        Ret (Json 500 false (Some "Server error during redirect") NoData)
                    end).

(** *** [getUrlAnalytics] *)

Record AnalyticsRequest : Type := {
  aq_id : ObjectId;
  aq_user : option ObjectId
}.

(** [click => click.referer]: a referer that is defined and not empty. *)
Definition hasReferer (click : Click.t) : bool :=
  match Click.referer click with
  | Some r => negb (String.eqb r "")
  | None => false
  end.

(** The accumulator of the [reduce] is a plain object [{}]: a map from its
    own keys, and behind it [Object.prototype].  What the object inherits
    under [key], as the string that [+] makes of it: a method is a native
    function, which Node prints as [function name() { [native code] }];
    [constructor] is [Object]; [__proto__] reads as the prototype itself.
    [None] for every other key, which reads as [undefined]. *)
Definition inheritedText (key : string) : option string :=
  if String.eqb key "__proto__" then Some "[object Object]"
  else if String.eqb key "constructor" then Some "function Object() { [native code] }"
  else if existsb (String.eqb key)
            ["__defineGetter__"; "__defineSetter__"; "hasOwnProperty";
             "__lookupGetter__"; "__lookupSetter__"; "isPrototypeOf";
             "propertyIsEnumerable"; "toString"; "valueOf"; "toLocaleString"]
  then Some ("function " +:+ key +:+ "() { [native code] }")
  else None.

(** [(acc[domain] || 0) + 1], where [own] is the own property of [acc]
    under [domain]: zero and the empty string are falsy, a string takes
    ["1"] at its end. *)
Definition plusOne (own : option Tally) (domain : string) : Tally :=
  match own with
  | Some (Count n) => Count (n + 1)
  | Some (Text s) => if String.eqb s "" then Count 1 else Text (s +:+ "1")
  | None =>
      match inheritedText domain with
      | Some text => Text (text +:+ "1")
      | None => Count 1
      end
  end.

(** [acc[domain] = value]: an own property, but for [__proto__], whose
    setter leaves the object as it is when the value is no object. *)
Definition setProperty (acc : gmap string Tally) (domain : string) (value : Tally)
  : gmap string Tally :=
  if String.eqb domain "__proto__" then acc else <[domain := value]> acc.

(** Lines 440-444: the [reduce] over the clicks that have a referer, from the
    accumulator [acc].  [new URL(click.referer)] throws on a string that is
    no URL, which ends the [reduce]. *)
Fixpoint countReferrers `{Host} (clicks : list Click.t) (acc : gmap string Tally)
  : Settled (gmap string Tally) :=
  match clicks with
  | [] => Resolved acc
  | click :: rest =>
      match urlHostname (default "" (Click.referer click)) with
      | Some domain =>
          countReferrers rest (setProperty acc domain (plusOne (acc !! domain) domain))
      | None => Rejected (TypeError "Invalid URL")
      end
  end.

(** [(a, b) => a.date - b.date], as an order. *)
Definition byDate (a b : DailyStat.t) : Prop := DailyStat.date a <= DailyStat.date b.

#[global] Instance byDate_dec : RelDecision byDate :=
  fun a b => Z_le_dec (DailyStat.date a) (DailyStat.date b).

(** Lines 410-412: the clicks of the last 24 hours, [Date.now()] read anew
    for each click. *)
Fixpoint countLast24Hours (clicks : list Click.t) : Throwing nat :=
  match clicks with
  | [] => pure O
  | click :: rest =>
      let* now := ask NewDate in
      let* n := countLast24Hours rest in
      pure (if now - 24 * 60 * 60 * 1000 <=? Click.timestamp click then S n else n)
  end.

Definition getUrlAnalytics `{Host} (req : AnalyticsRequest) : Prog Response :=
  bindProg
    (match aq_user req with
     | None => throw (TypeError "Cannot read properties of undefined (reading 'id')")
     | Some userId =>
         let* url := await (UrlFindOne (ByIdOwner (aq_id req) userId)) in
         match url with
         | None => pure (Json 404 false (Some "URL not found") NoData)
         | Some url =>
             let* now := ask NewDate in
             let thirtyDaysAgo := daysBefore 30 now in
             let recentStats :=
               merge_sort byDate
                 (List.filter (fun stat => thirtyDaysAgo <=? DailyStat.date stat)
                    (dailyStats url)) in
             let* now := ask NewDate in
             let sevenDaysAgo := daysBefore 7 now in
             let weeklyClicks :=
               sumClicks (List.filter (fun stat => sevenDaysAgo <=? DailyStat.date stat)
                            (dailyStats url)) in
             let monthlyClicks := sumClicks recentStats in
             let* last24Hours := countLast24Hours (recentClicks url) in
             let recentClicksAnalysis :=
               {| rc_total := length (recentClicks url);
                  rc_last24Hours := last24Hours;
                  rc_last7Days :=
                    length (List.filter (fun click => sevenDaysAgo <=? Click.timestamp click)
                              (recentClicks url)) |} in
             let* clickRateNow := ask NewDate in
             let* topReferrers :=
               Ret (countReferrers (List.filter hasReferer (recentClicks url)) ∅) in
             let* isExpired :=
               match expiryDate url with
               | Some expiry => let* now := ask NewDate in pure (expiry <? now)
               | None => pure false
               end in
             pure (Json 200 true None
                     (AnalyticsPayload url
                        {| an_totalClicks := clicks url;
                           an_weeklyClicks := weeklyClicks;
                           an_monthlyClicks := monthlyClicks;
                           an_recentClicks := recentClicksAnalysis;
                           an_dailyStats := recentStats;
                           an_topReferrers := topReferrers;
                           an_isExpired := isExpired |}))
         end
     end)
    (fun outcome => match outcome with
                    | Resolved response => Ret response
                    | Rejected error =>
                        Ret (Json 500 false (Some "Server error while fetching analytics")
                               NoData)
                    end).

(** ** A database to run the handlers against *)

(** What may happen between two calls of a handler: nothing, a lost
    connection that fails the next database call, or another request whose
    insert or deactivation lands first. *)
Inductive Interference : Type :=
| Quiet
| Outage
| OtherCreate (urlData : UrlData)
| OtherDeactivate (id : ObjectId).
    (** [updateUrl] with [isActive: false] (urlController.js, lines 523-529) *)

(** The collection with what surrounds it: a clock that advances by one
    millisecond at each reading, the next [_id], the randomness of each call
    of [generateShortCode], the QR library, what is still to interfere, and
    whether an update fell outside the schema's shape (see
    [applyDailyStats]). *)
Record Mongo : Type := {
  urls : gmap ObjectId UrlDoc;
  clock : Z;
  nextId : ObjectId;
  chanceOf : nat -> Chance;
  generated : nat;
  qrLibrary : string -> Settled string;
  others : list Interference;
  offSchema : bool
}.

Definition withUrls (w : Mongo) (urls' : gmap ObjectId UrlDoc) : Mongo :=
  {| urls := urls'; clock := clock w; nextId := nextId w; chanceOf := chanceOf w;
     generated := generated w; qrLibrary := qrLibrary w; others := others w;
     offSchema := offSchema w |}.

Definition tick (n : Z) (w : Mongo) : Mongo :=
  {| urls := urls w; clock := clock w + n; nextId := nextId w; chanceOf := chanceOf w;
     generated := generated w; qrLibrary := qrLibrary w; others := others w;
     offSchema := offSchema w |}.

(** The setters of the schema ([trim: true]). *)
Definition castUrlData `{Host} (u : UrlData) : UrlData :=
  {| ud_originalUrl := trim (ud_originalUrl u);
     ud_shortCode := trim (ud_shortCode u);
     ud_userId := ud_userId u;
     ud_title := trim (ud_title u);
     ud_description := trim (ud_description u);
     ud_expiryDate := ud_expiryDate u;
     ud_tags := trim <$> ud_tags u |}.

(** The validators of the schema, one error at most for each path, as
    pairs of path and message. *)
Definition validateUrlData `{Host} (now : Z) (u : UrlData) : list (string * string) :=
  (if String.eqb (ud_originalUrl u) "" then [("originalUrl", "Original URL is required")]
   else match urlHostname (ud_originalUrl u) with
        | Some _ => []
        | None => [("originalUrl", "Please provide a valid URL")]
        end)
  ++ (if String.eqb (ud_shortCode u) "" then [("shortCode", "Short code is required")]
      else if (String.length (ud_shortCode u) <? 4)%nat
      then [("shortCode", "Short code must be at least 4 characters")]
      else if (10 <? String.length (ud_shortCode u))%nat
      then [("shortCode", "Short code cannot exceed 10 characters")]
      else if negb (Js.allChars isCodeChar (ud_shortCode u))
      then [("shortCode",
             "Short code can only contain letters, numbers, hyphens, and underscores")]
      else [])
  ++ (if (200 <? String.length (ud_title u))%nat
      then [("title", "Title cannot exceed 200 characters")] else [])
  ++ (if (500 <? String.length (ud_description u))%nat
      then [("description", "Description cannot exceed 500 characters")] else [])
  ++ (match ud_expiryDate u with
      | Some date => if now <? date then []
                     else [("expiryDate", "Expiry date must be in the future")]
      | None => []
      end)
  ++ (if forallb (fun tag => (String.length tag <=? 50)%nat) (ud_tags u) then []
      else [("tags", "Tag cannot exceed 50 characters")]).

(** The unique indexes: [shortCode] (line 43) and
    [{ userId, originalUrl, isActive }] (line 126).  The keys of the first
    index that a stored document shares with [doc], the schema's own index
    first. *)
Definition sameOwnerUrl (doc d : UrlDoc) : bool :=
  bool_decide (userId d = userId doc)
  && String.eqb (originalUrl d) (originalUrl doc)
  && Bool.eqb (isActive d) (isActive doc).

Definition duplicateKey (doc : UrlDoc) (store : gmap ObjectId UrlDoc)
  : option (list string) :=
  match findOne (byShortCode (shortCode doc)) store with
  | Some _ => Some ["shortCode"]
  | None =>
      match findOne (sameOwnerUrl doc) store with
      | Some _ => Some ["userId"; "originalUrl"; "isActive"]
      | None => None
      end
  end.

(** [Url.create(urlData)]: cast, validate, insert. *)
Definition mongoCreate `{Host} (urlData : UrlData) (w : Mongo) : Settled UrlDoc * Mongo :=
  let doc := newDoc (nextId w) (clock w) (castUrlData urlData) in
  match validateUrlData (clock w) (castUrlData urlData) with
  | _ :: _ as errors => (Rejected (ValidationError errors), tick 1 w)
  | [] =>
      match duplicateKey doc (urls w) with
      | Some keyPattern =>
          (Rejected (MongoServerError 11000 (Some keyPattern)), tick 1 w)
      | None =>
          (Resolved doc,
           {| urls := <[nextId w := doc]> (urls w); clock := clock w + 1;
              nextId := N.succ (nextId w); chanceOf := chanceOf w;
              generated := generated w; qrLibrary := qrLibrary w;
              others := others w; offSchema := offSchema w |})
      end
  end.

Definition stampQrCode (qr : option string) (stamp : Z) (d : UrlDoc) : UrlDoc :=
  {| _id := _id d; originalUrl := originalUrl d; shortCode := shortCode d;
     userId := userId d; title := title d; description := description d;
     clicks := clicks d; lastClicked := lastClicked d; isActive := isActive d;
     expiryDate := expiryDate d; qrCode := qr; tags := tags d;
     recentClicks := recentClicks d; dailyStats := dailyStats d;
     createdAt := createdAt d; updatedAt := stamp |}.

(** [url.save()] after [url.qrCode = ...]: the modified path and
    [updatedAt] are written to the stored document. *)
Definition mongoSave (doc : UrlDoc) (w : Mongo) : Settled UrlDoc * Mongo :=
  match urls w !! _id doc with
  | Some stored =>
      let saved := stampQrCode (qrCode doc) (clock w) doc in
      (Resolved saved,
       tick 1 (withUrls w (<[_id doc := stampQrCode (qrCode doc) (clock w) stored]> (urls w))))
  | None =>
      (Rejected (OtherError "No document found for query"), tick 1 w)
  end.

Definition deactivate (d : UrlDoc) : UrlDoc :=
  {| _id := _id d; originalUrl := originalUrl d; shortCode := shortCode d;
     userId := userId d; title := title d; description := description d;
     clicks := clicks d; lastClicked := lastClicked d; isActive := false;
     expiryDate := expiryDate d; qrCode := qrCode d; tags := tags d;
     recentClicks := recentClicks d; dailyStats := dailyStats d;
     createdAt := createdAt d; updatedAt := updatedAt d |}.

(** [urlDoc.incrementClicks(clickData)], with two readings of the clock. *)
Definition mongoIncrementClicks `{Host} (doc : UrlDoc) (clickData : ClickData) (w : Mongo)
  : Settled UrlDoc * Mongo :=
  match incrementClicks (clock w) (clock w + 1) clickData doc (urls w) with
  | Returned result store' _ => (Resolved result, tick 2 (withUrls w store'))
  | Threw e => (Rejected e, tick 2 w)
  | OffSchema =>
      (Rejected (OtherError "update beyond the stored array"),
       {| urls := urls w; clock := clock w + 2; nextId := nextId w;
          chanceOf := chanceOf w; generated := generated w;
          qrLibrary := qrLibrary w; others := others w; offSchema := true |})
  end.

Definition disturb `{Host} (i : Interference) (w : Mongo) : Mongo :=
  match i with
  | Quiet | Outage => w
  | OtherCreate urlData => snd (mongoCreate urlData w)
  | OtherDeactivate id => withUrls w (alter deactivate id (urls w))
  end.

Definition connectionLost : JsError := OtherError "connection lost".

(** The answer to a call: first what interferes, then the call itself. *)
Definition mongoAnswer `{Host} (A : Type) (call : Call A) (w0 : Mongo) : A * Mongo :=
  let i := hd Quiet (others w0) in
  let w := disturb i
             {| urls := urls w0; clock := clock w0; nextId := nextId w0;
                chanceOf := chanceOf w0; generated := generated w0;
                qrLibrary := qrLibrary w0; others := tl (others w0);
                offSchema := offSchema w0 |} in
  let down := match i with Outage => true | _ => false end in
  match call in Call A return A * Mongo with
  | UrlFindOne q =>
      if down then (Rejected connectionLost, w)
      else (Resolved (findOne (matches q) (urls w)), w)
  | UrlFindById id =>
      if down then (Rejected connectionLost, w)
      else (Resolved (urls w !! id), w)
  | UrlCreate urlData =>
      if down then (Rejected connectionLost, w) else mongoCreate urlData w
  | UrlGenerateShortCode length =>
      if down then (Rejected connectionLost, w)
      else (generateShortCode (chanceOf w (generated w)) (urls w) length,
            {| urls := urls w; clock := clock w; nextId := nextId w;
               chanceOf := chanceOf w; generated := S (generated w);
               qrLibrary := qrLibrary w; others := others w;
               offSchema := offSchema w |})
  | DocSave doc =>
      if down then (Rejected connectionLost, w) else mongoSave doc w
  | DocIncrementClicks doc clickData =>
      if down then (Rejected connectionLost, w) else mongoIncrementClicks doc clickData w
  | QRCodeToDataURL text => (qrLibrary w text, w)
  | NewDate => (clock w, tick 1 w)
  end.

Definition mongoEnv `{Host} : Env := {| world := Mongo; answer := mongoAnswer |}.

(** The database a run leaves behind. *)
Definition after {R : Type} (env : Env) (p : Prog R) (w : world env) : world env :=
  snd (fst (run env p w)).

(** The bounds of the two windows (lines 105, 198 and 213). *)
Definition withinBounds (d : UrlDoc) : Prop :=
  (length (recentClicks d) <= 1000)%nat /\ (length (dailyStats d) <= 365)%nat.

Definition boundedStore (store : gmap ObjectId UrlDoc) : Prop :=
  forall id d, store !! id = Some d -> withinBounds d.

(** *** Sample data *)

(** A host in UTC, with no [BASE_URL] set, that trims ASCII white space and
    whose URL parser accepts exactly the references that start with
    [http://] or [https://], taking the host up to the first slash; a small
    instance to evaluate the model on. *)
Definition utcHost : Host :=
  {| localMidnight := fun now => now - now mod 86400000;
     urlHostname := fun s =>
       if String.prefix "https://" s
       then Some (Js.beforeFirst "/" (String.substring 8 (String.length s) s))
       else if String.prefix "http://" s
       then Some (Js.beforeFirst "/" (String.substring 7 (String.length s) s))
       else None;
     trim := Js.trimAscii;
     daysBefore := fun n now => now - n * 86400000;
     env_BASE_URL := None |}.

Definition sampleData : UrlData :=
  {| ud_originalUrl := "https://example.com";
     ud_shortCode := "abc123";
     ud_userId := Some 7%N;
     ud_title := "";
     ud_description := "";
     ud_expiryDate := None;
     ud_tags := [] |}.

(** A document as [Url.create] leaves it, created on 2023-11-14 at
    22:13:20 UTC. *)
Definition sampleDoc : UrlDoc := newDoc 1%N 1700000000000 sampleData.

Definition sampleStore : gmap ObjectId UrlDoc := {[ 1%N := sampleDoc ]}.

Definition sampleClick : ClickData :=
  {| cd_ip := Some "203.0.113.9";
     cd_userAgent := Some "curl/8.0";
     cd_referer := Some "https://news.example.org/item?id=1" |}.

Definition sampleArrival : Arrival :=
  {| ar_now := 1700000300000; ar_stamp := 1700000300005; ar_data := sampleClick |}.

(** The same click one day later. *)
Definition nextDayArrival : Arrival :=
  {| ar_now := 1700086700000; ar_stamp := 1700086700004; ar_data := sampleClick |}.

(** A call whose random bytes are all zero, at 2023-11-14 22:13:20 UTC,
    with [Math.random()] equal to one half for the fallback. *)
Definition zeroChance : Chance :=
  {| cryptoThrows := fun _ => false;
     randomBytes := fun _ _ => x00;
     mathRandom := fun _ _ => 0%N;
     dateNow := 1700000000000%N;
     mathRandom36 := "0.i" |}.

(** A collection in which the code of six zero bytes is taken. *)
Definition takenStore : gmap ObjectId UrlDoc :=
  {[ 1%N := newDoc 1%N 1700000000000
              {| ud_originalUrl := "https://example.com";
                 ud_shortCode := "aaaaaa";
                 ud_userId := Some 7%N;
                 ud_title := "";
                 ud_description := "";
                 ud_expiryDate := None;
                 ud_tags := [] |} ]}.

(** Randomness whose bytes all equal [b]. *)
Definition constChance (b : byte) : Chance :=
  {| cryptoThrows := fun _ => false;
     randomBytes := fun _ _ => b;
     mathRandom := fun _ _ => 0%N;
     dateNow := 1700000000000%N;
     mathRandom36 := "0.i" |}.

(** A database holding [store], five minutes after the sample document was
    created; the [n]-th call of [generateShortCode] draws the byte [n]
    throughout ("aaaaaa", then "bbbbbb", ...). *)
Definition sampleMongo (store : gmap ObjectId UrlDoc) (others : list Interference)
  : Mongo :=
  {| urls := store;
     clock := 1700000300000;
     nextId := 2%N;
     chanceOf := fun n => constChance (nth n [x00; x01; x02; x03] x04);
     generated := O;
     qrLibrary := fun text => Resolved ("data:image/png;base64," +:+ text);
     others := others;
     offSchema := false |}.

Definition sampleCreate : CreateRequest :=
  {| cr_errors := [];
     cr_user := Some 7%N;
     cr_body := {| rb_originalUrl := "https://example.com";
                   rb_customCode := None;
                   rb_title := None;
                   rb_description := None;
                   rb_expiryDate := None;
                   rb_tags := None |} |}.

(** What the sample request leaves for the insert when it draws "aaaaaa",
    and the same with "bbbbbb". *)
Definition sampleFirstData : UrlData :=
  {| ud_originalUrl := "https://example.com";
     ud_shortCode := "aaaaaa";
     ud_userId := Some 7%N;
     ud_title := "";
     ud_description := "";
     ud_expiryDate := None;
     ud_tags := [] |}.

Definition sampleRetryData : UrlData :=
  {| ud_originalUrl := "https://example.com";
     ud_shortCode := "bbbbbb";
     ud_userId := Some 7%N;
     ud_title := "";
     ud_description := "";
     ud_expiryDate := None;
     ud_tags := [] |}.

(** Another owner's request for another page that happens to draw the
    code "aaaaaa". *)
Definition racerA : UrlData :=
  {| ud_originalUrl := "https://other.example.net/a";
     ud_shortCode := "aaaaaa";
     ud_userId := Some 8%N;
     ud_title := "";
     ud_description := "";
     ud_expiryDate := None;
     ud_tags := [] |}.

(** And one that draws "bbbbbb". *)
Definition racerB : UrlData :=
  {| ud_originalUrl := "https://other.example.net/b";
     ud_shortCode := "bbbbbb";
     ud_userId := Some 9%N;
     ud_title := "";
     ud_description := "";
     ud_expiryDate := None;
     ud_tags := [] |}.

Definition sampleRedirect : RedirectRequest :=
  {| rr_errors := [];
     rr_shortCode := "abc123";
     rr_ip := Some "203.0.113.9";
     rr_remoteAddress := None;
     rr_forwardedFor := None;
     rr_userAgent := Some "curl/8.0";
     rr_referer := Some "not a url";
     rr_referrer := None |}.

Definition sampleAnalytics : AnalyticsRequest :=
  {| aq_id := 1%N; aq_user := Some 7%N |}.

(** The sample collection after one redirect of the sample request, whose
    [Referer] header is no URL. *)
Definition clickedStore : gmap ObjectId UrlDoc :=
  urls (snd (fst (run (mongoEnv (H := utcHost))
                    (redirectToOriginal (H := utcHost) sampleRedirect)
                    (sampleMongo sampleStore [])))).

(** The sample document after three clicks: the sample arrival, and two
    nine days later, a minute apart. *)
Definition visitedStore : gmap ObjectId UrlDoc :=
  default sampleStore
    (recordClicks (H := utcHost) 1%N
       [sampleArrival;
        {| ar_now := 1700777900000; ar_stamp := 1700777900004; ar_data := sampleClick |};
        {| ar_now := 1700777960000; ar_stamp := 1700777960003; ar_data := sampleClick |}]
       sampleStore).

Definition visitedDoc : UrlDoc := default sampleDoc (visitedStore !! 1%N).

(** The database holding [store] half a day after the last of these
    clicks. *)
Definition laterMongo (store : gmap ObjectId UrlDoc) : Mongo :=
  tick 820860000 (sampleMongo store []).

(** ** Further code of the model and of the handlers *)

(** *** Days of clicks *)

(** The day [incrementClicks] books an arrival on. *)
Definition arrivalDay `{Host} (a : Arrival) : Z := localMidnight (ar_now a).

(** The entry [incrementClicks] pushes for the first click of a day. *)
Definition firstOfDay `{Host} (a : Arrival) : DailyStat.t :=
  DailyStat.Build (arrivalDay a) 1.


(** The arrivals of [clicks] recorded one after the other from the clock
    reading [t], each call reading the clock twice. *)
Fixpoint arrivalsFrom (t : Z) (clicks : list ClickData) : list Arrival :=
  match clicks with
  | [] => []
  | clickData :: rest =>
      {| ar_now := t; ar_stamp := t + 1; ar_data := clickData |}
        :: arrivalsFrom (t + 2) rest
  end.

(** *** Redirects that arrive together *)

(** Redirects of one document whose [Url.findById]
    (redirectController.js, line 60) all resolved to [urlDoc] before the
    update of any of them landed: [incrementClicks] then runs for each on
    its own copy, equal to [urlDoc], against the collection as the updates
    before it left it.  [None] when a call does not return. *)
Fixpoint recordTogether `{Host} (urlDoc : UrlDoc) (arrivals : list Arrival)
    (store : gmap ObjectId UrlDoc) : option (gmap ObjectId UrlDoc) :=
  match arrivals with
  | [] => Some store
  | a :: rest =>
      match incrementClicks (ar_now a) (ar_stamp a) (ar_data a) urlDoc store with
      | Returned _ store' _ => recordTogether urlDoc rest store'
      | _ => None
      end
  end.

(** Bursts of such redirects of the document [id], one burst after the
    other: the redirects of a burst fetch the document as the bursts before
    left it. *)
Fixpoint recordBursts `{Host} (id : ObjectId) (bursts : list (list Arrival))
    (store : gmap ObjectId UrlDoc) : option (gmap ObjectId UrlDoc) :=
  match bursts with
  | [] => Some store
  | burst :: rest =>
      match store !! id with
      | Some urlDoc =>
          match recordTogether urlDoc burst store with
          | Some store' => recordBursts id rest store'
          | None => None
          end
      | None => None
      end
  end.



(** *** Kinds of calls *)

(** The events that record a click. *)
Definition isIncrement (event : Event) : bool :=
  match event with
  | Answered call _ => match call with DocIncrementClicks _ _ => true | _ => false end
  end.

(** The events that only read: a query or the clock. *)
Definition isLookup (event : Event) : bool :=
  match event with
  | Answered call _ =>
      match call with
      | UrlFindOne _ | UrlFindById _ | NewDate => true
      | _ => false
      end
  end.

(** The events whose call was rejected. *)
Definition isRejection (event : Event) : bool :=
  match event with
  | Answered call a =>
      let settled {R : Type} (r : Settled R) : bool :=
        match r with Rejected _ => true | Resolved _ => false end in
      match call in Call A return A -> bool with
      | UrlFindOne _ => settled
      | UrlFindById _ => settled
      | UrlCreate _ => settled
      | UrlGenerateShortCode _ => settled
      | DocSave _ => settled
      | DocIncrementClicks _ _ => settled
      | QRCodeToDataURL _ => settled
      | NewDate => fun _ => false
      end a
  end.

(** *** [getUrlPreview] (controllers/redirectController.js) *)

(** [data] of the preview.  [isExpired] is the value of
    [url.expiryDate && new Date(url.expiryDate) < new Date()]: the
    [expiryDate] itself, [null], for a document that has none. *)
Record Preview : Type := {
  pv_shortCode : string;
  pv_originalUrl : string;
  pv_title : string;
  pv_description : string;
  pv_clicks : Z;
  pv_lastClicked : option Z;
  pv_createdAt : Z;
  pv_isExpired : option bool;
  pv_expiryDate : option Z;
  pv_qrCode : option string
}.

(** What the preview handler sends: [res.json({ success: true, data })] or
    [res.status(status).json({ success: false, message })]. *)
Inductive PreviewResponse : Type :=
| PreviewOf (data : Preview)
| NoPreview (status : Z) (message : string).

Definition getUrlPreview (params_shortCode : string) : Prog PreviewResponse :=
  bindProg
    (let* url := await (UrlFindOne (ByShortCodeActive params_shortCode)) in
     match url with
     | None => pure (NoPreview 404 "Short URL not found")
     | Some url =>
         let* isExpired :=
           match expiryDate url with
           | Some expiry => let* now := ask NewDate in pure (Some (expiry <? now))
           | None => pure None
           end in
         pure (PreviewOf {| pv_shortCode := shortCode url;
                            pv_originalUrl := originalUrl url;
                            pv_title := title url;
                            pv_description := description url;
                            pv_clicks := clicks url;
                            pv_lastClicked := lastClicked url;
                            pv_createdAt := createdAt url;
                            pv_isExpired := isExpired;
                            pv_expiryDate := expiryDate url;
                            pv_qrCode := qrCode url |})
     end)
    (fun outcome => match outcome with
                    | Resolved response => Ret response
                    | Rejected error =>
                        Ret (NoPreview 500 "Server error while fetching URL preview")
                    end).

(** *** [getQRCode] (controllers/redirectController.js) *)

Definition dataUrlPrefix : string := "data:image/png;base64,".

(** [s.replace(/^data:image\/png;base64,/, '')] *)
Definition withoutDataUrlPrefix (s : string) : string :=
  if String.prefix dataUrlPrefix s
  then String.substring (String.length dataUrlPrefix)
         (String.length s - String.length dataUrlPrefix) s
  else s.

(** What the QR handler sends: the image, given here by the base-64 text
    that [Buffer.from(base64Data, 'base64')] decodes, or
    [res.status(status).json({ success: false, message })]. *)
Inductive QrResponse : Type :=
| QrImage (base64Data : string)
| NoQr (status : Z) (message : string).

Definition getQRCode (params_shortCode : string) : Prog QrResponse :=
  bindProg
    (let* url := await (UrlFindOne (ByShortCodeActive params_shortCode)) in
     match url with
     | None => pure (NoQr 404 "Short URL not found")
     | Some url =>
         match qrCode url with
         | Some qr =>
             if String.eqb qr ""
             then pure (NoQr 404 "QR code not available for this URL")
             else pure (QrImage (withoutDataUrlPrefix qr))
         | None => pure (NoQr 404 "QR code not available for this URL")
         end
     end)
    (fun outcome => match outcome with
                    | Resolved response => Ret response
                    | Rejected error => Ret (NoQr 500 "Server error while fetching QR code")
                    end).

(** *** [bulkUpdateClicks]: the clicks of one document
    (controllers/redirectController.js, lines 214-226) *)

(** Lines 219-221: the clicks of one group, one after the other, each on
    the in-memory document as the call before left it
    ([Object.assign(this, result.toObject())]). *)
Fixpoint incrementEach (url : UrlDoc) (urlClicks : list ClickData) : Throwing unit :=
  match urlClicks with
  | [] => pure tt
  | clickData :: rest =>
      let* result := await (DocIncrementClicks url clickData) in
      incrementEach result rest
  end.

(** Lines 214-226: the callback of one group; whatever is thrown is logged
    and dropped. *)
Definition updateClicksOf (urlId : ObjectId) (urlClicks : list ClickData)
  : Throwing unit :=
  tryCatch
    (let* url := await (UrlFindById urlId) in
     match url with
     | Some url => if isActive url then incrementEach url urlClicks else pure tt
     | None => pure tt
     end)
    (fun error => pure tt).

(** *** The reduce of [topReferrers] *)





(** *** utils/validators.js *)

(** [isValidShortCode]: the pattern, which needs one character at least,
    and the two bounds on the length. *)
Definition isValidShortCode (code : string) : bool :=
  (negb (String.eqb code "") && Js.allChars isCodeChar code)
  && (4 <=? String.length code)%nat
  && (String.length code <=? 10)%nat.











(** [s.replace(/[<>]/g, '')] *)
Fixpoint removeAngleBrackets (s : string) : string :=
  match s with
  | EmptyString => EmptyString
  | String c s' =>
      if Ascii.eqb c "<" || Ascii.eqb c ">"
      then removeAngleBrackets s'
      else String c (removeAngleBrackets s')
  end.

(** [sanitizeInput] on a string (any other value is returned as it is). *)
Definition sanitizeInput `{Host} (input : string) : string :=
  removeAngleBrackets (trim input).

(** *** What the collection keeps *)

(** Every document is stored under its [_id]. *)
Definition keyedById (store : gmap ObjectId UrlDoc) : Prop :=
  forall id d, store !! id = Some d -> _id d = id.

(** The unique index on [shortCode] (line 43). *)
Definition uniqueCodes (store : gmap ObjectId UrlDoc) : Prop :=
  forall id1 id2 d1 d2,
    store !! id1 = Some d1 -> store !! id2 = Some d2 ->
    shortCode d1 = shortCode d2 -> id1 = id2.

(** Both at once. *)
Definition consistent (store : gmap ObjectId UrlDoc) : Prop :=
  keyedById store /\ uniqueCodes store.

(** The document that a view describes is stored under its [_id], active,
    without clicks, and it alone has its code. *)
Definition storedAs (store : gmap ObjectId UrlDoc) (v : UrlView) : Prop :=
  exists d,
    store !! v_id v = Some d /\
    _id d = v_id v /\
    shortCode d = v_shortCode v /\
    originalUrl d = v_originalUrl v /\
    expiryDate d = v_expiryDate v /\
    qrCode d = v_qrCode v /\
    isActive d = true /\
    clicks d = 0 /\
    recentClicks d = [] /\
    dailyStats d = [] /\
    forall id' d', store !! id' = Some d' -> shortCode d' = v_shortCode v -> id' = v_id v.

(** The document that a view describes belongs to [owner] and leads to
    [url]. *)
Definition ownedAs (store : gmap ObjectId UrlDoc) (v : UrlView)
    (owner : option ObjectId) (url : string) : Prop :=
  forall d, store !! v_id v = Some d -> userId d = owner /\ originalUrl d = url.

(** The daily entries of a document are non-negative and sum to at most its
    [clicks]. *)
Definition dailyWithinClicks (d : UrlDoc) : Prop :=
  Forall (fun s => 0 <= DailyStat.clicks s) (dailyStats d) /\
  sumClicks (dailyStats d) <= clicks d.

(** Every stored document is such a document. *)
Definition allWithinClicks (w : Mongo) : Prop :=
  forall id d, urls w !! id = Some d -> dailyWithinClicks d.

(** Every [_id] in use is below the next one to be given. *)
Definition freshIds (w : Mongo) : Prop :=
  forall id, is_Some (urls w !! id) -> (id < nextId w)%N.

(** Every document of [before] is still in [after], with the same code,
    address and owner and at least as many clicks. *)
Definition persists (before after : gmap ObjectId UrlDoc) : Prop :=
  forall id d,
    before !! id = Some d ->
    exists d',
      after !! id = Some d' /\
      clicks d <= clicks d' /\
      shortCode d' = shortCode d /\
      originalUrl d' = originalUrl d /\
      userId d' = userId d.

(** * Properties *)

(** ** Lists kept to their last elements *)

Section SliceLast.
Context {A : Type}.
Implicit Types (l : list A) (x : A) (n : nat).

Lemma sliceLast_length n l : length (sliceLast n l) = Nat.min n (length l).
Proof. unfold sliceLast. rewrite length_drop. lia. Qed.

Lemma sliceLast_all n l : (length l <= n)%nat -> sliceLast n l = l.
Proof.
  intros Hle. unfold sliceLast.
  replace (length l - n)%nat with O by lia. reflexivity.
Qed.

Lemma sliceLast_suffix n l : sliceLast n l `suffix_of` l.
Proof. unfold sliceLast. apply suffix_drop. Qed.

Lemma sliceLast_app_r n l k :
  sliceLast n (sliceLast n l ++ k) = sliceLast n (l ++ k).
Proof.
  unfold sliceLast.
  rewrite !length_app, length_drop.
  destruct (decide (length l <= n)%nat) as [Hl|Hl].
  - replace (length l - n)%nat with O by lia. rewrite drop_0.
    now replace (length l - 0)%nat with (length l) by lia.
  - rewrite !drop_app, drop_drop, length_drop. f_equal; f_equal; lia.
Qed.

Lemma pushSlice_last n l x : (0 < n)%nat -> last (pushSlice x n l) = Some x.
Proof.
  intros Hn. unfold pushSlice, sliceLast.
  rewrite length_app. simpl.
  rewrite drop_app_le by lia.
  apply last_snoc.
Qed.

Lemma pushSlice_length n l x :
  length (pushSlice x n l) = Nat.min n (S (length l)).
Proof.
  unfold pushSlice. rewrite sliceLast_length, length_app. simpl. lia.
Qed.
End SliceLast.

(** ** [findIndex] *)

Lemma findIndex_Some today l i :
  findIndex today l = Some i ->
  exists s, l !! i = Some s /\ DailyStat.date s = today /\
    forall j s', (j < i)%nat -> l !! j = Some s' -> DailyStat.date s' <> today.
Proof.
  revert i. induction l as [|s l IH]; intros i Hfind; simpl in Hfind.
  - discriminate.
  - destruct (DailyStat.date s =? today) eqn:Hd.
    + injection Hfind as <-. exists s. repeat split.
      * now apply Z.eqb_eq.
      * intros j s' Hj. lia.
    + destruct (findIndex today l) as [i'|] eqn:Hrec; [|discriminate].
      injection Hfind as <-.
      destruct (IH i' eq_refl) as (s0 & Hs0 & Hdate & Hbefore).
      exists s0. repeat split; [exact Hs0 | exact Hdate |].
      intros [|j] s' Hj Hlook; simpl in Hlook.
      * injection Hlook as <-. now apply Z.eqb_neq.
      * apply (Hbefore j); [lia | exact Hlook].
Qed.

Lemma findIndex_None today l :
  findIndex today l = None <->
  forall s, s ∈ l -> DailyStat.date s <> today.
Proof.
  induction l as [|s l IH]; simpl.
  - split; [intros _ s Hs; inversion Hs | reflexivity].
  - destruct (DailyStat.date s =? today) eqn:Hd.
    + split; [discriminate|].
      intros Hall. apply Z.eqb_eq in Hd. exfalso.
      apply (Hall s); [left | exact Hd].
    + apply Z.eqb_neq in Hd. destruct (findIndex today l) as [i|].
      * split; [discriminate|]. intros Hall.
        assert (Some i = None) as Hn by (apply IH; intros s' Hs'; apply Hall; now right).
        discriminate.
      * split; [|reflexivity]. intros _ s' Hs'.
        apply elem_of_cons in Hs' as [->|Hs']; [exact Hd|].
        now apply IH.
Qed.

(** ** One click *)

Section OneClick.
Context `{Host}.

(** What one call does to the stored document when the in-memory document
    is the stored one. *)
Lemma incrementClicks_returns now stamp clickData this store :
  store !! _id this = Some this ->
  exists result,
    applyUpdate stamp (updateData this now clickData) this = Some result /\
    incrementClicks now stamp clickData this store
      = Returned result (<[_id this := result]> store) (userId this).
Proof.
  intros Hstored. unfold incrementClicks. rewrite Hstored.
  unfold applyUpdate, updateData; simpl.
  destruct (findIndex (localMidnight now) (dailyStats this)) as [i|] eqn:Hfind; simpl.
  - destruct (findIndex_Some _ _ _ Hfind) as (s & Hs & _).
    rewrite Hs. eexists; split; reflexivity.
  - eexists; split; reflexivity.
Qed.
End OneClick.

(** A call of [incrementClicks] whose in-memory document is the stored one,
    as when no other update lands between the [findById] of the redirect and
    its update: the call returns, and the stored document then has [clicks]
    one higher, [lastClicked] equal to the clock reading, [recentClicks]
    equal to the last 1000 entries of the old list followed by the new
    entry, and [dailyStats] either with the first entry dated today
    incremented by one in place, or, when no entry is dated today, equal to
    the last 365 entries of the old list followed by a new entry for today
    with one click. *)
Theorem incrementClicks_records_one_click `{Host} now stamp clickData this store :
  store !! _id this = Some this ->
  let today := localMidnight now in
  let entry := Click.Build now (cd_ip clickData) (cd_userAgent clickData)
                 (cd_referer clickData) in
  let fresh := DailyStat.Build today 1 in
  exists result,
    incrementClicks now stamp clickData this store
      = Returned result (<[_id this := result]> store) (userId this) /\
    clicks result = clicks this + 1 /\
    lastClicked result = Some now /\
    recentClicks result
      = drop (length (recentClicks this ++ [entry]) - 1000) (recentClicks this ++ [entry]) /\
    ((exists i s,
         dailyStats this !! i = Some s /\ DailyStat.date s = today /\
         (forall j s', (j < i)%nat -> dailyStats this !! j = Some s' ->
                       DailyStat.date s' <> today) /\
         dailyStats result
           = <[i := DailyStat.Build today (DailyStat.clicks s + 1)]> (dailyStats this))
     \/
     ((forall s, s ∈ dailyStats this -> DailyStat.date s <> today) /\
      dailyStats result
        = drop (length (dailyStats this ++ [fresh]) - 365) (dailyStats this ++ [fresh]))).
Proof.
  intros Hstored today entry fresh.
  unfold incrementClicks. rewrite Hstored.
  unfold applyUpdate, updateData; simpl. fold today.
  destruct (findIndex today (dailyStats this)) as [i|] eqn:Hfind; simpl.
  - destruct (findIndex_Some _ _ _ Hfind) as (s & Hs & Hdate & Hfirst).
    rewrite Hs. eexists. split; [reflexivity|]. simpl.
    repeat split. left. exists i, s. repeat split; try assumption.
    unfold incStat. now rewrite Hdate.
  - eexists. split; [reflexivity|]. simpl.
    repeat split. right. split; [|reflexivity].
    now apply findIndex_None.
Qed.

Lemma incrementClicks_records_one_click_witness :
  exists result,
    incrementClicks (H := utcHost) 1700000300000 1700000300005 sampleClick
      sampleDoc sampleStore
      = Returned result (<[1%N := result]> sampleStore) (Some 7%N) /\
    clicks result = 1 /\
    lastClicked result = Some 1700000300000 /\
    length (recentClicks result) = 1%nat /\
    dailyStats result = [DailyStat.Build 1699920000000 1].
Proof.
  destruct (incrementClicks_records_one_click (H := utcHost)
              1700000300000 1700000300005 sampleClick sampleDoc sampleStore)
    as (result & Hret & Hclicks & Hlast & Hrecent & Hdaily).
  - reflexivity.
  - exists result. split; [exact Hret|]. split; [exact Hclicks|].
    split; [exact Hlast|]. split.
    + rewrite Hrecent. reflexivity.
    + destruct Hdaily as [(i & s & Hs & _)|[_ Hpush]].
      * destruct i; discriminate Hs.
      * rewrite Hpush. reflexivity.
Defined.

(** C9. After a call of [incrementClicks] on a stored document, [lastClicked]
    of the stored document is the timestamp of the last entry of its
    [recentClicks], and both are the clock reading of the call. *)
Theorem incrementClicks_lastClicked_is_last_timestamp `{Host}
    now stamp clickData this store :
  store !! _id this = Some this ->
  exists result store' task,
    incrementClicks now stamp clickData this store = Returned result store' task /\
    store' !! _id this = Some result /\
    lastClicked result = Click.timestamp <$> last (recentClicks result) /\
    lastClicked result = Some now.
Proof.
  intros Hstored.
  destruct (incrementClicks_returns now stamp clickData this store Hstored)
    as (result & Happly & Hret).
  exists result, (<[_id this := result]> store), (userId this).
  split; [exact Hret|]. split; [apply lookup_insert_eq|].
  unfold applyUpdate in Happly.
  destruct (applyDailyStats _ _); [|discriminate].
  injection Happly as <-. simpl.
  rewrite pushSlice_last by lia. simpl. split; reflexivity.
Qed.

Lemma incrementClicks_lastClicked_is_last_timestamp_witness :
  exists result store' task,
    incrementClicks (H := utcHost) 1700000300000 1700000300005 sampleClick
      sampleDoc sampleStore = Returned result store' task /\
    store' !! 1%N = Some result /\
    lastClicked result = Click.timestamp <$> last (recentClicks result) /\
    lastClicked result = Some 1700000300000.
Proof.
  apply (incrementClicks_lastClicked_is_last_timestamp (H := utcHost)
           1700000300000 1700000300005 sampleClick sampleDoc sampleStore).
  reflexivity.
Defined.

(** C10. A call of [incrementClicks] on a stored document leaves every field
    of that document other than [clicks], [lastClicked], [recentClicks],
    [dailyStats] and [updatedAt] as it was, and leaves every other document
    of the collection as it was. *)
Theorem incrementClicks_frame `{Host} now stamp clickData this store :
  store !! _id this = Some this ->
  exists result store' task,
    incrementClicks now stamp clickData this store = Returned result store' task /\
    store' !! _id this = Some result /\
    (forall id, id <> _id this -> store' !! id = store !! id) /\
    _id result = _id this /\
    originalUrl result = originalUrl this /\
    shortCode result = shortCode this /\
    userId result = userId this /\
    title result = title this /\
    description result = description this /\
    isActive result = isActive this /\
    expiryDate result = expiryDate this /\
    qrCode result = qrCode this /\
    tags result = tags this /\
    createdAt result = createdAt this /\
    updatedAt result = stamp.
Proof.
  intros Hstored.
  destruct (incrementClicks_returns now stamp clickData this store Hstored)
    as (result & Happly & Hret).
  exists result, (<[_id this := result]> store), (userId this).
  split; [exact Hret|]. split; [apply lookup_insert_eq|].
  split; [intros id Hid; now apply lookup_insert_ne|].
  unfold applyUpdate in Happly.
  destruct (applyDailyStats _ _); [|discriminate].
  injection Happly as <-. simpl. repeat split.
Qed.

Lemma incrementClicks_frame_witness :
  exists result store' task,
    incrementClicks (H := utcHost) 1700000300000 1700000300005 sampleClick
      sampleDoc sampleStore = Returned result store' task /\
    store' !! 1%N = Some result /\
    (forall id, id <> 1%N -> store' !! id = sampleStore !! id) /\
    _id result = 1%N /\
    originalUrl result = "https://example.com" /\
    shortCode result = "abc123" /\
    userId result = Some 7%N /\
    title result = "" /\
    description result = "" /\
    isActive result = true /\
    expiryDate result = None /\
    qrCode result = None /\
    tags result = [] /\
    createdAt result = 1700000000000 /\
    updatedAt result = 1700000300005.
Proof.
  apply (incrementClicks_frame (H := utcHost)
           1700000300000 1700000300005 sampleClick sampleDoc sampleStore).
  reflexivity.
Defined.

(** ** Sequences of clicks *)

Section Sequences.
Context `{Host}.

(** The stored document after one arrival, when it is the document the
    call runs on. *)
Lemma applyUpdate_self a d :
  exists d', applyUpdate (ar_stamp a) (updateData d (ar_now a) (ar_data a)) d = Some d' /\
             _id d' = _id d.
Proof.
  unfold applyUpdate, updateData; simpl.
  destruct (findIndex _ _) as [i|] eqn:Hfind; simpl.
  - destruct (findIndex_Some _ _ _ Hfind) as (s & Hs & _).
    rewrite Hs. eexists; split; reflexivity.
  - eexists; split; reflexivity.
Qed.

(** A property of the stored document and of the arrivals still to come
    that every click carries over holds at the end of the sequence, and
    the sequence runs to its end. *)
Lemma recordClicks_invariant (I : UrlDoc -> list Arrival -> Prop) id :
  (forall d a rest d',
      I d (a :: rest) ->
      applyUpdate (ar_stamp a) (updateData d (ar_now a) (ar_data a)) d = Some d' ->
      I d' rest) ->
  forall arrivals store d,
    store !! id = Some d -> _id d = id -> I d arrivals ->
    exists store' d',
      recordClicks id arrivals store = Some store' /\
      store' !! id = Some d' /\ _id d' = id /\ I d' [] /\
      (forall id', id' <> id -> store' !! id' = store !! id').
Proof.
  intros Hstep arrivals.
  induction arrivals as [|a rest IH]; intros store d Hd Hid Hinv; simpl.
  - exists store, d. repeat split; assumption.
  - rewrite Hd. unfold incrementClicks. rewrite Hid, Hd.
    destruct (applyUpdate_self a d) as (d' & Happly & Hid').
    rewrite Happly.
    destruct (IH (<[id := d']> store) d') as (store' & d'' & Hrun & Hd'' & Hid'' & Hinv' & Hframe).
    + apply lookup_insert_eq.
    + congruence.
    + eapply Hstep; eassumption.
    + exists store', d''. repeat split; try assumption.
      intros id' Hne. rewrite Hframe by assumption. now apply lookup_insert_ne.
Qed.

Lemma applyUpdate_recentClicks a d d' :
  applyUpdate (ar_stamp a) (updateData d (ar_now a) (ar_data a)) d = Some d' ->
  recentClicks d' = pushSlice (clickOf a) 1000 (recentClicks d).
Proof.
  unfold applyUpdate. destruct (applyDailyStats _ _); [|discriminate].
  intros [= <-]. reflexivity.
Qed.

Lemma applyUpdate_clicks a d d' :
  applyUpdate (ar_stamp a) (updateData d (ar_now a) (ar_data a)) d = Some d' ->
  clicks d' = clicks d + 1.
Proof.
  unfold applyUpdate. destruct (applyDailyStats _ _); [|discriminate].
  intros [= <-]. reflexivity.
Qed.

Lemma applyUpdate_dailyStats a d d' :
  applyUpdate (ar_stamp a) (updateData d (ar_now a) (ar_data a)) d = Some d' ->
  let today := localMidnight (ar_now a) in
  (exists i s, dailyStats d !! i = Some s /\ DailyStat.date s = today /\
               dailyStats d' = <[i := incStat 1 s]> (dailyStats d))
  \/ ((forall s, s ∈ dailyStats d -> DailyStat.date s <> today) /\
      dailyStats d' = pushSlice (DailyStat.Build today 1) 365 (dailyStats d)).
Proof.
  unfold applyUpdate, updateData; simpl.
  destruct (findIndex _ _) as [i|] eqn:Hfind; simpl.
  - destruct (findIndex_Some _ _ _ Hfind) as (s & Hs & Hdate & _).
    rewrite Hs. intros [= <-]. left. exists i, s. simpl. auto.
  - intros [= <-]. right. simpl. split; [|reflexivity].
    now apply findIndex_None.
Qed.
End Sequences.

(** ** Totals of [dailyStats] *)

Lemma sumClicks_from acc stats :
  fold_left (fun sum stat => sum + DailyStat.clicks stat) stats acc
  = acc + sumClicks stats.
Proof.
  unfold sumClicks. revert acc.
  induction stats as [|s stats IH]; intros acc; simpl.
  - lia.
  - rewrite IH, (IH (0 + _)). lia.
Qed.

Lemma sumClicks_cons s stats :
  sumClicks (s :: stats) = DailyStat.clicks s + sumClicks stats.
Proof. unfold sumClicks at 1. simpl. rewrite sumClicks_from. lia. Qed.

Lemma sumClicks_app stats1 stats2 :
  sumClicks (stats1 ++ stats2) = sumClicks stats1 + sumClicks stats2.
Proof.
  induction stats1 as [|s stats1 IH]; simpl.
  - unfold sumClicks at 2. simpl. lia.
  - rewrite !sumClicks_cons, IH. lia.
Qed.

Lemma sumClicks_insert stats i s s' :
  stats !! i = Some s ->
  sumClicks (<[i := s']> stats)
  = sumClicks stats - DailyStat.clicks s + DailyStat.clicks s'.
Proof.
  revert i. induction stats as [|s0 stats IH]; intros [|i] Hlook;
    simpl in *; try discriminate.
  - injection Hlook as ->. rewrite !sumClicks_cons. lia.
  - rewrite !sumClicks_cons, (IH i Hlook). lia.
Qed.

(** ** The bounds of the windows, operation by operation *)

Section Bounds.
Context `{Host}.

Lemma applyUpdate_bounds this now stamp clickData stored result :
  applyUpdate stamp (updateData this now clickData) stored = Some result ->
  (length (dailyStats stored) <= 365)%nat ->
  withinBounds result.
Proof.
  unfold applyUpdate, updateData; simpl. intros Happly Hstats.
  destruct (findIndex _ (dailyStats this)) as [i|]; simpl in Happly.
  - destruct (dailyStats stored !! i) as [s|]; [|discriminate].
    injection Happly as <-. split; simpl.
    + rewrite pushSlice_length. lia.
    + now rewrite length_insert.
  - injection Happly as <-. split; simpl; rewrite pushSlice_length; lia.
Qed.

Lemma incrementClicks_bounds now stamp clickData this store result store' task :
  boundedStore store ->
  incrementClicks now stamp clickData this store = Returned result store' task ->
  boundedStore store'.
Proof.
  intros Hbounded. unfold incrementClicks.
  destruct (store !! _id this) as [stored|] eqn:Hstored; [|discriminate].
  destruct (applyUpdate _ _ stored) as [result'|] eqn:Happly; [|discriminate].
  intros [= <- <- _] id d Hd.
  apply lookup_insert_Some in Hd as [[_ <-]|[_ Hd]]; [|now apply (Hbounded id)].
  eapply applyUpdate_bounds; [exact Happly|].
  now destruct (Hbounded _ _ Hstored).
Qed.

Lemma mongoCreate_bounds urlData (w : Mongo) :
  boundedStore (urls w) -> boundedStore (urls (snd (mongoCreate urlData w))).
Proof.
  intros Hbounded. unfold mongoCreate.
  destruct (validateUrlData _ _); [|exact Hbounded].
  destruct (duplicateKey _ _); [exact Hbounded|]. simpl.
  intros id d Hd.
  apply lookup_insert_Some in Hd as [[_ <-]|[_ Hd]]; [|now apply (Hbounded id)].
  split; simpl; lia.
Qed.

Lemma mongoSave_bounds doc (w : Mongo) :
  boundedStore (urls w) -> boundedStore (urls (snd (mongoSave doc w))).
Proof.
  intros Hbounded. unfold mongoSave.
  destruct (urls w !! _id doc) as [stored|] eqn:Hstored; [|exact Hbounded]. simpl.
  intros id d Hd.
  apply lookup_insert_Some in Hd as [[_ <-]|[_ Hd]]; [|now apply (Hbounded id)].
  exact (Hbounded _ _ Hstored).
Qed.

Lemma mongoIncrementClicks_bounds doc clickData (w : Mongo) :
  boundedStore (urls w) ->
  boundedStore (urls (snd (mongoIncrementClicks doc clickData w))).
Proof.
  intros Hbounded. unfold mongoIncrementClicks.
  destruct (incrementClicks _ _ _ _ _) as [result store' task|e|] eqn:Hclick;
    try exact Hbounded.
  simpl. eapply incrementClicks_bounds; eassumption.
Qed.

Lemma disturb_bounds i (w : Mongo) :
  boundedStore (urls w) -> boundedStore (urls (disturb i w)).
Proof.
  intros Hbounded. destruct i as [| |urlData|id']; simpl; try exact Hbounded.
  - now apply mongoCreate_bounds.
  - intros id d Hd. apply lookup_alter_Some in Hd as [(_ & d' & Hd' & ->)|[_ Hd]].
    + exact (Hbounded _ _ Hd').
    + exact (Hbounded _ _ Hd).
Qed.

(** Every answered call, whatever its arguments and whatever interferes,
    leaves the stored documents within the bounds. *)
Lemma mongoAnswer_bounds A (call : Call A) (w : Mongo) :
  boundedStore (urls w) -> boundedStore (urls (snd (mongoAnswer A call w))).
Proof.
  intros Hbounded. unfold mongoAnswer.
  set (w' := disturb _ _).
  assert (boundedStore (urls w')) as Hbounded' by now apply disturb_bounds.
  clearbody w'.
  destruct call; destruct (match hd Quiet (others w) with Outage => true | _ => false end);
    try exact Hbounded'.
  - now apply mongoCreate_bounds.
  - now apply mongoSave_bounds.
  - now apply mongoIncrementClicks_bounds.
Qed.

Lemma run_bounds {R : Type} (handler : Prog R) (w : Mongo) :
  boundedStore (urls w) -> boundedStore (urls (after mongoEnv handler w)).
Proof.
  unfold after. revert w. induction handler as [r|A call k IH]; intros w Hbounded.
  - exact Hbounded.
  - simpl. pose proof (mongoAnswer_bounds A call w Hbounded) as Hstep.
    destruct (mongoAnswer A call w) as [a w1]. simpl in Hstep.
    specialize (IH a w1 Hstep).
    now destruct (run mongoEnv (k a) w1) as [[r w2] events].
Qed.
End Bounds.

(** C6. Starting from a database whose documents are within the bounds, the
    run of any handler leaves every document with at most 1000
    [recentClicks] and at most 365 [dailyStats].  A sequence of clicks on one
    document runs to its end within the bounds and leaves [recentClicks]
    equal to the last 1000 of the old entries followed by the new ones in
    order of arrival; so after 1500 clicks it has exactly 1000 entries, those
    of the last 1000 arrivals. *)
Theorem recordClicks_bounded_windows `{Host} {R : Type} (handler : Prog R)
    (w : Mongo) id arrivals d0 :
  boundedStore (urls w) ->
  urls w !! id = Some d0 -> _id d0 = id ->
  boundedStore (urls (after mongoEnv handler w)) /\
  exists store' d,
    recordClicks id arrivals (urls w) = Some store' /\
    store' !! id = Some d /\
    withinBounds d /\
    recentClicks d
      = drop (length (recentClicks d0 ++ (clickOf <$> arrivals)) - 1000)
          (recentClicks d0 ++ (clickOf <$> arrivals)) /\
    (length arrivals = 1500%nat ->
     length (recentClicks d) = 1000%nat /\
     recentClicks d = clickOf <$> drop 500 arrivals).
Proof.
  intros Hbounded Hd0 Hid. split; [now apply run_bounds|].
  destruct (Hbounded _ _ Hd0) as [Hrecent Hdaily].
  set (target := sliceLast 1000 (recentClicks d0 ++ (clickOf <$> arrivals))).
  destruct (recordClicks_invariant
              (fun d rest =>
                 withinBounds d /\
                 sliceLast 1000 (recentClicks d ++ (clickOf <$> rest)) = target)
              id) with (arrivals := arrivals) (store := urls w) (d := d0)
    as (store' & d & Hrun & Hd & _ & ([Hr Hs] & Htarget) & _);
    try assumption.
  - intros d a rest d' ([Hr Hs] & Htarget) Happly. split.
    + eapply applyUpdate_bounds; eassumption.
    + rewrite (applyUpdate_recentClicks _ _ _ Happly). unfold pushSlice.
      rewrite sliceLast_app_r, <- Htarget.
      simpl. now rewrite <- app_assoc.
  - split; [split; assumption | reflexivity].
  - exists store', d. split; [exact Hrun|]. split; [exact Hd|].
    split; [split; assumption|].
    simpl in Htarget. rewrite app_nil_r, sliceLast_all in Htarget by exact Hr.
    split; [exact Htarget|].
    intros Hlen. rewrite Htarget. unfold target, sliceLast.
    rewrite length_app, length_fmap, Hlen.
    rewrite drop_app_ge by lia.
    replace (length (recentClicks d0) + 1500 - 1000 - length (recentClicks d0))%nat
      with 500%nat by lia.
    rewrite <- fmap_drop. split; [|reflexivity].
    rewrite length_fmap, length_drop. lia.
Qed.

Lemma recordClicks_bounded_windows_witness :
  boundedStore
    (urls (after (mongoEnv (H := utcHost)) (redirectToOriginal (H := utcHost) sampleRedirect)
             (sampleMongo sampleStore []))) /\
  exists store' d,
    recordClicks (H := utcHost) 1%N (replicate 1500 sampleArrival) sampleStore
      = Some store' /\
    store' !! 1%N = Some d /\
    length (recentClicks d) = 1000%nat /\
    (length (dailyStats d) <= 365)%nat /\
    recentClicks d = clickOf <$> drop 500 (replicate 1500 sampleArrival).
Proof.
  destruct (recordClicks_bounded_windows (H := utcHost)
              (redirectToOriginal (H := utcHost) sampleRedirect)
              (sampleMongo sampleStore []) 1%N (replicate 1500 sampleArrival) sampleDoc)
    as (Hafter & store' & d & Hrun & Hd & [_ Hs] & _ & Hlast).
  - intros id d Hd. change (sampleStore !! id = Some d) in Hd.
    unfold sampleStore in Hd. apply lookup_singleton_Some in Hd as [_ <-].
    split; simpl; lia.
  - reflexivity.
  - reflexivity.
  - split; [exact Hafter|].
    destruct (Hlast (length_replicate 1500 sampleArrival)) as [Hlen Heq].
    exists store', d. repeat split; assumption.
Defined.

(** Incrementing an entry leaves the dates as they were. *)
Lemma dates_insert_incStat (stats : list DailyStat.t) i s :
  stats !! i = Some s ->
  DailyStat.date <$> <[i := incStat 1 s]> stats = DailyStat.date <$> stats.
Proof.
  intros Hs. rewrite list_fmap_insert. apply list_insert_id.
  rewrite list_lookup_fmap, Hs. reflexivity.
Qed.

(** Clicks recorded one after the other, each on the document as the click
    before left it.  Starting from a stored document with no clicks and no
    daily entries, as creation leaves it, such a sequence that falls on at
    most 365 distinct days, so that no daily entry is evicted, runs to its
    end and leaves [clicks] equal to the sum of the [clicks] of all
    [dailyStats] entries, and equal to the number of clicks recorded. *)
Theorem clicks_is_sum_of_dailyStats `{Host} id arrivals store d0 :
  store !! id = Some d0 -> _id d0 = id ->
  clicks d0 = 0 -> dailyStats d0 = [] ->
  (length (remove_dups ((fun a => localMidnight (ar_now a)) <$> arrivals)) <= 365)%nat ->
  exists store' d,
    recordClicks id arrivals store = Some store' /\
    store' !! id = Some d /\
    clicks d = sumClicks (dailyStats d) /\
    clicks d = Z.of_nat (length arrivals).
Proof.
  intros Hd0 Hid Hclicks Hstats Hdays.
  set (dayOf := fun a => localMidnight (ar_now a)) in *.
  set (days := dayOf <$> arrivals) in *.
  destruct (recordClicks_invariant
              (fun d rest =>
                 NoDup (DailyStat.date <$> dailyStats d) /\
                 (forall x, x ∈ DailyStat.date <$> dailyStats d -> x ∈ days) /\
                 (forall a, a ∈ rest -> dayOf a ∈ days) /\
                 clicks d = sumClicks (dailyStats d) /\
                 clicks d + Z.of_nat (length rest) = Z.of_nat (length arrivals))
              id) with (arrivals := arrivals) (store := store) (d := d0)
    as (store' & d & Hrun & Hd & _ & (_ & _ & _ & Hsum & Hcount) & _);
    try assumption.
  - intros d a rest d' (Hnodup & Hsub & Hrest & Hsum & Hcount) Happly.
    pose proof (applyUpdate_clicks _ _ _ Happly) as Hc.
    assert (forall a', a' ∈ rest -> dayOf a' ∈ days) as Hrest'
        by (intros a' Ha'; apply Hrest; now right).
    assert (clicks d' + Z.of_nat (length rest) = Z.of_nat (length arrivals)) as Hcount'
        by (simpl in Hcount; lia).
    destruct (applyUpdate_dailyStats _ _ _ Happly)
      as [(i & s & Hs & Hdate & Heq)|[Hnone Heq]]; rewrite Heq.
    + rewrite (dates_insert_incStat _ _ _ Hs).
      repeat split; try assumption.
      rewrite (sumClicks_insert _ _ _ _ Hs). simpl. lia.
    + set (today := localMidnight (ar_now a)) in *.
      assert (today ∉ DailyStat.date <$> dailyStats d) as Hfresh.
      { intros Hin. apply list_elem_of_fmap in Hin as (s & Hs & Hin).
        now apply (Hnone s Hin). }
      assert (today ∈ days) as Htoday by (apply Hrest; left).
      assert (NoDup (today :: (DailyStat.date <$> dailyStats d))) as Hnodup'
          by (apply NoDup_cons; split; assumption).
      assert (length (today :: (DailyStat.date <$> dailyStats d))
              <= length (remove_dups days))%nat as Hlen.
      { apply submseteq_length, NoDup_submseteq; [exact Hnodup'|].
        intros x Hx. apply elem_of_remove_dups.
        apply elem_of_cons in Hx as [->|Hx]; [exact Htoday | now apply Hsub]. }
      simpl in Hlen. rewrite length_fmap in Hlen.
      unfold pushSlice. rewrite sliceLast_all by (rewrite length_app; simpl; lia).
      rewrite fmap_app. simpl. repeat split; try assumption.
      * apply NoDup_app. split; [exact Hnodup|]. split; [|apply NoDup_singleton].
        intros x Hx Hx'. apply list_elem_of_singleton in Hx'. subst x. contradiction.
      * intros x Hx. apply elem_of_app in Hx as [Hx|Hx]; [now apply Hsub|].
        apply list_elem_of_singleton in Hx. now subst x.
      * rewrite sumClicks_app, sumClicks_cons. unfold sumClicks at 2. simpl. lia.
  - rewrite Hstats. simpl. repeat split.
    + apply NoDup_nil_2.
    + intros x Hx. inversion Hx.
    + intros a Ha. unfold days. now apply list_elem_of_fmap_2.
    + rewrite Hclicks. reflexivity.
    + lia.
  - exists store', d. simpl in Hcount. repeat split; try assumption. lia.
Qed.

Lemma clicks_is_sum_of_dailyStats_witness :
  exists store' d,
    recordClicks (H := utcHost) 1%N
      [sampleArrival; nextDayArrival; nextDayArrival] sampleStore = Some store' /\
    store' !! 1%N = Some d /\
    clicks d = sumClicks (dailyStats d) /\
    clicks d = 3.
Proof.
  apply (clicks_is_sum_of_dailyStats (H := utcHost) 1%N
           [sampleArrival; nextDayArrival; nextDayArrival] sampleStore sampleDoc).
  - reflexivity.
  - reflexivity.
  - reflexivity.
  - reflexivity.
  - vm_compute. lia.
Defined.

(** ** Clicks that arrive together *)

Section Together.
Context `{Host}.




End Together.

(** Bursts of one redirect each are the clicks recorded one after the
    other. *)
Lemma recordBursts_one_by_one `{Host} id arrivals :
  forall store,
    recordBursts id ((fun a => [a]) <$> arrivals) store = recordClicks id arrivals store.
Proof.
  induction arrivals as [|a rest IH]; intros store; [reflexivity|].
  cbn [fmap list_fmap recordBursts recordClicks recordTogether].
  destruct (store !! id) as [urlDoc|]; [|reflexivity].
  destruct (incrementClicks _ _ _ urlDoc store); try reflexivity.
  apply IH.
Qed.

(** C1, on the code.  Two redirects of one document on one day, both of
    which fetched the document before the update of either landed, on a day
    the fetched document has no entry for: both calls return and both push
    an entry for the day.  When the second update lands the stored document
    has an entry for the day, with one click; the update does not increment
    that entry but appends a second entry for the same day. *)
Theorem recordTogether_appends_the_day_twice `{Host} this store a1 a2 :
  store !! _id this = Some this ->
  arrivalDay a2 = arrivalDay a1 ->
  (forall s, s ∈ dailyStats this -> DailyStat.date s <> arrivalDay a1) ->
  (length (dailyStats this) + 2 <= 365)%nat ->
  let today := arrivalDay a1 in
  exists first store1 second store2,
    incrementClicks (ar_now a1) (ar_stamp a1) (ar_data a1) this store
      = Returned first store1 (userId this) /\
    store1 !! _id this = Some first /\
    dailyStats first = dailyStats this ++ [DailyStat.Build today 1] /\
    incrementClicks (ar_now a2) (ar_stamp a2) (ar_data a2) this store1
      = Returned second store2 (userId this) /\
    store2 !! _id this = Some second /\
    recordTogether this [a1; a2] store = Some store2 /\
    clicks second = clicks this + 2 /\
    dailyStats second
      = dailyStats this ++ [DailyStat.Build today 1; DailyStat.Build today 1].
Proof.
  intros Hstored Hsame Hnew Hroom today.
  pose proof (proj2 (findIndex_None _ _) Hnew) as Hfind1.
  assert (findIndex (arrivalDay a2) (dailyStats this) = None) as Hfind2
    by now rewrite Hsame.
  unfold arrivalDay in Hfind1, Hfind2.
  do 4 eexists.
  split.
  { unfold incrementClicks. rewrite Hstored.
    unfold applyUpdate, updateData. cbn. rewrite Hfind1. cbn. reflexivity. }
  split; [apply lookup_insert_eq|].
  split.
  { cbn. unfold pushSlice. rewrite sliceLast_all by (rewrite length_app; cbn; lia).
    reflexivity. }
  split.
  { unfold incrementClicks. rewrite lookup_insert_eq.
    unfold applyUpdate, updateData. cbn. rewrite Hfind2. cbn. reflexivity. }
  split; [apply lookup_insert_eq|].
  split.
  { cbn [recordTogether]. unfold incrementClicks. rewrite Hstored.
    unfold applyUpdate, updateData. cbn. rewrite Hfind1. cbn.
    rewrite lookup_insert_eq. cbn. rewrite Hfind2. cbn. reflexivity. }
  split; [cbn; lia|].
  cbn. unfold pushSlice.
  rewrite (sliceLast_all 365 (dailyStats this ++ _)) by (rewrite length_app; cbn; lia).
  rewrite sliceLast_all by (rewrite !length_app; cbn; lia).
  rewrite <- app_assoc. cbn. unfold arrivalDay in Hsame. rewrite Hsame. reflexivity.
Qed.

(** Two redirects of the sample document a quarter of a second apart, both
    with the document as it was created: the day is there twice. *)
Lemma recordTogether_appends_the_day_twice_witness :
  exists store2 second,
    recordTogether (H := utcHost) sampleDoc
      [{| ar_now := 1700000300000; ar_stamp := 1700000300003; ar_data := sampleClick |};
       {| ar_now := 1700000300250; ar_stamp := 1700000300252; ar_data := sampleClick |}]
      sampleStore
      = Some store2 /\
    store2 !! 1%N = Some second /\
    clicks second = 2 /\
    dailyStats second
      = [DailyStat.Build 1699920000000 1; DailyStat.Build 1699920000000 1].
Proof.
  destruct (recordTogether_appends_the_day_twice (H := utcHost) sampleDoc sampleStore
              {| ar_now := 1700000300000; ar_stamp := 1700000300003;
                 ar_data := sampleClick |}
              {| ar_now := 1700000300250; ar_stamp := 1700000300252;
                 ar_data := sampleClick |})
    as (first & store1 & second & store2 & _ & _ & _ & _ & Hsecond & Hrun & Hclicks & Hstats).
  - reflexivity.
  - reflexivity.
  - intros s Hs. inversion Hs.
  - cbn. lia.
  - exists store2, second. split; [exact Hrun|]. split; [exact Hsecond|].
    split; [exact Hclicks | exact Hstats].
Defined.

(** A copy that has an entry for today at an index where the stored array
    by now holds another entry, as after a push that evicted the oldest
    entry: the entry at that index is incremented, whatever its day. *)
Lemma incrementClicks_increments_at_the_index_of_the_copy `{Host}
    now stamp clickData this stored store i s :
  store !! _id this = Some stored ->
  findIndex (localMidnight now) (dailyStats this) = Some i ->
  dailyStats stored !! i = Some s ->
  exists result,
    incrementClicks now stamp clickData this store
      = Returned result (<[_id this := result]> store) (userId this) /\
    dailyStats result
      = <[i := DailyStat.Build (DailyStat.date s) (DailyStat.clicks s + 1)]>
          (dailyStats stored).
Proof.
  intros Hstored Hfind Hs. unfold incrementClicks. rewrite Hstored.
  unfold applyUpdate, updateData. cbn. rewrite Hfind. cbn. rewrite Hs.
  eexists. split; reflexivity.
Qed.



(** ** Strings *)

Section Strings.
Implicit Types (s t : string) (p : ascii -> bool) (c : ascii).

Lemma append_length s t :
  String.length (s +:+ t) = (String.length s + String.length t)%nat.
Proof.
  induction s as [|c s IH]; [reflexivity|].
  change (String c s +:+ t) with (String c (s +:+ t)).
  simpl. now rewrite IH.
Qed.

Lemma allChars_append p s t :
  Js.allChars p (s +:+ t) = Js.allChars p s && Js.allChars p t.
Proof.
  induction s as [|c s IH]; [reflexivity|].
  change (String c s +:+ t) with (String c (s +:+ t)).
  simpl. rewrite IH. now rewrite andb_assoc.
Qed.

Lemma substring_length n m s :
  String.length (String.substring n m s)
  = Nat.min m (String.length s - n).
Proof.
  revert n m. induction s as [|c s IH]; intros [|n] [|m];
    cbn [String.substring String.length]; try reflexivity;
    rewrite IH; lia.
Qed.

Lemma allChars_substring p n m s :
  Js.allChars p s = true -> Js.allChars p (String.substring n m s) = true.
Proof.
  revert n m. induction s as [|c s IH]; intros [|n] [|m]; simpl;
    try reflexivity; intros Hall; apply andb_true_iff in Hall as [Hc Hs];
    try (now apply IH).
  rewrite Hc. simpl. now apply IH.
Qed.

Lemma allChars_impl p q s :
  (forall c, p c = true -> q c = true) ->
  Js.allChars p s = true -> Js.allChars q s = true.
Proof.
  intros Hpq. induction s as [|c s IH]; simpl; [reflexivity|].
  intros Hall. apply andb_true_iff in Hall as [Hc Hs].
  now rewrite (Hpq c Hc), IH.
Qed.

Lemma charAt_occurs s i :
  (i < String.length s)%nat ->
  exists c, Js.charAt s i = String c EmptyString /\ Js.occurs c s = true.
Proof.
  unfold Js.charAt. revert i.
  induction s as [|d s IH]; intros i Hi; simpl in Hi; [lia|].
  destruct i as [|i]; simpl.
  - exists d. split; [reflexivity|]. now rewrite Ascii.eqb_refl.
  - destruct (IH i) as (c & Hget & Hocc); [lia|].
    exists c. split; [exact Hget|].
    rewrite Hocc. now destruct (Ascii.eqb c d).
Qed.
End Strings.

(** The string [characters] lists the class of the schema's pattern. *)
Lemma occurs_characters c : Js.occurs c characters = isCodeChar c.
Proof. destruct c as [[] [] [] [] [] [] [] []]; vm_compute; reflexivity. Qed.

(** The base-36 digits are among them. *)
Lemma digits36_are_characters c :
  Js.occurs c Js.digits36 = true -> isCodeChar c = true.
Proof. destruct c as [[] [] [] [] [] [] [] []]; vm_compute; congruence. Qed.

Lemma toString36_loop_digits fuel n acc :
  Js.allChars (fun c => Js.occurs c Js.digits36) acc = true ->
  Js.allChars (fun c => Js.occurs c Js.digits36) (Js.toString36_loop fuel n acc) = true.
Proof.
  revert n acc. induction fuel as [|fuel IH]; intros n acc Hacc; simpl; [exact Hacc|].
  destruct (charAt_occurs Js.digits36 (N.to_nat (n mod 36))) as (c & Hc & Hocc).
  { change (String.length Js.digits36) with 36%nat.
    pose proof (N.mod_upper_bound n 36). lia. }
  assert (Js.allChars (fun c => Js.occurs c Js.digits36)
            (Js.charAt Js.digits36 (N.to_nat (n mod 36)) +:+ acc) = true) as Hacc'.
  { rewrite allChars_append, Hc, Hacc. cbn [Js.allChars]. now rewrite Hocc. }
  destruct (n / 36 =? 0)%N; [exact Hacc' | now apply IH].
Qed.

Lemma toString36_digits n :
  Js.allChars (fun c => Js.occurs c Js.digits36) (Js.toString36 n) = true.
Proof. unfold Js.toString36. now apply toString36_loop_digits. Qed.

(** ** Base 36 *)

Lemma digitValue_digits36 (k : nat) :
  (k < 36)%nat ->
  exists c, Js.charAt Js.digits36 k = String c EmptyString /\
            Js.digitValue c = Some (N.of_nat k).
Proof.
  intros Hk.
  do 36 (destruct k as [|k]; [eexists; split; reflexivity|]).
  lia.
Qed.

Lemma parse36_toString36_loop fuel n acc :
  (n < 2 ^ N.of_nat fuel)%N ->
  exists k, forall a,
    Js.parse36_loop (Js.toString36_loop fuel n acc) a
    = Js.parse36_loop acc (a * 36 ^ k + n)%N.
Proof.
  revert n acc. induction fuel as [|fuel IH]; intros n acc Hn.
  - exists 0%N. intros a. simpl in *. f_equal. lia.
  - cbn [Js.toString36_loop].
    destruct (digitValue_digits36 (N.to_nat (n mod 36))) as (c & Hc & Hvalue).
    { pose proof (N.mod_upper_bound n 36). lia. }
    rewrite Hc. change (String c "" +:+ acc) with (String c acc).
    pose proof (N.Div0.div_mod n 36) as Hdivmod.
    destruct (n / 36 =? 0)%N eqn:Hzero.
    + apply N.eqb_eq in Hzero. exists 1%N. intros a. simpl.
      rewrite Hvalue. f_equal. lia.
    + destruct (IH (n / 36)%N (String c acc)) as (k & Hk).
      { apply N.Div0.div_lt_upper_bound.
        rewrite Nat2N.inj_succ, N.pow_succ_r' in Hn. lia. }
      exists (k + 1)%N. intros a. rewrite Hk. simpl. rewrite Hvalue.
      f_equal. rewrite N.pow_add_r. lia.
Qed.

(** Reading back what [toString36] wrote gives the number: the fuel of
    [toString36] is enough for all the digits. *)
Lemma parse36_toString36 n : Js.parse36 (Js.toString36 n) = Some n.
Proof.
  unfold Js.parse36, Js.toString36.
  destruct (parse36_toString36_loop (S (N.to_nat (N.log2 n))) n EmptyString) as (k & Hk).
  - rewrite Nat2N.inj_succ, N2Nat.id.
    destruct (N.eq_dec n 0%N) as [->|Hpos]; [reflexivity|].
    apply N.log2_spec. lia.
  - rewrite Hk. simpl. reflexivity.
Qed.

(** The fallback when the attempts of length 10 all collide and
    [Math.random()] is one half: nine characters, the string is not padded. *)
Example fallbackCode_not_padded :
  fallbackCode zeroChance 10 = "loyw3v28i".
Proof. reflexivity. Qed.

(** The loop only prepends. *)
Lemma toString36_loop_grows fuel :
  forall n acc,
    (String.length acc <= String.length (Js.toString36_loop fuel n acc))%nat.
Proof.
  induction fuel as [|fuel IH]; intros n acc; cbn [Js.toString36_loop]; [lia|].
  destruct (digitValue_digits36 (N.to_nat (n mod 36))) as (ch & -> & _).
  { pose proof (N.mod_upper_bound n 36). lia. }
  change (String ch "" +:+ acc) with (String ch acc).
  destruct (n / 36 =? 0)%N.
  - simpl. lia.
  - specialize (IH (n / 36)%N (String ch acc)). simpl in IH. lia.
Qed.

(** A number of at least [36 ^ k] has more than [k] digits in base 36. *)
Lemma toString36_loop_at_least (k : nat) :
  forall fuel n acc,
    (k < fuel)%nat -> (36 ^ N.of_nat k <= n)%N ->
    (S k + String.length acc <= String.length (Js.toString36_loop fuel n acc))%nat.
Proof.
  induction k as [|k IH]; intros fuel n acc Hfuel Hn;
    (destruct fuel as [|fuel]; [lia|]); cbn [Js.toString36_loop];
    (destruct (digitValue_digits36 (N.to_nat (n mod 36))) as (ch & -> & _);
     [pose proof (N.mod_upper_bound n 36); lia|]);
    change (String ch "" +:+ acc) with (String ch acc).
  - destruct (n / 36 =? 0)%N; [simpl; lia|].
    pose proof (toString36_loop_grows fuel (n / 36)%N (String ch acc)) as Hgrows.
    simpl in Hgrows. lia.
  - rewrite Nat2N.inj_succ, N.pow_succ_r' in Hn.
    assert (36 ^ N.of_nat k <= n / 36)%N as Hdiv
      by (apply N.div_le_lower_bound; lia).
    assert (0 < 36 ^ N.of_nat k)%N by (apply N.neq_0_lt_0, N.pow_nonzero; lia).
    destruct (N.eqb_spec (n / 36) 0) as [Hzero|_]; [lia|].
    specialize (IH fuel (n / 36)%N (String ch acc) ltac:(lia) Hdiv).
    simpl in IH. lia.
Qed.

(** The timestamps from 1972-06-26 on have eight digits or more in base
    36. *)
Lemma toString36_at_least_eight n :
  (36 ^ 7 <= n)%N -> (8 <= String.length (Js.toString36 n))%nat.
Proof.
  intros Hn. unfold Js.toString36.
  pose proof (toString36_loop_at_least 7 (S (N.to_nat (N.log2 n))) n "") as Hloop.
  simpl String.length in Hloop. rewrite Nat.add_0_r in Hloop. apply Hloop.
  - assert (N.log2 (36 ^ 7) <= N.log2 n)%N as Hlog by (apply N.log2_le_mono, Hn).
    change (N.log2 (36 ^ 7)) with 36%N in Hlog. lia.
  - exact Hn.
Qed.

(** ** Short codes *)

Section ShortCodes.
Variable c : Chance.
Hypothesis mathRandom_below_one : forall a i, (mathRandom c a i < 2 ^ 53)%N.

Lemma pick_in_range a i : (pick c a i < String.length characters)%nat.
Proof.
  unfold pick. change (String.length characters) with 64%nat.
  destruct (cryptoThrows c a).
  - assert (mathRandom c a i * N.of_nat 64 / 2 ^ 53 < 64)%N; [|lia].
    apply N.Div0.div_lt_upper_bound.
    pose proof (mathRandom_below_one a i). lia.
  - pose proof (N.mod_upper_bound (Byte.to_N (randomBytes c a i)) (N.of_nat 64)).
    lia.
Qed.

Lemma candidate_loop a (indices : list nat) (shortCode : string) :
  let result :=
    fold_left (fun shortCode i => shortCode +:+ Js.charAt characters (pick c a i))
      indices shortCode in
  String.length result = (String.length shortCode + length indices)%nat /\
  Js.allChars isCodeChar result = Js.allChars isCodeChar shortCode.
Proof.
  revert shortCode. induction indices as [|i indices IH]; intros shortCode; simpl.
  - split; [lia | reflexivity].
  - destruct (IH (shortCode +:+ Js.charAt characters (pick c a i))) as [Hlen Hall].
    destruct (charAt_occurs characters (pick c a i) (pick_in_range a i))
      as (ch & Hch & Hocc).
    rewrite Hlen, Hall, append_length, allChars_append, Hch.
    cbn [String.length Js.allChars].
    rewrite <- occurs_characters, Hocc.
    split; [lia | now rewrite !andb_true_r].
Qed.

Lemma candidate_length length a : String.length (candidate c length a) = length.
Proof.
  unfold candidate.
  destruct (candidate_loop a (seq 0 length) "") as [-> _].
  now rewrite length_seq.
Qed.

Lemma candidate_alphabet length a :
  Js.allChars isCodeChar (candidate c length a) = true.
Proof.
  unfold candidate.
  now destruct (candidate_loop a (seq 0 length) "") as [_ ->].
Qed.
End ShortCodes.

Lemma attempts_Some c store length a remaining shortCode :
  attempts c store length a remaining = Some shortCode ->
  exists k, (a <= k < a + remaining)%nat /\
            shortCode = candidate c length k /\
            findOne (byShortCode shortCode) store = None.
Proof.
  revert a. induction remaining as [|remaining IH]; intros a; simpl; [discriminate|].
  destruct (findOne (byShortCode (candidate c length a)) store) eqn:Hfind.
  - intros Hrest. destruct (IH _ Hrest) as (k & Hk & Hcode & Hfree).
    exists k. split; [lia | split; assumption].
  - intros [= <-]. exists a. split; [lia | split; [reflexivity | exact Hfind]].
Qed.

Lemma attempts_None c store length a remaining :
  attempts c store length a remaining = None ->
  forall k, (a <= k < a + remaining)%nat ->
            findOne (byShortCode (candidate c length k)) store <> None.
Proof.
  revert a. induction remaining as [|remaining IH]; intros a; simpl.
  - intros _ k Hk. lia.
  - destruct (findOne (byShortCode (candidate c length a)) store) eqn:Hfind;
      [|discriminate].
    intros Hrest k Hk. destruct (decide (k = a)) as [->|Hne].
    + now rewrite Hfind.
    + apply (IH _ Hrest). lia.
Qed.

(** C2, as the code has it.  For a length from 4 to 10, a string that
    [generateShortCode] returns is either the candidate of one of the 50
    attempts, and then has exactly [length] characters, all of the 64-character
    alphabet; or, when every attempt collided, the fallback: the first
    [max(length, 8)] characters of the base-36 timestamp followed by the up to
    six random base-36 characters, which has at most [max(length, 8)]
    characters (as many as the two parts provide, never padded), all of the
    alphabet; for a [Date.now()] of [36 ^ 7] or more (any time from
    1972-06-26 on) and a length of at most 8 it has exactly eight
    characters, which for a length below 8 is more than [length]. *)
Theorem generateShortCode_shape c store length shortCode :
  (4 <= length <= 10)%nat ->
  (forall a i, (mathRandom c a i < 2 ^ 53)%N) ->
  Js.allChars (fun ch => Js.occurs ch Js.digits36)
    (Js.substring 2 8 (mathRandom36 c)) = true ->
  generateShortCode c store length = Resolved shortCode ->
  (exists a, (a < maxAttempts)%nat /\
             shortCode = candidate c length a /\
             findOne (byShortCode shortCode) store = None /\
             String.length shortCode = length /\
             Js.allChars isCodeChar shortCode = true)
  \/
  ((forall a, (a < maxAttempts)%nat ->
              findOne (byShortCode (candidate c length a)) store <> None) /\
   let timestamp := Js.toString36 (dateNow c) in
   let random := Js.substring 2 8 (mathRandom36 c) in
   shortCode = Js.substring 0 (Nat.max length 8) (timestamp +:+ random) /\
   (String.length random <= 6)%nat /\
   String.length shortCode
     = Nat.min (Nat.max length 8) (String.length timestamp + String.length random) /\
   Js.allChars isCodeChar shortCode = true /\
   ((36 ^ 7 <= dateNow c)%N -> (length <= 8)%nat ->
    String.length shortCode = 8%nat /\
    ((length < 8)%nat -> (length < String.length shortCode)%nat))).
Proof.
  intros Hlength Hrandom Hdigits. unfold generateShortCode.
  destruct (attempts c store length 0 maxAttempts) as [code|] eqn:Hloop.
  - intros [= <-]. left.
    destruct (attempts_Some _ _ _ _ _ _ Hloop) as (k & Hk & -> & Hfree).
    exists k. split; [lia|]. split; [reflexivity|]. split; [exact Hfree|].
    split; [now apply candidate_length | now apply candidate_alphabet].
  - destruct (findOne (byShortCode (fallbackCode c length)) store); [discriminate|].
    intros [= <-]. right. split.
    + intros a Ha. apply (attempts_None _ _ _ _ _ Hloop). lia.
    + unfold fallbackCode. cbv zeta. split; [reflexivity|].
      split; [unfold Js.substring; rewrite substring_length; lia|].
      assert (String.length
                (Js.substring 0 (Nat.max length 8)
                   (Js.toString36 (dateNow c) +:+ Js.substring 2 8 (mathRandom36 c)))
              = Nat.min (Nat.max length 8)
                  (String.length (Js.toString36 (dateNow c))
                   + String.length (Js.substring 2 8 (mathRandom36 c)))) as Hcut.
      { unfold Js.substring at 1. rewrite substring_length, append_length. lia. }
      split; [exact Hcut|]. split.
      * unfold Js.substring at 1. apply allChars_substring.
        rewrite allChars_append. apply andb_true_iff. split.
        -- eapply allChars_impl; [apply digits36_are_characters | apply toString36_digits].
        -- eapply allChars_impl; [apply digits36_are_characters | exact Hdigits].
      * intros Hdate Hshort. rewrite Hcut.
        pose proof (toString36_at_least_eight (dateNow c) Hdate). lia.
Qed.

(** With random bytes all zero and a collection where "aaaaaa" is free, the
    first attempt is returned; where "aaaaaa" is taken every attempt
    collides and the fallback of eight characters is returned. *)
Lemma generateShortCode_shape_witness :
  (exists a, (a < maxAttempts)%nat /\
             "aaaaaa" = candidate zeroChance 6 a /\
             findOne (byShortCode "aaaaaa") sampleStore = None /\
             String.length "aaaaaa" = 6%nat /\
             Js.allChars isCodeChar "aaaaaa" = true) /\
  (generateShortCode zeroChance takenStore 6 = Resolved "loyw3v28" /\
   "loyw3v28" = Js.substring 0 8 (Js.toString36 1700000000000 +:+ "i") /\
   String.length "loyw3v28" = 8%nat /\
   (6 < String.length "loyw3v28")%nat /\
   Js.allChars isCodeChar "loyw3v28" = true).
Proof.
  split.
  - destruct (generateShortCode_shape zeroChance sampleStore 6 "aaaaaa")
      as [Hattempt|(_ & Hfallback & _)].
    + lia.
    + intros a i. reflexivity.
    + reflexivity.
    + reflexivity.
    + exact Hattempt.
    + vm_compute in Hfallback. discriminate Hfallback.
  - assert (generateShortCode zeroChance takenStore 6 = Resolved "loyw3v28") as Hcode
      by (vm_compute; reflexivity).
    split; [exact Hcode|].
    destruct (generateShortCode_shape zeroChance takenStore 6 "loyw3v28")
      as [(a & _ & _ & _ & Hsix & _)|(_ & Hfallback & _ & _ & Hchars & Height)].
    + lia.
    + intros a i. reflexivity.
    + reflexivity.
    + exact Hcode.
    + simpl in Hsix. discriminate Hsix.
    + destruct Height as [Height Hlonger]; [apply N.leb_le; reflexivity | lia |].
      split; [exact Hfallback|]. split; [exact Height|].
      split; [apply Hlonger; lia | exact Hchars].
Defined.

(** C2, as the specification has it, fails on the fallback path: with the
    default length 6 and every attempt colliding, the returned code has the
    eight characters of the timestamp. *)
Lemma generateShortCode_fallback_is_longer :
  (4 <= 6 <= 10)%nat /\
  generateShortCode zeroChance takenStore 6 = Resolved "loyw3v28" /\
  String.length "loyw3v28" <> 6%nat.
Proof.
  split; [lia|]. split; [vm_compute; reflexivity | vm_compute; discriminate].
Qed.

(** ** Runs of handlers *)

Section Runs.
Variable env : Env.

Lemma run_bindProg {R S : Type} (m : Prog R) (f : R -> Prog S) w :
  run env (bindProg m f) w
  = let '(r, w1, events1) := run env m w in
    let '(s, w2, events2) := run env (f r) w1 in
    (s, w2, events1 ++ events2).
Proof.
  revert w. induction m as [r|A call k IH]; intros w; simpl.
  - now destruct (run env (f r) w) as [[s w2] events2].
  - destruct (answer env call w) as [a w1]. rewrite IH.
    destruct (run env (k a) w1) as [[r w2] events1].
    now destruct (run env (f r) w2) as [[s w3] events2].
Qed.

Lemma run_bind {R S : Type} (m : Throwing R) (f : R -> Throwing S) w :
  run env (bind m f) w
  = let '(r, w1, events1) := run env m w in
    match r with
    | Resolved a =>
        let '(s, w2, events2) := run env (f a) w1 in (s, w2, events1 ++ events2)
    | Rejected e => (Rejected e, w1, events1)
    end.
Proof.
  unfold bind. rewrite run_bindProg.
  destruct (run env m w) as [[[a|e] w1] events1]; simpl.
  - reflexivity.
  - now rewrite app_nil_r.
Qed.

Lemma run_tryCatch {R : Type} (m : Throwing R) (handler : JsError -> Throwing R) w :
  run env (tryCatch m handler) w
  = let '(r, w1, events1) := run env m w in
    match r with
    | Resolved a => (Resolved a, w1, events1)
    | Rejected e =>
        let '(s, w2, events2) := run env (handler e) w1 in (s, w2, events1 ++ events2)
    end.
Proof.
  unfold tryCatch. rewrite run_bindProg.
  destruct (run env m w) as [[[a|e] w1] events1]; simpl.
  - now rewrite app_nil_r.
  - reflexivity.
Qed.

Lemma run_await {R : Type} (call : Call (Settled R)) w :
  run env (await call) w
  = let '(a, w1) := answer env call w in (a, w1, [Answered call a]).
Proof. simpl. now destruct (answer env call w). Qed.

Lemma run_ask {R : Type} (call : Call R) w :
  run env (ask call) w
  = let '(a, w1) := answer env call w in (Resolved a, w1, [Answered call a]).
Proof. simpl. now destruct (answer env call w). Qed.

Lemma run_pure {R : Type} (r : R) w : run env (pure r) w = (Resolved r, w, []).
Proof. reflexivity. Qed.

Lemma run_throw {R : Type} (e : JsError) w :
  run env (throw (R := R) e) w = (Rejected e, w, []).
Proof. reflexivity. Qed.

(** The recording of the click never throws. *)
Lemma recordClickBeforeRedirect_resolves id clickData w :
  exists w' events, run env (recordClickBeforeRedirect id clickData) w = (Resolved tt, w', events).
Proof.
  unfold recordClickBeforeRedirect. rewrite run_tryCatch, run_bind, run_await.
  destruct (answer env (UrlFindById id) w) as [[[urlDoc|]|e] w1]; simpl.
  - destruct (isActive urlDoc).
    + rewrite run_bind, run_await.
      destruct (answer env (DocIncrementClicks urlDoc clickData) w1) as [[result|e] w2];
        simpl; eauto.
    + simpl. eauto.
  - eauto.
  - eauto.
Qed.
End Runs.

(** C8. When the short code resolves to an active document that has not
    expired, the handler answers with the 302 redirect to its [originalUrl],
    whatever the environment answers to the two calls that record the
    click, rejections included. *)
Theorem redirect_despite_click_failure `{Host} env w req url w1 :
  rr_errors req = [] ->
  answer env (UrlFindOne (ByShortCodeActive (rr_shortCode req))) w
    = (Resolved (Some url), w1) ->
  (forall expiry, expiryDate url = Some expiry ->
                  (expiry <? fst (answer env NewDate w1)) = false) ->
  exists w' events,
    run env (redirectToOriginal req) w
      = (RedirectTo 302 (originalUrl url), w', events).
Proof.
  intros Herrors Hfound Hfresh.
  unfold redirectToOriginal. rewrite run_bindProg, Herrors, run_bind, run_await, Hfound.
  cbv iota beta. rewrite run_bind.
  destruct (expiryDate url) as [expiry|] eqn:Hexpiry.
  - rewrite run_bind, run_ask.
    specialize (Hfresh expiry eq_refl).
    destruct (answer env NewDate w1) as [now w2]. simpl in Hfresh.
    cbv iota beta. rewrite run_pure, Hfresh. cbv iota beta.
    rewrite run_bind.
    destruct (recordClickBeforeRedirect_resolves env (_id url) (clickDataOf req) w2)
      as (w3 & events & ->).
    simpl. eauto.
  - rewrite run_pure. cbv iota beta. rewrite run_bind.
    destruct (recordClickBeforeRedirect_resolves env (_id url) (clickDataOf req) w1)
      as (w3 & events & ->).
    simpl. eauto.
Qed.

Lemma redirect_despite_click_failure_witness :
  exists w' events,
    run (mongoEnv (H := utcHost)) (redirectToOriginal (H := utcHost) sampleRedirect)
      (sampleMongo sampleStore [Quiet; Quiet; Outage])
      = (RedirectTo 302 "https://example.com", w', events) /\
    Answered (DocIncrementClicks sampleDoc (clickDataOf (H := utcHost) sampleRedirect))
      (Rejected connectionLost) ∈ events.
Proof.
  edestruct (redirect_despite_click_failure (H := utcHost) (mongoEnv (H := utcHost))
               (sampleMongo sampleStore [Quiet; Quiet; Outage]) sampleRedirect sampleDoc)
    as (w' & events & Hrun).
  - reflexivity.
  - vm_compute. reflexivity.
  - intros expiry Hexpiry. discriminate Hexpiry.
  - exists w', events. split; [exact Hrun|].
    vm_compute in Hrun. injection Hrun as _ <-.
    right. right. left.
Defined.

(** ** Creation *)

Section Creation.
Context `{Host}.
Variable env : Env.

(** The QR code is best effort: it never throws, it involves no insert and
    no code generation, and it leaves the document as it was up to its
    [qrCode]. *)
Lemma attachQrCode_resolves url w :
  exists url' w' events,
    run env (attachQrCode url) w = (Resolved url', w', events) /\
    Forall (fun event => isInsert event = false /\ isGenerate event = false) events /\
    (url' = url \/ exists qrCodeDataUrl, url' = withQrCode url qrCodeDataUrl).
Proof.
  unfold attachQrCode. rewrite run_tryCatch, run_bind, run_await.
  destruct (answer env (QRCodeToDataURL (shortUrl url)) w) as [[qr|e] w1];
    cbv iota beta.
  - rewrite run_tryCatch, run_bind, run_await.
    destruct (answer env (DocSave (withQrCode url qr)) w1) as [[saved|e] w2];
      simpl; do 3 eexists; (split; [reflexivity|]); split;
      try (right; eexists; reflexivity);
      repeat constructor.
  - simpl. do 3 eexists. split; [reflexivity|]. split; [|now left].
    repeat constructor.
Qed.
End Creation.

(** The run of [createShortUrl] up to the [catch] of the rejected insert,
    given the run of [prepare] and the answer to the insert. *)
Ltac enter_catch Hprepare Hfirst :=
  unfold createShortUrl; rewrite run_bindProg, run_bind, Hprepare;
  cbv iota beta; unfold createAndRespond;
  rewrite run_tryCatch, run_bind, run_await, Hfirst;
  cbv iota beta; change (11000 =? 11000) with true; cbv iota.

(** C3. When the request reaches the insert and the insert is rejected for a
    duplicate [shortCode], the handler asks for one new code.  If that fails
    it answers 500 without another insert.  Otherwise it inserts once more:
    the data of the first insert with the new code as its [shortCode] and
    every other field as it was.  A rejection of that insert is answered
    with 500 ("Failed to generate unique short code. Please try again.") and
    nothing more is tried; a success is answered with 201, after which no
    insert and no generation follow. *)
Theorem createShortUrl_retries_once `{Host} env w req p w1 events1 keys w2 :
  run env (prepare req) w = (Resolved (inr p), w1, events1) ->
  let urlData := p_urlData p in
  let collision := MongoServerError 11000 (Some ("shortCode" :: keys)) in
  answer env (UrlCreate urlData) w1 = (Rejected collision, w2) ->
  let first := Answered (UrlCreate urlData) (Rejected collision) in
  let failed :=
    Json 500 false (Some "Failed to generate unique short code. Please try again.")
      NoData in
  match answer env (UrlGenerateShortCode 6) w2 with
  | (Rejected e, w3) =>
      run env (createShortUrl req) w
      = (failed, w3, events1 ++ [first; Answered (UrlGenerateShortCode 6) (Rejected e)])
  | (Resolved newShortCode, w3) =>
      let generation := Answered (UrlGenerateShortCode 6) (Resolved newShortCode) in
      let retry :=
        UrlCreate {| ud_originalUrl := ud_originalUrl urlData;
                     ud_shortCode := newShortCode;
                     ud_userId := ud_userId urlData;
                     ud_title := ud_title urlData;
                     ud_description := ud_description urlData;
                     ud_expiryDate := ud_expiryDate urlData;
                     ud_tags := ud_tags urlData |} in
      match answer env retry w3 with
      | (Rejected e, w4) =>
          run env (createShortUrl req) w
          = (failed, w4, events1 ++ [first; generation; Answered retry (Rejected e)])
      | (Resolved retryUrl, w4) =>
          exists url w5 rest,
            run env (attachQrCode retryUrl) w4 = (Resolved url, w5, rest) /\
            run env (createShortUrl req) w
            = (created url, w5,
               events1 ++ [first; generation; Answered retry (Resolved retryUrl)] ++ rest) /\
            Forall (fun event => isInsert event = false /\ isGenerate event = false) rest
      end
  end.
Proof.
  intros Hprepare urlData collision Hfirst first failed.
  subst urlData collision first failed. enter_catch Hprepare Hfirst.
  set (urlData := p_urlData p).
  change (head (default [] (Some ("shortCode" :: keys)))) with (Some "shortCode").
  destruct (decide (Some "shortCode" = Some "shortCode")) as [_|Hne]; [|congruence].
  unfold retryWithNewCode. rewrite run_tryCatch, run_bind, run_await.
  destruct (answer env (UrlGenerateShortCode 6) w2) as [[newShortCode|e] w3];
    cbv iota beta.
  - rewrite run_bind, run_await. unfold withShortCode.
    destruct (answer env (UrlCreate _) w3) as [[retryUrl|e] w4]; cbv iota beta.
    + rewrite run_bind.
      destruct (attachQrCode_resolves env retryUrl w4)
        as (url & w5 & rest & Hqr & Hrest & _).
      rewrite Hqr. cbv iota beta. rewrite run_pure.
      exists url, w5, rest. split; [reflexivity|]. split; [|exact Hrest].
      simpl. rewrite !app_nil_r. reflexivity.
    + simpl. now rewrite app_nil_r.
  - simpl. now rewrite app_nil_r.
Qed.

(** Two requests race the sample request to the codes it draws, first
    "aaaaaa" and then "bbbbbb": the second insert carries "bbbbbb" with the
    rest of the data and the handler gives up after it.  When only "aaaaaa"
    is taken the second insert stores the document under "bbbbbb". *)
Lemma createShortUrl_retries_once_witness :
  (exists w',
     run (mongoEnv (H := utcHost)) (createShortUrl (H := utcHost) sampleCreate)
       (sampleMongo ∅ [Quiet; OtherCreate racerA; Quiet; OtherCreate racerB])
     = (Json 500 false (Some "Failed to generate unique short code. Please try again.")
          NoData, w',
        [Answered (UrlGenerateShortCode 6) (Resolved "aaaaaa");
         Answered (UrlCreate sampleFirstData)
           (Rejected (MongoServerError 11000 (Some ["shortCode"])));
         Answered (UrlGenerateShortCode 6) (Resolved "bbbbbb");
         Answered (UrlCreate sampleRetryData)
           (Rejected (MongoServerError 11000 (Some ["shortCode"])))])) /\
  (exists url w' events,
     run (mongoEnv (H := utcHost)) (createShortUrl (H := utcHost) sampleCreate)
       (sampleMongo ∅ [Quiet; OtherCreate racerA])
     = (created (H := utcHost) url, w', events) /\
     shortCode url = "bbbbbb" /\
     originalUrl url = "https://example.com" /\
     shortCode <$> urls w' !! 3%N = Some "bbbbbb" /\
     length (List.filter isInsert events) = 2%nat /\
     length (List.filter isGenerate events) = 2%nat).
Proof.
  split.
  - epose proof (createShortUrl_retries_once (H := utcHost) (mongoEnv (H := utcHost))
                   (sampleMongo ∅ [Quiet; OtherCreate racerA; Quiet; OtherCreate racerB])
                   sampleCreate _ _ _ _ _) as Hretry.
    cbv zeta in Hretry.
    specialize (Hretry ltac:(vm_compute; reflexivity) ltac:(vm_compute; reflexivity)).
    match type of Hretry with
    | match ?a with _ => _ end =>
        let v := eval vm_compute in a in change a with v in Hretry
    end.
    cbv iota beta in Hretry.
    match type of Hretry with
    | match ?a with _ => _ end =>
        let v := eval vm_compute in a in change a with v in Hretry
    end.
    cbv iota beta in Hretry.
    eexists. exact Hretry.
  - epose proof (createShortUrl_retries_once (H := utcHost) (mongoEnv (H := utcHost))
                   (sampleMongo ∅ [Quiet; OtherCreate racerA])
                   sampleCreate _ _ _ _ _) as Hretry.
    cbv zeta in Hretry.
    specialize (Hretry ltac:(vm_compute; reflexivity) ltac:(vm_compute; reflexivity)).
    match type of Hretry with
    | match ?a with _ => _ end =>
        let v := eval vm_compute in a in change a with v in Hretry
    end.
    cbv iota beta in Hretry.
    match type of Hretry with
    | match ?a with _ => _ end =>
        let v := eval vm_compute in a in change a with v in Hretry
    end.
    cbv iota beta in Hretry.
    destruct Hretry as (url & w5 & rest & Hqr & Hrun & _).
    vm_compute in Hqr. injection Hqr as Hurl Hw5 Hrest. subst url w5 rest.
    do 3 eexists. split; [exact Hrun|].
    repeat split; reflexivity.
Defined.

(** C4, as the code has it.  When the request reaches the insert and the
    insert is rejected for a duplicate key other than [shortCode], the
    handler looks up the owner's active document for the URL.  If the lookup
    finds one, the answer is 200 with that document and no error is
    reported.  If it finds none, the error of the insert is thrown again and
    the answer is 500; if the lookup itself fails, its error is answered. *)
Theorem createShortUrl_returns_existing_if_found `{Host}
    env w req p w1 events1 keyPattern w2 :
  run env (prepare req) w = (Resolved (inr p), w1, events1) ->
  let urlData := p_urlData p in
  let duplicate := MongoServerError 11000 keyPattern in
  answer env (UrlCreate urlData) w1 = (Rejected duplicate, w2) ->
  head (default [] keyPattern) <> Some "shortCode" ->
  let first := Answered (UrlCreate urlData) (Rejected duplicate) in
  let lookup := UrlFindOne (ByOwnerUrlActive (p_userId p) (p_normalizedUrl p)) in
  match answer env lookup w2 with
  | (Resolved (Some existingUrl), w3) =>
      run env (createShortUrl req) w
      = (Json 200 true (Some "URL already exists") (UrlPayload (urlView existingUrl)),
         w3, events1 ++ [first; Answered lookup (Resolved (Some existingUrl))])
  | (Resolved None, w3) =>
      run env (createShortUrl req) w
      = (Json 500 false (Some "Server error while creating short URL") NoData,
         w3, events1 ++ [first; Answered lookup (Resolved None)])
  | (Rejected e, w3) =>
      run env (createShortUrl req) w
      = (createFailed e, w3, events1 ++ [first; Answered lookup (Rejected e)])
  end.
Proof.
  intros Hprepare urlData duplicate Hfirst Hfield first lookup.
  subst urlData duplicate first lookup. enter_catch Hprepare Hfirst.
  destruct (decide (head (default [] keyPattern) = Some "shortCode")) as [Heq|_];
    [contradiction|].
  unfold returnExisting. rewrite run_bind, run_await.
  destruct (answer env (UrlFindOne (ByOwnerUrlActive (p_userId p) (p_normalizedUrl p))) w2)
    as [[[existingUrl|]|e] w3]; simpl; now rewrite app_nil_r.
Qed.

(** The sample request repeated by the owner of the sample document, for
    the same URL: the answer is the stored document. *)
Lemma createShortUrl_returns_existing_if_found_witness :
  exists w' events,
    run (mongoEnv (H := utcHost)) (createShortUrl (H := utcHost) sampleCreate)
      (sampleMongo sampleStore [])
    = (Json 200 true (Some "URL already exists")
         (UrlPayload (urlView (H := utcHost) sampleDoc)), w', events).
Proof.
  epose proof (createShortUrl_returns_existing_if_found (H := utcHost)
                 (mongoEnv (H := utcHost)) (sampleMongo sampleStore [])
                 sampleCreate _ _ _ _ _) as Hfound.
  cbv zeta in Hfound.
  specialize (Hfound ltac:(vm_compute; reflexivity) ltac:(vm_compute; reflexivity)
                     ltac:(vm_compute; discriminate)).
  match type of Hfound with
  | match ?a with _ => _ end =>
      let v := eval vm_compute in a in change a with v in Hfound
  end.
  cbv iota beta in Hfound.
  do 2 eexists. exact Hfound.
Defined.

(** C4, as the specification has it, fails when the owner's document is
    deactivated between the rejected insert and the lookup: the insert is
    rejected for the owner and URL, the lookup finds no active document, and
    the caller gets an error. *)
Lemma createShortUrl_duplicate_reported_as_error :
  outcome (mongoEnv (H := utcHost)) (createShortUrl (H := utcHost) sampleCreate)
    (sampleMongo sampleStore [Quiet; Quiet; OtherDeactivate 1%N])
  = (Json 500 false (Some "Server error while creating short URL") NoData,
     [Answered (UrlGenerateShortCode 6) (Resolved "aaaaaa");
      Answered
        (UrlCreate {| ud_originalUrl := "https://example.com";
                      ud_shortCode := "aaaaaa";
                      ud_userId := Some 7%N;
                      ud_title := "";
                      ud_description := "";
                      ud_expiryDate := None;
                      ud_tags := [] |})
        (Rejected (MongoServerError 11000
                     (Some ["userId"; "originalUrl"; "isActive"])));
      Answered (UrlFindOne (ByOwnerUrlActive 7%N "https://example.com"))
        (Resolved None)]).
Proof. vm_compute. reflexivity. Qed.

(** ** The lookup after a rejected insert, when nothing interferes *)

Lemma findOne_Some filter (store : gmap ObjectId UrlDoc) d :
  findOne filter store = Some d ->
  filter d = true /\ exists id, store !! id = Some d.
Proof.
  unfold findOne. intros Hhead.
  assert (In d (List.filter filter (snd <$> map_to_list store))) as Hin.
  { destruct (List.filter filter (snd <$> map_to_list store)) as [|d' rest];
      [discriminate|]. injection Hhead as ->. now left. }
  apply filter_In in Hin as [Hin Hfilter]. split; [exact Hfilter|].
  apply list_elem_of_In, list_elem_of_fmap in Hin as ([id d'] & -> & Hin).
  exists id. now apply elem_of_map_to_list.
Qed.

Lemma findOne_ext filter1 filter2 (store : gmap ObjectId UrlDoc) :
  (forall d, filter1 d = filter2 d) ->
  findOne filter1 store = findOne filter2 store.
Proof.
  intros Hext. unfold findOne. f_equal. now apply filter_ext.
Qed.

Section QuietLookup.
Context `{Host}.
Hypothesis trim_idempotent : forall s, trim (trim s) = trim s.

(** What [prepare] hands to the insert belongs to the authenticated user and
    carries the trimmed URL. *)
Lemma prepare_inr env w req p w1 events1 :
  run env (prepare req) w = (Resolved (inr p), w1, events1) ->
  cr_user req = Some (p_userId p) /\
  p_normalizedUrl p = trim (rb_originalUrl (cr_body req)) /\
  ud_userId (p_urlData p) = Some (p_userId p) /\
  ud_originalUrl (p_urlData p) = p_normalizedUrl p.
Proof.
  unfold prepare.
  destruct (cr_errors req); [|discriminate].
  destruct (cr_user req) as [userId|]; [|discriminate].
  destruct (urlHostname (rb_originalUrl (cr_body req))); [|discriminate].
  rewrite run_bind.
  destruct (run env (chooseShortCode (rb_customCode (cr_body req))) w)
    as [[[[response|shortCode]|e] w2] events2]; cbv iota beta; try discriminate.
  rewrite run_bind.
  destruct (run env (parseExpiryDate (rb_expiryDate (cr_body req))) w2)
    as [[[[response|parsed]|e] w3] events3]; cbv iota beta; try discriminate.
  rewrite run_pure. intros [= <- _ _]. simpl. auto.
Qed.

(** In a database where nothing interferes, an insert rejected for a
    duplicate key other than [shortCode] is followed by a lookup that finds
    a stored, active document of that owner for that URL. *)
Lemma quiet_lookup_finds_existing (w1 : Mongo) owner normalizedUrl urlData keyPattern w2 :
  others w1 = [] ->
  ud_userId urlData = Some owner ->
  trim (ud_originalUrl urlData) = normalizedUrl ->
  mongoAnswer _ (UrlCreate urlData) w1
    = (Rejected (MongoServerError 11000 keyPattern), w2) ->
  head (default [] keyPattern) <> Some "shortCode" ->
  exists existingUrl id w3,
    mongoAnswer _ (UrlFindOne (ByOwnerUrlActive owner normalizedUrl)) w2
      = (Resolved (Some existingUrl), w3) /\
    urls w1 !! id = Some existingUrl /\
    urls w3 = urls w1 /\
    userId existingUrl = Some owner /\
    originalUrl existingUrl = normalizedUrl /\
    isActive existingUrl = true.
Proof.
  intros Hquiet Howner Hurl Hcreate Hfield.
  unfold mongoAnswer in Hcreate. rewrite Hquiet in Hcreate. simpl in Hcreate.
  unfold mongoCreate in Hcreate. simpl in Hcreate.
  destruct (validateUrlData (clock w1) (castUrlData urlData)); [|discriminate].
  unfold duplicateKey in Hcreate.
  destruct (findOne (byShortCode _) (urls w1)).
  { injection Hcreate as <- _. now contradiction Hfield. }
  destruct (findOne (sameOwnerUrl _) (urls w1)) as [existingUrl|] eqn:Hfind;
    [|discriminate].
  injection Hcreate as _ <-.
  rewrite (findOne_ext _ (matches (ByOwnerUrlActive owner normalizedUrl))) in Hfind.
  - destruct (findOne_Some _ _ _ Hfind) as (Hmatch & id & Hid).
    exists existingUrl, id. eexists.
    unfold mongoAnswer. simpl. rewrite Hfind. split; [reflexivity|].
    split; [exact Hid|]. split; [reflexivity|].
    simpl in Hmatch. apply andb_true_iff in Hmatch as [Hmatch Hactive].
    apply andb_true_iff in Hmatch as [Huser Heq].
    apply bool_decide_eq_true in Huser. apply String.eqb_eq in Heq. auto.
  - intros d. unfold sameOwnerUrl. simpl. rewrite Howner, Hurl.
    now destruct (isActive d).
Qed.

(** So a duplicate request that nothing interferes with is answered with the
    stored document of its owner and URL. *)
Lemma createShortUrl_quiet_returns_existing (w : Mongo) req p w1 events1 keyPattern w2 :
  run mongoEnv (prepare req) w = (Resolved (inr p), w1, events1) ->
  others w1 = [] ->
  answer mongoEnv (UrlCreate (p_urlData p)) w1
    = (Rejected (MongoServerError 11000 keyPattern), w2) ->
  head (default [] keyPattern) <> Some "shortCode" ->
  exists existingUrl id w3 events,
    run mongoEnv (createShortUrl req) w
      = (Json 200 true (Some "URL already exists") (UrlPayload (urlView existingUrl)),
         w3, events) /\
    urls w1 !! id = Some existingUrl /\
    urls w3 = urls w1 /\
    userId existingUrl = cr_user req /\
    originalUrl existingUrl = trim (rb_originalUrl (cr_body req)) /\
    isActive existingUrl = true.
Proof.
  intros Hprepare Hquiet Hcreate Hfield.
  destruct (prepare_inr _ _ _ _ _ _ Hprepare) as (Huser & Hnormalized & Howner & Hurl).
  destruct (quiet_lookup_finds_existing w1 (p_userId p) (p_normalizedUrl p)
              (p_urlData p) keyPattern w2 Hquiet Howner)
    as (existingUrl & id & w3 & Hlookup & Hid & Hurls & Hu & Ho & Ha);
    [now rewrite Hurl, Hnormalized | exact Hcreate | exact Hfield |].
  exists existingUrl, id, w3. eexists. split.
  - enter_catch Hprepare Hcreate.
    destruct (decide (head (default [] keyPattern) = Some "shortCode")) as [Heq|_];
      [contradiction|].
    unfold returnExisting. rewrite run_bind, run_await.
    change (answer mongoEnv ?call ?w) with (mongoAnswer _ call w).
    rewrite Hlookup. simpl. reflexivity.
  - rewrite Huser, <- Hnormalized. auto.
Qed.
End QuietLookup.


(** ** Analytics *)

Section AnalyticsRuns.
Context `{Host}.
Variable env : Env.

Lemma countLast24Hours_resolves clicks w :
  exists n w' events, run env (countLast24Hours clicks) w = (Resolved n, w', events).
Proof.
  revert w. induction clicks as [|click rest IH]; intros w.
  - simpl. eauto.
  - cbn [countLast24Hours]. rewrite run_bind, run_ask.
    destruct (answer env NewDate w) as [now w1]. cbv iota beta.
    rewrite run_bind.
    destruct (IH w1) as (n & w2 & events & ->). simpl. eauto.
Qed.

Lemma countReferrers_rejects clicks acc click :
  click ∈ clicks ->
  urlHostname (default "" (Click.referer click)) = None ->
  countReferrers clicks acc = Rejected (TypeError "Invalid URL").
Proof.
  revert acc. induction clicks as [|c rest IH]; intros acc Hin Hnone.
  - inversion Hin.
  - simpl. apply elem_of_cons in Hin as [<-|Hin].
    + now rewrite Hnone.
    + destruct (urlHostname (default "" (Click.referer c)));
        [now apply IH | reflexivity].
Qed.
End AnalyticsRuns.

(** C7, on the code.  When a stored click has a referer that is not empty
    and that [new URL] does not parse, the analytics of an existing document
    are answered with 500: the click is not left out, the request fails. *)
Theorem getUrlAnalytics_fails_on_unparseable_referer `{Host}
    env w req userId url w1 click :
  aq_user req = Some userId ->
  answer env (UrlFindOne (ByIdOwner (aq_id req) userId)) w = (Resolved (Some url), w1) ->
  click ∈ recentClicks url ->
  hasReferer click = true ->
  urlHostname (default "" (Click.referer click)) = None ->
  exists w' events,
    run env (getUrlAnalytics req) w
    = (Json 500 false (Some "Server error while fetching analytics") NoData, w', events).
Proof.
  intros Huser Hfound Hin Hreferer Hnone.
  unfold getUrlAnalytics. rewrite run_bindProg, Huser, run_bind, run_await, Hfound.
  cbv iota beta. rewrite run_bind, run_ask.
  destruct (answer env NewDate w1) as [now30 w2]. cbv iota beta.
  rewrite run_bind, run_ask.
  destruct (answer env NewDate w2) as [now7 w3]. cbv iota beta.
  rewrite run_bind.
  destruct (countLast24Hours_resolves env (recentClicks url) w3)
    as (n & w4 & events & ->). cbv iota beta.
  rewrite run_bind, run_ask.
  destruct (answer env NewDate w4) as [now w5]. cbv iota beta.
  rewrite run_bind.
  rewrite (countReferrers_rejects _ ∅ click).
  - simpl. eauto.
  - apply list_elem_of_In, filter_In. split; [now apply list_elem_of_In | exact Hreferer].
  - exact Hnone.
Qed.

(** After one redirect whose [Referer] header was "not a url", the owner's
    analytics request fails. *)
Lemma getUrlAnalytics_fails_on_unparseable_referer_witness :
  exists w' events,
    run (mongoEnv (H := utcHost)) (getUrlAnalytics (H := utcHost) sampleAnalytics)
      (sampleMongo clickedStore [])
    = (Json 500 false (Some "Server error while fetching analytics") NoData, w', events).
Proof.
  eapply (getUrlAnalytics_fails_on_unparseable_referer (H := utcHost)
            (mongoEnv (H := utcHost)) (sampleMongo clickedStore []) sampleAnalytics
            7%N _ _
            (Click.Build 1700000300000 (Some "203.0.113.9") (Some "curl/8.0")
               (Some "not a url"))).
  - reflexivity.
  - vm_compute. reflexivity.
  - vm_compute. left.
  - reflexivity.
  - reflexivity.
Defined.

(** * Further properties *)

(** ** The counters across evictions *)

Lemma sumClicks_nonneg stats :
  Forall (fun s => 0 <= DailyStat.clicks s) stats -> 0 <= sumClicks stats.
Proof.
  induction 1 as [|s stats Hs _ IH]; [reflexivity|].
  rewrite sumClicks_cons. lia.
Qed.

Lemma sumClicks_drop n stats :
  Forall (fun s => 0 <= DailyStat.clicks s) stats ->
  sumClicks (drop n stats) <= sumClicks stats.
Proof.
  intros Hall. rewrite <- (take_drop n stats) at 2. rewrite sumClicks_app.
  assert (0 <= sumClicks (take n stats)) by now apply sumClicks_nonneg, Forall_take.
  lia.
Qed.

(** X1. [clicks] counts every recorded click and is never decremented:
    after a sequence of clicks it is the old value plus their number,
    whatever is evicted from the windows; and when the daily entries are
    non-negative and sum to at most [clicks], they still do afterwards. *)
Theorem clicks_counts_every_click `{Host} id arrivals store d0 :
  store !! id = Some d0 -> _id d0 = id ->
  Forall (fun s => 0 <= DailyStat.clicks s) (dailyStats d0) ->
  sumClicks (dailyStats d0) <= clicks d0 ->
  exists store' d,
    recordClicks id arrivals store = Some store' /\
    store' !! id = Some d /\
    clicks d = clicks d0 + Z.of_nat (length arrivals) /\
    Forall (fun s => 0 <= DailyStat.clicks s) (dailyStats d) /\
    sumClicks (dailyStats d) <= clicks d.
Proof.
  intros Hd0 Hid Hnonneg Hsum.
  destruct (recordClicks_invariant
              (fun d rest =>
                 clicks d + Z.of_nat (length rest)
                 = clicks d0 + Z.of_nat (length arrivals) /\
                 Forall (fun s => 0 <= DailyStat.clicks s) (dailyStats d) /\
                 sumClicks (dailyStats d) <= clicks d)
              id) with (arrivals := arrivals) (store := store) (d := d0)
    as (store' & d & Hrun & Hd & _ & (Hcount & Hall & Hle) & _);
    try assumption.
  - intros d a rest d' (Hcount & Hall & Hle) Happly.
    pose proof (applyUpdate_clicks _ _ _ Happly) as Hc.
    split; [simpl in Hcount; lia|].
    destruct (applyUpdate_dailyStats _ _ _ Happly)
      as [(i & s & Hs & _ & ->)|[_ ->]].
    + assert (0 <= DailyStat.clicks s) as Hs0.
      { eapply (proj1 (Forall_forall _ _) Hall), list_elem_of_lookup_2, Hs. }
      split.
      * apply Forall_insert; [exact Hall | simpl; lia].
      * rewrite (sumClicks_insert _ _ _ _ Hs). simpl. lia.
    + assert (Forall (fun s => 0 <= DailyStat.clicks s)
                (dailyStats d ++ [DailyStat.Build (localMidnight (ar_now a)) 1])) as Hall'.
      { apply Forall_app. split; [exact Hall|]. constructor; [simpl; lia | constructor]. }
      unfold pushSlice, sliceLast. split.
      * now apply Forall_drop.
      * etransitivity; [apply sumClicks_drop, Hall'|].
        rewrite sumClicks_app, sumClicks_cons. unfold sumClicks at 2. simpl. lia.
  - repeat split; assumption.
  - exists store', d. simpl in Hcount. repeat split; try assumption. lia.
Qed.

Lemma clicks_counts_every_click_witness :
  exists store' d,
    recordClicks (H := utcHost) 1%N (replicate 2000 nextDayArrival) sampleStore
      = Some store' /\
    store' !! 1%N = Some d /\
    clicks d = 2000 /\
    sumClicks (dailyStats d) <= clicks d.
Proof.
  destruct (clicks_counts_every_click (H := utcHost) 1%N
              (replicate 2000 nextDayArrival) sampleStore sampleDoc)
    as (store' & d & Hrun & Hd & Hclicks & _ & Hsum).
  - reflexivity.
  - reflexivity.
  - constructor.
  - reflexivity.
  - exists store', d. rewrite length_replicate in Hclicks.
    repeat split; assumption.
Defined.

(** ** The daily roll-up *)

Section Rollup.
Context `{Host}.



End Rollup.



(** X3. With pairwise distinct days, a document without daily entries ends
    with the entries of the last 365 days in order of arrival, one click
    each: the day pushed first is the one evicted first. *)
Theorem dailyStats_evicts_oldest_day `{Host} id arrivals store d0 :
  store !! id = Some d0 -> _id d0 = id ->
  dailyStats d0 = [] ->
  NoDup (arrivalDay <$> arrivals) ->
  exists store' d,
    recordClicks id arrivals store = Some store' /\
    store' !! id = Some d /\
    dailyStats d
    = drop (length arrivals - 365) (firstOfDay <$> arrivals).
Proof.
  intros Hd0 Hid Hstats Hnodup.
  destruct (recordClicks_invariant
              (fun d rest =>
                 exists done,
                   arrivals = done ++ rest /\
                   dailyStats d = sliceLast 365 (firstOfDay <$> done))
              id) with (arrivals := arrivals) (store := store) (d := d0)
    as (store' & d & Hrun & Hd & _ & (done & Hdone & Heq) & _);
    try assumption.
  - intros d a rest d' (done & Hdone & Heq) Happly.
    exists (done ++ [a]). split; [now rewrite <- app_assoc|].
    destruct (applyUpdate_dailyStats _ _ _ Happly)
      as [(i & s & Hs & Hdate & _)|[_ ->]].
    + exfalso. rewrite Hdone, fmap_app in Hnodup.
      apply NoDup_app in Hnodup as (_ & Hdisjoint & _).
      apply (Hdisjoint (arrivalDay a)); [|left].
      apply list_elem_of_lookup_2 in Hs. rewrite Heq in Hs.
      assert (s ∈ firstOfDay <$> done) as Hin.
      { eapply elem_of_suffix; [exact Hs | apply sliceLast_suffix]. }
      apply list_elem_of_fmap in Hin as (a' & -> & Ha').
      simpl in Hdate. unfold arrivalDay at 1. rewrite <- Hdate.
      now apply list_elem_of_fmap_2.
    + rewrite Heq. unfold pushSlice. rewrite sliceLast_app_r, fmap_app. reflexivity.
  - exists []. now rewrite Hstats.
  - rewrite app_nil_r in Hdone. subst done.
    exists store', d. split; [exact Hrun|]. split; [exact Hd|].
    rewrite Heq. unfold sliceLast. now rewrite length_fmap.
Qed.

Lemma dailyStats_evicts_oldest_day_witness :
  exists store' d,
    recordClicks (H := utcHost) 1%N [sampleArrival; nextDayArrival] sampleStore
      = Some store' /\
    store' !! 1%N = Some d /\
    dailyStats d
    = [DailyStat.Build 1699920000000 1; DailyStat.Build 1700006400000 1].
Proof.
  apply (dailyStats_evicts_oldest_day (H := utcHost) 1%N
           [sampleArrival; nextDayArrival] sampleStore sampleDoc).
  - reflexivity.
  - reflexivity.
  - reflexivity.
  - apply (bool_decide_unpack _). vm_compute. exact I.
Defined.

(** ** Codes that are handed out *)

Lemma findOne_None filter (store : gmap ObjectId UrlDoc) :
  findOne filter store = None <->
  forall id d, store !! id = Some d -> filter d = false.
Proof.
  unfold findOne. split.
  - intros Hhead id d Hd.
    destruct (filter d) eqn:Hfilter; [|reflexivity].
    assert (In d (List.filter filter (snd <$> map_to_list store))) as Hin.
    { apply filter_In. split; [|exact Hfilter].
      apply list_elem_of_In, list_elem_of_fmap. exists (id, d).
      split; [reflexivity|]. now apply elem_of_map_to_list. }
    destruct (List.filter filter (snd <$> map_to_list store));
      [destruct Hin | discriminate].
  - intros Hnone.
    destruct (List.filter filter (snd <$> map_to_list store)) as [|d rest] eqn:Hlist;
      [reflexivity|].
    assert (In d (List.filter filter (snd <$> map_to_list store))) as Hin
      by (rewrite Hlist; now left).
    apply filter_In in Hin as [Hin Hfilter].
    apply list_elem_of_In, list_elem_of_fmap in Hin as ([id d'] & -> & Hin).
    apply elem_of_map_to_list in Hin. simpl in Hfilter.
    rewrite (Hnone _ _ Hin) in Hfilter. discriminate.
Qed.

Lemma findOne_taken filter (store : gmap ObjectId UrlDoc) :
  findOne filter store <> None ->
  exists id d, store !! id = Some d /\ filter d = true.
Proof.
  destruct (findOne filter store) as [d|] eqn:Hfind; [|congruence].
  intros _. destruct (findOne_Some _ _ _ Hfind) as (Hfilter & id & Hid).
  now exists id, d.
Qed.

(** X4. A code that [generateShortCode] returns is the [shortCode] of no
    stored document, from the loop as from the fallback; and the call
    throws only when every one of the fifty candidates and the fallback code
    each are the [shortCode] of a stored document. *)
Theorem generateShortCode_fresh_or_exhausted c store length :
  match generateShortCode c store length with
  | Resolved code =>
      forall id d, store !! id = Some d -> shortCode d <> code
  | Rejected _ =>
      (forall a, (a < maxAttempts)%nat ->
                 exists id d, store !! id = Some d /\
                              shortCode d = candidate c length a) /\
      exists id d, store !! id = Some d /\ shortCode d = fallbackCode c length
  end.
Proof.
  unfold generateShortCode.
  destruct (attempts c store length 0 maxAttempts) as [code|] eqn:Hattempts.
  - apply attempts_Some in Hattempts as (_ & _ & _ & Hfree).
    intros id d Hd Heq.
    pose proof (proj1 (findOne_None _ _) Hfree id d Hd) as Hno.
    unfold byShortCode in Hno. apply String.eqb_neq in Hno. contradiction.
  - destruct (findOne (byShortCode (fallbackCode c length)) store) as [d|] eqn:Hfallback.
    + split.
      * intros a Ha.
        destruct (findOne_taken (byShortCode (candidate c length a)) store)
          as (id & d' & Hd' & Hcode).
        { eapply attempts_None; [exact Hattempts | lia]. }
        exists id, d'. split; [exact Hd'|]. now apply String.eqb_eq.
      * destruct (findOne_Some _ _ _ Hfallback) as (Hcode & id & Hid).
        exists id, d. split; [exact Hid|]. now apply String.eqb_eq.
    + intros id d Hd Heq.
      pose proof (proj1 (findOne_None _ _) Hfallback id d Hd) as Hno.
      unfold byShortCode in Hno. apply String.eqb_neq in Hno. contradiction.
Qed.

(** ** The fallback code *)

Lemma charAt_digits36_length (k : nat) :
  (k < 36)%nat -> String.length (Js.charAt Js.digits36 k) = 1%nat.
Proof.
  intros Hk. destruct (digitValue_digits36 k Hk) as (ch & -> & _). reflexivity.
Qed.

Lemma toString36_loop_length (k : nat) :
  forall fuel n acc,
    (k < fuel)%nat ->
    (36 ^ N.of_nat k <= n < 36 ^ N.of_nat (S k))%N ->
    String.length (Js.toString36_loop fuel n acc) = (S k + String.length acc)%nat.
Proof.
  induction k as [|k IH]; intros fuel n acc Hfuel Hn;
    (destruct fuel as [|fuel]; [lia|]); cbn [Js.toString36_loop].
  - change (36 ^ N.of_nat 1)%N with 36%N in Hn.
    rewrite N.div_small by lia. change (0 =? 0)%N with true. cbv iota.
    rewrite append_length, charAt_digits36_length; [reflexivity|].
    rewrite N.mod_small by lia. lia.
  - rewrite !Nat2N.inj_succ, !N.pow_succ_r' in Hn.
    assert (36 ^ N.of_nat k <= n / 36 < 36 ^ N.of_nat (S k))%N as Hdiv.
    { rewrite Nat2N.inj_succ, N.pow_succ_r'. split.
      - apply N.div_le_lower_bound; lia.
      - apply N.Div0.div_lt_upper_bound. lia. }
    assert (0 < 36 ^ N.of_nat k)%N by (apply N.neq_0_lt_0, N.pow_nonzero; lia).
    destruct (N.eqb_spec (n / 36) 0) as [Hzero|_]; [lia|].
    rewrite IH by (lia || exact Hdiv).
    rewrite append_length, charAt_digits36_length; [lia|].
    pose proof (N.mod_upper_bound n 36). lia.
Qed.

(** The timestamps from 1972-06-26 to 2059-05-25 have eight digits in base
    36. *)
Lemma toString36_eight_digits n :
  (36 ^ 7 <= n < 36 ^ 8)%N -> String.length (Js.toString36 n) = 8%nat.
Proof.
  intros Hn. unfold Js.toString36.
  rewrite (toString36_loop_length 7); [reflexivity| |exact Hn].
  assert (N.log2 (36 ^ 7) <= N.log2 n)%N as Hlog by (apply N.log2_le_mono, Hn).
  change (N.log2 (36 ^ 7)) with 36%N in Hlog. lia.
Qed.

Lemma substring_prefix s t :
  String.substring 0 (String.length s) (s +:+ t) = s.
Proof.
  induction s as [|ch s IH]; simpl.
  - now destruct t.
  - change (String ch s +:+ t) with (String ch (s +:+ t)).
    cbn [String.substring]. now rewrite IH.
Qed.

Lemma fallbackCode_eight_digits c length :
  (36 ^ 7 <= dateNow c < 36 ^ 8)%N -> (length <= 8)%nat ->
  fallbackCode c length = Js.toString36 (dateNow c).
Proof.
  intros Hc Hl. unfold fallbackCode, Js.substring.
  replace (Nat.max length 8) with 8%nat by lia.
  change (Nat.max 0 8 - Nat.min 0 8)%nat with 8%nat.
  change (Nat.min 0 8) with 0%nat.
  rewrite <- (toString36_eight_digits (dateNow c) Hc) at 1.
  apply substring_prefix.
Qed.

(** X5. For a timestamp of eight base-36 digits (any time from 1972-06-26 to
    2059-05-25) and a length of at most eight, the fallback code is the
    timestamp alone: nothing of [Math.random()] is left after the cut.  Two
    fallback codes are therefore equal exactly when they were built in the
    same millisecond. *)
Theorem fallbackCode_is_the_timestamp c1 c2 length1 length2 :
  (36 ^ 7 <= dateNow c1 < 36 ^ 8)%N -> (36 ^ 7 <= dateNow c2 < 36 ^ 8)%N ->
  (length1 <= 8)%nat -> (length2 <= 8)%nat ->
  fallbackCode c1 length1 = Js.toString36 (dateNow c1) /\
  Js.parse36 (fallbackCode c1 length1) = Some (dateNow c1) /\
  (fallbackCode c1 length1 = fallbackCode c2 length2 <-> dateNow c1 = dateNow c2).
Proof.
  intros Hc1 Hc2 Hl1 Hl2.
  rewrite !fallbackCode_eight_digits by assumption.
  split; [reflexivity|]. split; [apply parse36_toString36|].
  split; [|now intros ->].
  intros Heq.
  pose proof (parse36_toString36 (dateNow c1)) as H1.
  rewrite Heq, parse36_toString36 in H1. congruence.
Qed.

Lemma fallbackCode_is_the_timestamp_witness :
  fallbackCode zeroChance 6 = Js.toString36 1700000000000 /\
  Js.parse36 (fallbackCode zeroChance 6) = Some 1700000000000%N /\
  (fallbackCode zeroChance 6 = fallbackCode (constChance x07) 8
   <-> 1700000000000%N = 1700000000000%N).
Proof.
  apply (fallbackCode_is_the_timestamp zeroChance (constChance x07) 6 8);
    try lia; split; (apply N.leb_le || apply N.ltb_lt); reflexivity.
Defined.

(** ** The three checks of a short code *)

Ltac split_errors Hin :=
  repeat match type of Hin with
         | _ ∈ _ ++ _ => apply elem_of_app in Hin as [Hin|Hin]
         | _ ∈ (if ?b then _ else _) => destruct b
         | _ ∈ match ?x with _ => _ end => destruct x
         | _ ∈ [] => now apply not_elem_of_nil in Hin
         | _ ∈ [_] => apply list_elem_of_singleton in Hin; discriminate Hin
         end.

Lemma validateUrlData_shortCode `{Host} now (u : UrlData) :
  isValidCustomCode (ud_shortCode u) = true <->
  forall message, ("shortCode", message) ∉ validateUrlData now u.
Proof.
  unfold isValidCustomCode, validateUrlData. split.
  - intros Hvalid message Hin.
    apply andb_true_iff in Hvalid as [Hvalid Hmax].
    apply andb_true_iff in Hvalid as [Hvalid Hmin].
    apply andb_true_iff in Hvalid as [Hempty Hchars].
    apply negb_true_iff in Hempty. apply Nat.leb_le in Hmin, Hmax.
    rewrite Hempty, Hchars in Hin.
    destruct (Nat.ltb_spec (String.length (ud_shortCode u)) 4) as [?|_]; [lia|].
    destruct (Nat.ltb_spec 10 (String.length (ud_shortCode u))) as [?|_]; [lia|].
    cbn [negb] in Hin. split_errors Hin.
  - intros Hnone.
    destruct (String.eqb (ud_shortCode u) "") eqn:Hempty.
    { exfalso. eapply Hnone. rewrite !elem_of_app. right. left. left. }
    destruct (Nat.ltb_spec (String.length (ud_shortCode u)) 4) as [Hmin|Hmin].
    { exfalso. eapply Hnone. rewrite !elem_of_app. right. left. left. }
    destruct (Nat.ltb_spec 10 (String.length (ud_shortCode u))) as [Hmax|Hmax].
    { exfalso. eapply Hnone. rewrite !elem_of_app. right. left. left. }
    destruct (Js.allChars isCodeChar (ud_shortCode u)) eqn:Hchars.
    + cbn [negb andb]. apply andb_true_iff. split; apply Nat.leb_le; lia.
    + exfalso. eapply Hnone. rewrite !elem_of_app. right. left. left.
Qed.

(** X6. The check of a custom code in [createShortUrl] (line 54) and the
    function [isValidShortCode] of the validators accept the same strings:
    those made of four to ten characters of [characters].  The validators
    of the schema's [shortCode] path run on the value the [trim] setter
    leaves: validation of the cast data reports no error on [shortCode]
    exactly when the trimmed code passes the two checks.  The three
    therefore accept the same codes among those that trimming leaves as
    they are, while a code with white space around it can pass the schema
    and fail the two checks. *)
Theorem shortCode_checks_agree `{Host} now (u : UrlData) :
  let code := ud_shortCode u in
  isValidShortCode code = isValidCustomCode code /\
  (isValidShortCode code = true <->
   (4 <= String.length code <= 10)%nat /\
   Js.allChars (fun ch => Js.occurs ch characters) code = true) /\
  (isValidShortCode (trim code) = true <->
   forall message, ("shortCode", message) ∉ validateUrlData now (castUrlData u)) /\
  (trim code = code ->
   (isValidShortCode code = true <->
    forall message, ("shortCode", message) ∉ validateUrlData now (castUrlData u))).
Proof.
  intros code.
  assert (isValidShortCode (trim code) = true <->
          forall message, ("shortCode", message) ∉ validateUrlData now (castUrlData u))
    as Hschema by exact (validateUrlData_shortCode now (castUrlData u)).
  split; [reflexivity|].
  split; [|split; [exact Hschema | intros Htrim; rewrite <- Htrim at 1; exact Hschema]].
  clear Hschema. unfold isValidShortCode. subst code.
  assert (Js.allChars (fun ch => Js.occurs ch characters) (ud_shortCode u)
          = Js.allChars isCodeChar (ud_shortCode u)) as ->.
  { induction (ud_shortCode u) as [|ch s IH]; [reflexivity|].
    cbn [Js.allChars]. now rewrite IH, occurs_characters. }
  rewrite !andb_true_iff, negb_true_iff, !Nat.leb_le. split.
  - intros [[[_ Hchars] Hmin] Hmax]. auto.
  - intros [[Hmin Hmax] Hchars]. repeat split; try assumption.
    destruct (ud_shortCode u); [simpl in Hmin; lia | reflexivity].
Qed.

(** The code "abcd" with a space on either side: the schema trims it and
    reports nothing, the two checks refuse it as it is. *)
Lemma shortCode_checks_agree_witness :
  isValidShortCode " abcd " = false /\
  isValidCustomCode " abcd " = false /\
  isValidShortCode "abcd" = true /\
  forall message,
    ("shortCode", message)
    ∉ validateUrlData (H := utcHost) 1700000000000
        (castUrlData (H := utcHost) (withShortCode sampleData " abcd ")).
Proof.
  destruct (shortCode_checks_agree (H := utcHost) 1700000000000
              (withShortCode sampleData " abcd "))
    as (Hsame & _ & Hschema & _).
  cbv zeta in Hsame, Hschema.
  split; [reflexivity|].
  split; [exact (eq_trans (eq_sym Hsame) eq_refl)|].
  split; [reflexivity|]. apply Hschema. reflexivity.
Defined.

(** X7. With [Math.random()] below one, at any time from 1972-06-26 to
    2059-05-25 and for a length from four to eight, a code returned by
    [generateShortCode] passes these checks, whether it comes from the loop
    or from the fallback and whatever [Math.random()] gave for the
    fallback. *)
Theorem generateShortCode_passes_validation `{Host} c store length code now u :
  (4 <= length <= 8)%nat ->
  (forall a i, (mathRandom c a i < 2 ^ 53)%N) ->
  (36 ^ 7 <= dateNow c < 36 ^ 8)%N ->
  generateShortCode c store length = Resolved code ->
  ud_shortCode u = code ->
  isValidCustomCode code = true /\
  forall message, ("shortCode", message) ∉ validateUrlData now u.
Proof.
  intros Hlength Hrandom Hdate Hcode Hu.
  assert (Js.allChars isCodeChar code = true /\
          (4 <= String.length code <= 10)%nat) as [Hchars Hlen].
  { unfold generateShortCode in Hcode.
    destruct (attempts c store length 0 maxAttempts) as [shortCode|] eqn:Hattempts.
    - injection Hcode as <-.
      apply attempts_Some in Hattempts as (a & _ & -> & _).
      rewrite candidate_length by exact Hrandom.
      split; [now apply candidate_alphabet | lia].
    - destruct (findOne _ store); [discriminate|]. injection Hcode as <-.
      rewrite fallbackCode_eight_digits by (exact Hdate || lia).
      rewrite toString36_eight_digits by exact Hdate. split; [|lia].
      eapply allChars_impl; [|apply toString36_digits].
      apply digits36_are_characters. }
  assert (isValidCustomCode code = true) as Hvalid.
  { unfold isValidCustomCode. rewrite Hchars.
    destruct code as [|ch code]; [simpl in Hlen; lia|].
    cbn [String.eqb negb andb].
    apply andb_true_iff. split; apply Nat.leb_le; lia. }
  split; [exact Hvalid|].
  apply (validateUrlData_shortCode now u). now rewrite Hu.
Qed.

Lemma generateShortCode_passes_validation_witness :
  isValidCustomCode "loyw3v28" = true /\
  forall message,
    ("shortCode", message)
    ∉ validateUrlData (H := utcHost) 1700000000000 (withShortCode sampleData "loyw3v28").
Proof.
  apply (generateShortCode_passes_validation (H := utcHost) zeroChance takenStore 6
           "loyw3v28" 1700000000000 (withShortCode sampleData "loyw3v28")).
  - lia.
  - intros a i. reflexivity.
  - split; [apply N.leb_le | apply N.ltb_lt]; reflexivity.
  - vm_compute. reflexivity.
  - reflexivity.
Defined.

(** ** A click recorded from a copy that is out of date *)

(** X8. [incrementClicks] reads the in-memory copy only to choose between
    the two updates of [dailyStats]; everything it writes is computed by the
    database from the stored document.  Whatever the copy holds, a call
    that returns has added one to the stored [clicks], has left the stored
    code, address, owner, activity and expiry as they were (a click on a
    document that was deactivated in between is still counted, and the
    document stays deactivated), and, unless the push evicts an entry, has
    added one to the total of the stored [dailyStats]. *)
Theorem incrementClicks_stale_copy_keeps_totals `{Host}
    now stamp clickData this stored store result store' task :
  store !! _id this = Some stored ->
  incrementClicks now stamp clickData this store = Returned result store' task ->
  store' = <[_id this := result]> store /\
  clicks result = clicks stored + 1 /\
  shortCode result = shortCode stored /\
  originalUrl result = originalUrl stored /\
  userId result = userId stored /\
  isActive result = isActive stored /\
  expiryDate result = expiryDate stored /\
  ((length (dailyStats stored) < 365)%nat \/
   findIndex (localMidnight now) (dailyStats this) <> None ->
   sumClicks (dailyStats result) = sumClicks (dailyStats stored) + 1).
Proof.
  intros Hstored Hcall. unfold incrementClicks in Hcall. rewrite Hstored in Hcall.
  destruct (applyUpdate stamp (updateData this now clickData) stored)
    as [result'|] eqn:Happly; [|discriminate].
  injection Hcall as <- <- _.
  unfold applyUpdate in Happly.
  destruct (applyDailyStats _ (dailyStats stored)) as [stats|] eqn:Hstats;
    [|discriminate].
  injection Happly as <-. cbn [dailyStats].
  repeat (split; [reflexivity|]).
  intros Hguard. unfold updateData in Hstats. cbn in Hstats.
  destruct (findIndex (localMidnight now) (dailyStats this)) as [i|].
  - cbn in Hstats. destruct (dailyStats stored !! i) as [s|] eqn:Hs; [|discriminate].
    injection Hstats as <-. rewrite (sumClicks_insert _ _ _ _ Hs). simpl. lia.
  - destruct Hguard as [Hroom|Hcontra]; [|congruence].
    cbn in Hstats. injection Hstats as <-.
    unfold pushSlice. rewrite sliceLast_all by (rewrite length_app; simpl; lia).
    rewrite sumClicks_app, sumClicks_cons. unfold sumClicks at 2. simpl. lia.
Qed.

Lemma incrementClicks_stale_copy_keeps_totals_witness :
  exists result store',
    incrementClicks (H := utcHost) 1700000300500 1700000300501 sampleClick sampleDoc
      (alter deactivate 1%N clickedStore) = Returned result store' (Some 7%N) /\
    clicks result = 2 /\
    isActive result = false /\
    sumClicks (dailyStats result) = 2.
Proof.
  destruct (incrementClicks (H := utcHost) 1700000300500 1700000300501 sampleClick
              sampleDoc (alter deactivate 1%N clickedStore))
    as [result store' task| |] eqn:Hcall; try (vm_compute in Hcall; discriminate).
  assert (task = Some 7%N) as ->.
  { pose proof Hcall as Htask. vm_compute in Htask.
    injection Htask as _ _ Htask. now rewrite <- Htask. }
  assert (alter deactivate 1%N clickedStore !! _id sampleDoc
          = Some (deactivate (default sampleDoc (clickedStore !! 1%N)))) as Hstored
    by (vm_compute; reflexivity).
  destruct (incrementClicks_stale_copy_keeps_totals (H := utcHost) _ _ _ _ _ _ _ _ _
              Hstored Hcall)
    as (_ & Hclicks & _ & _ & _ & Hactive & _ & Hsum).
  exists result, store'. split; [reflexivity|].
  split; [rewrite Hclicks; vm_compute; reflexivity|].
  split; [rewrite Hactive; reflexivity|].
  rewrite Hsum; [vm_compute; reflexivity|].
  left. vm_compute. lia.
Defined.

(** X9. When the copy has no entry for today, an entry for today is pushed
    whatever the stored array holds: two redirects that both fetched the
    document before the first click of a day leave two entries of that day,
    and the dates of [dailyStats] are no longer distinct. *)
Theorem incrementClicks_stale_copy_duplicates_day `{Host}
    now stamp clickData this stored store s :
  store !! _id this = Some stored ->
  (forall s', s' ∈ dailyStats this -> DailyStat.date s' <> localMidnight now) ->
  s ∈ dailyStats stored -> DailyStat.date s = localMidnight now ->
  (length (dailyStats stored) < 365)%nat ->
  exists result,
    incrementClicks now stamp clickData this store
      = Returned result (<[_id this := result]> store) (userId this) /\
    dailyStats result = dailyStats stored ++ [DailyStat.Build (localMidnight now) 1] /\
    ~ NoDup (DailyStat.date <$> dailyStats result).
Proof.
  intros Hstored Hcopy Hs Hdate Hroom.
  apply findIndex_None in Hcopy.
  unfold incrementClicks, applyUpdate, updateData. rewrite Hstored. cbn.
  rewrite Hcopy. cbn. eexists. split; [reflexivity|]. cbn.
  unfold pushSlice. rewrite sliceLast_all by (rewrite length_app; simpl; lia).
  split; [reflexivity|].
  rewrite fmap_app. intros Hnodup.
  apply NoDup_app in Hnodup as (_ & Hdisjoint & _).
  apply (Hdisjoint (localMidnight now)).
  - rewrite <- Hdate. apply list_elem_of_fmap. now exists s.
  - left.
Qed.

Lemma incrementClicks_stale_copy_duplicates_day_witness :
  exists result,
    incrementClicks (H := utcHost) 1700000300500 1700000300501 sampleClick sampleDoc
      clickedStore = Returned result (<[1%N := result]> clickedStore) (Some 7%N) /\
    dailyStats result
      = [DailyStat.Build 1699920000000 1; DailyStat.Build 1699920000000 1].
Proof.
  destruct (incrementClicks_stale_copy_duplicates_day (H := utcHost)
              1700000300500 1700000300501 sampleClick sampleDoc
              (default sampleDoc (clickedStore !! 1%N)) clickedStore
              (DailyStat.Build 1699920000000 1))
    as (result & Hcall & Hstats & _).
  - vm_compute. reflexivity.
  - intros s' Hs'. inversion Hs'.
  - vm_compute. left.
  - reflexivity.
  - vm_compute. lia.
  - exists result. split; [exact Hcall|]. rewrite Hstats. vm_compute. reflexivity.
Defined.

(** ** What a redirect may do *)

Section RedirectRuns.
Context `{Host}.
Variable env : Env.

Lemma recordClickBeforeRedirect_events id clickData w :
  exists w' events,
    run env (recordClickBeforeRedirect id clickData) w = (Resolved tt, w', events) /\
    (length (filter (fun event => isIncrement event = true) events) <= 1)%nat /\
    Forall (fun event => isLookup event || isIncrement event = true) events.
Proof.
  unfold recordClickBeforeRedirect.
  rewrite run_tryCatch, run_bind, run_await.
  destruct (answer env (UrlFindById id) w) as [[[urlDoc|]|e] w1]; cbv iota beta;
    try (rewrite run_pure; cbv iota beta; do 2 eexists; split; [reflexivity|];
         split; [vm_compute; lia | repeat constructor]).
  destruct (isActive urlDoc).
  - rewrite run_bind, run_await.
    destruct (answer env (DocIncrementClicks urlDoc clickData) w1) as [[result|e] w2];
      cbv iota beta; rewrite ?run_pure; cbv iota beta;
      do 2 eexists; (split; [reflexivity|]);
      (split; [vm_compute; lia | repeat constructor]).
  - rewrite run_pure. cbv iota beta. do 2 eexists. split; [reflexivity|].
    split; [vm_compute; lia | repeat constructor].
Qed.
Lemma no_increment_filter (events : list Event) :
  Forall (fun event => isLookup event = true) events ->
  filter (fun event => isIncrement event = true) events = [] /\
  Forall (fun event => isLookup event || isIncrement event = true) events.
Proof.
  intros Hlookups. split.
  - induction Hlookups as [|event events Hevent _ IH]; [reflexivity|].
    rewrite filter_cons_False; [exact IH|].
    destruct event as [A call a]. now destruct call.
  - eapply Forall_impl; [exact Hlookups|]. intros event ->. reflexivity.
Qed.

Lemma redirectToOriginal_events req w :
  exists response w' events,
    run env (redirectToOriginal req) w = (response, w', events) /\
    Forall (fun event => isLookup event || isIncrement event = true) events /\
    (length (filter (fun event => isIncrement event = true) events) <= 1)%nat /\
    (filter (fun event => isIncrement event = true) events <> [] ->
     exists location, response = RedirectTo 302 location).
Proof.
  unfold redirectToOriginal. rewrite run_bindProg.
  destruct (rr_errors req).
  2: { rewrite run_pure. cbv iota beta. do 3 eexists. split; [reflexivity|].
       split; [constructor|]. split; [vm_compute; lia | intros []; reflexivity]. }
  rewrite run_bind, run_await.
  destruct (answer env (UrlFindOne (ByShortCodeActive (rr_shortCode req))) w)
    as [[[url|]|e] w1]; cbv iota beta.
  2,3: rewrite ?run_pure; cbv iota beta; do 3 eexists; (split; [reflexivity|]);
       (split; [repeat constructor|]);
       (split; [vm_compute; lia | intros []; reflexivity]).
  rewrite run_bind.
  match goal with
  | |- context [run env ?m w1] =>
      assert (exists (expired : bool) w2 events2,
                run env m w1 = (Resolved expired, w2, events2) /\
                Forall (fun event => isLookup event = true) events2)
        as (expired & w2 & events2 & -> & Hlookups)
  end.
  { destruct (expiryDate url) as [expiry|].
    - rewrite run_bind, run_ask. destruct (answer env NewDate w1) as [now w2].
      cbv iota beta. rewrite run_pure. cbv iota beta.
      do 3 eexists. split; [reflexivity|]. repeat constructor.
    - rewrite run_pure. do 3 eexists. split; [reflexivity|]. constructor. }
  cbv iota beta.
  destruct (no_increment_filter _ Hlookups) as [Hfilter Hkinds].
  destruct expired.
  - rewrite run_pure. cbv iota beta. do 3 eexists. split; [reflexivity|].
    rewrite !app_nil_r. cbn [app].
    rewrite filter_cons_False by (cbn; congruence).
    rewrite Hfilter.
    split; [now constructor|]. split; [cbn; lia | intros []; reflexivity].
  - rewrite run_bind.
    destruct (recordClickBeforeRedirect_events (_id url) (clickDataOf req) w2)
      as (w3 & events3 & -> & Hone & Hkinds3).
    cbv iota beta. rewrite run_pure. cbv iota beta.
    do 3 eexists. split; [reflexivity|].
    rewrite !app_nil_r. cbn [app].
    rewrite filter_cons_False by (cbn; congruence).
    rewrite filter_app, Hfilter.
    split; [constructor; [reflexivity | now apply Forall_app]|].
    split; [exact Hone | eauto].
Qed.
End RedirectRuns.

(** X10. Whatever answers its calls, one run of [redirectToOriginal] issues
    nothing but queries, readings of the clock and at most one
    [incrementClicks]; and when it issues that, it answers with the redirect:
    a request answered with 400, 404, 410 or 500 has recorded no click. *)
Theorem redirect_counts_only_when_redirecting `{Host} env w req :
  let response := fst (outcome env (redirectToOriginal req) w) in
  let events := snd (outcome env (redirectToOriginal req) w) in
  Forall (fun event => isLookup event || isIncrement event = true) events /\
  (length (filter (fun event => isIncrement event = true) events) <= 1)%nat /\
  (Exists (fun event => isIncrement event = true) events ->
   exists location, response = RedirectTo 302 location).
Proof.
  unfold outcome.
  destruct (redirectToOriginal_events env req w)
    as (response & w' & events & -> & Hkinds & Hone & Hredirect).
  cbn. split; [exact Hkinds|]. split; [exact Hone|].
  intros Hex. apply Hredirect. intros Hnil.
  apply Exists_exists in Hex as (event & Hin & Hevent).
  assert (event ∈ filter (fun event => isIncrement event = true) events) as Hin'
    by now apply list_elem_of_filter.
  rewrite Hnil in Hin'. inversion Hin'.
Qed.

(** ** Handlers that only read *)

Section ReadOnly.
Context `{Host}.

(** In a database where nothing interferes, a run made of queries and
    readings of the clock leaves the collection as it was. *)
Lemma lookups_leave_collection {R : Type} (p : Prog R) (w : Mongo) :
  others w = [] ->
  Forall (fun event => isLookup event = true) (snd (run mongoEnv p w)) ->
  urls (snd (fst (run mongoEnv p w))) = urls w.
Proof.
  revert w. induction p as [r|A call k IH]; intros w Hquiet Hevents; [reflexivity|].
  cbn [run] in *.
  destruct (answer mongoEnv call w) as [a w1] eqn:Hanswer.
  specialize (IH a w1).
  destruct (run mongoEnv (k a) w1) as [[r w2] events]. cbn in *.
  apply Forall_cons in Hevents as [Hcall Hevents].
  assert (urls w1 = urls w /\ others w1 = []) as [Hurls Hquiet1].
  { change (answer mongoEnv call w) with (mongoAnswer _ call w) in Hanswer.
    unfold mongoAnswer in Hanswer. rewrite Hquiet in Hanswer.
    destruct call; try discriminate; cbn in Hanswer;
      injection Hanswer as _ <-; auto. }
  rewrite <- Hurls. now apply IH.
Qed.
End ReadOnly.

Ltac all_lookups :=
  rewrite ?app_nil_r;
  repeat first [ assumption
               | apply Forall_app; split
               | apply Forall_cons; split; [reflexivity|]
               | constructor ].

Section ReadingHandlers.
Context `{Host}.
Variable env : Env.

Lemma countLast24Hours_lookups clicks w :
  exists n w' events,
    run env (countLast24Hours clicks) w = (Resolved n, w', events) /\
    Forall (fun event => isLookup event = true) events.
Proof.
  revert w. induction clicks as [|click rest IH]; intros w.
  - cbn. do 3 eexists. split; [reflexivity | constructor].
  - cbn [countLast24Hours]. rewrite run_bind, run_ask.
    destruct (answer env NewDate w) as [now w1]. cbv iota beta.
    rewrite run_bind.
    destruct (IH w1) as (n & w2 & events & -> & Hlookups). cbv iota beta.
    rewrite run_pure. do 3 eexists. split; [reflexivity|].
    rewrite app_nil_r. now constructor.
Qed.

Lemma expiry_check_lookups {R : Type} (f : bool -> R) (none : R) (url : UrlDoc) w :
  exists r w' events,
    run env (match expiryDate url with
             | Some expiry => let* now := ask NewDate in pure (f (expiry <? now))
             | None => pure none
             end) w = (Resolved r, w', events) /\
    Forall (fun event => isLookup event = true) events.
Proof.
  destruct (expiryDate url) as [expiry|].
  - rewrite run_bind, run_ask. destruct (answer env NewDate w) as [now w1].
    cbv iota beta. rewrite run_pure. cbv iota beta.
    do 3 eexists. split; [reflexivity|]. repeat constructor.
  - rewrite run_pure. do 3 eexists. split; [reflexivity | constructor].
Qed.

Lemma getUrlAnalytics_lookups req w :
  exists response w' events,
    run env (getUrlAnalytics req) w = (response, w', events) /\
    Forall (fun event => isLookup event = true) events.
Proof.
  unfold getUrlAnalytics. rewrite run_bindProg.
  destruct (aq_user req) as [userId|].
  2: { rewrite run_throw. cbv iota beta. do 3 eexists.
       split; [reflexivity | constructor]. }
  rewrite run_bind, run_await.
  destruct (answer env (UrlFindOne (ByIdOwner (aq_id req) userId)) w)
    as [[[url|]|e] w1]; cbv iota beta.
  2,3: rewrite ?run_pure; cbv iota beta; do 3 eexists;
       (split; [reflexivity | repeat constructor]).
  rewrite run_bind, run_ask.
  destruct (answer env NewDate w1) as [now30 w2]. cbv iota beta.
  rewrite run_bind, run_ask.
  destruct (answer env NewDate w2) as [now7 w3]. cbv iota beta.
  rewrite run_bind.
  destruct (countLast24Hours_lookups (recentClicks url) w3)
    as (n & w4 & events4 & -> & Hlookups4). cbv iota beta.
  rewrite run_bind, run_ask.
  destruct (answer env NewDate w4) as [now w5]. cbv iota beta.
  rewrite run_bind.
  destruct (countReferrers (List.filter hasReferer (recentClicks url)) ∅)
    as [topReferrers|e]; cbn [run]; cbv iota beta.
  2: { do 3 eexists. split; [reflexivity | all_lookups]. }
  rewrite run_bind.
  match goal with
  | |- context [run env ?m w5] =>
      assert (exists (expired : bool) w6 events6,
                run env m w5 = (Resolved expired, w6, events6) /\
                Forall (fun event => isLookup event = true) events6)
        as (expired & w6 & events6 & -> & Hlookups6)
        by apply (expiry_check_lookups (fun b => b) false)
  end.
  cbv iota beta. rewrite run_pure. cbv iota beta.
  do 3 eexists. split; [reflexivity | all_lookups].
Qed.

Lemma getUrlPreview_lookups code w :
  exists response w' events,
    run env (getUrlPreview code) w = (response, w', events) /\
    Forall (fun event => isLookup event = true) events.
Proof.
  unfold getUrlPreview. rewrite run_bindProg, run_bind, run_await.
  destruct (answer env (UrlFindOne (ByShortCodeActive code)) w)
    as [[[url|]|e] w1]; cbv iota beta.
  2,3: rewrite ?run_pure; cbv iota beta; do 3 eexists;
       (split; [reflexivity | repeat constructor]).
  rewrite run_bind.
  match goal with
  | |- context [run env ?m w1] =>
      assert (exists (expired : option bool) w2 events2,
                run env m w1 = (Resolved expired, w2, events2) /\
                Forall (fun event => isLookup event = true) events2)
        as (expired & w2 & events2 & -> & Hlookups2)
        by apply (expiry_check_lookups Some None)
  end.
  cbv iota beta. rewrite run_pure. cbv iota beta.
  do 3 eexists. split; [reflexivity|].
  rewrite !app_nil_r. now constructor.
Qed.
End ReadingHandlers.

(** X11. [getUrlAnalytics] and [getUrlPreview] only read.  Whatever answers
    their calls, they issue nothing but queries and readings of the clock;
    so in a database where nothing interferes the collection is the same
    after the request as before: looking at the analytics or at the preview
    of a short URL counts no click and changes no document. *)
Theorem analytics_and_preview_only_read `{Host} req code :
  (forall env w,
     Forall (fun event => isLookup event = true)
       (snd (outcome env (getUrlAnalytics req) w)) /\
     Forall (fun event => isLookup event = true)
       (snd (outcome env (getUrlPreview code) w))) /\
  (forall w : Mongo,
     others w = [] ->
     urls (after mongoEnv (getUrlAnalytics req) w) = urls w /\
     urls (after mongoEnv (getUrlPreview code) w) = urls w).
Proof.
  split.
  - intros env w. unfold outcome.
    destruct (getUrlAnalytics_lookups env req w) as (r1 & w1 & events1 & -> & Hl1).
    destruct (getUrlPreview_lookups env code w) as (r2 & w2 & events2 & -> & Hl2).
    now split.
  - intros w Hquiet. unfold after. split; apply lookups_leave_collection;
      try exact Hquiet.
    + destruct (getUrlAnalytics_lookups mongoEnv req w) as (r1 & w1 & events1 & -> & Hl1).
      exact Hl1.
    + destruct (getUrlPreview_lookups mongoEnv code w) as (r2 & w2 & events2 & -> & Hl2).
      exact Hl2.
Qed.

Lemma analytics_and_preview_only_read_witness :
  urls (after (mongoEnv (H := utcHost)) (getUrlAnalytics (H := utcHost) sampleAnalytics)
          (sampleMongo clickedStore []))
  = clickedStore /\
  urls (after (mongoEnv (H := utcHost)) (getUrlPreview "abc123")
          (sampleMongo clickedStore []))
  = clickedStore.
Proof.
  apply (proj2 (analytics_and_preview_only_read (H := utcHost) sampleAnalytics "abc123")
           (sampleMongo clickedStore [])).
  reflexivity.
Defined.

(** X12. The preview and the redirect of a short code that find the
    database in the same state agree: the preview is refused with 404 or
    500 exactly when the redirect is, with the same status; a preview that
    reports [isExpired: true] stands for a redirect refused with 410; and
    any other preview shows the address the redirect leads to. *)
Theorem preview_agrees_with_redirect `{Host} env w req :
  rr_errors req = [] ->
  let redirect := fst (outcome env (redirectToOriginal req) w) in
  match fst (outcome env (getUrlPreview (rr_shortCode req)) w) with
  | NoPreview status message =>
      exists message', redirect = Json status false (Some message') NoData /\
                       (status = 404 \/ status = 500)
  | PreviewOf data =>
      if decide (pv_isExpired data = Some true)
      then redirect = Json 410 false (Some "This short URL has expired") NoData
      else redirect = RedirectTo 302 (pv_originalUrl data)
  end.
Proof.
  intros Herrors. unfold outcome, getUrlPreview, redirectToOriginal.
  rewrite !run_bindProg, Herrors, !run_bind, !run_await.
  destruct (answer env (UrlFindOne (ByShortCodeActive (rr_shortCode req))) w)
    as [[[url|]|e] w1]; cbv iota beta.
  2,3: rewrite ?run_pure; cbn; eauto.
  rewrite !run_bind.
  destruct (expiryDate url) as [expiry|].
  - rewrite !run_bind, !run_ask. destruct (answer env NewDate w1) as [now w2].
    repeat progress (rewrite ?run_pure; cbv iota beta).
    destruct (expiry <? now); cbv iota beta.
    + rewrite run_pure. cbn. reflexivity.
    + rewrite run_bind.
      destruct (recordClickBeforeRedirect_resolves env (_id url) (clickDataOf req) w2)
        as (w3 & events & ->).
      cbn. reflexivity.
  - repeat progress (rewrite ?run_pure; cbv iota beta). rewrite run_bind.
    destruct (recordClickBeforeRedirect_resolves env (_id url) (clickDataOf req) w1)
      as (w3 & events & ->).
    cbn. reflexivity.
Qed.

Lemma preview_agrees_with_redirect_witness :
  fst (outcome (mongoEnv (H := utcHost)) (redirectToOriginal (H := utcHost) sampleRedirect)
         (sampleMongo sampleStore []))
  = RedirectTo 302 "https://example.com".
Proof.
  pose proof (preview_agrees_with_redirect (H := utcHost) (mongoEnv (H := utcHost))
                (sampleMongo sampleStore []) sampleRedirect eq_refl) as Hagree.
  cbv zeta in Hagree.
  match type of Hagree with
  | match ?preview with _ => _ end =>
      let v := eval vm_compute in preview in change preview with v in Hagree
  end.
  cbv iota beta in Hagree.
  destruct (decide _) as [Hexpired|_] in Hagree; [discriminate Hexpired|].
  exact Hagree.
Defined.

(** ** Creation: what is refused at once, and what the QR code cannot undo *)

(** X13. A request that fails one of the checks before the choice of a code
    (validation errors, no authenticated user, an address that [new URL]
    refuses, a custom code of the wrong shape) is answered with 400 or 401
    without a single call: no query, no insert, nothing generated. *)
Theorem createShortUrl_rejects_before_any_call `{Host} env w req :
  cr_errors req <> [] \/
  cr_user req = None \/
  urlHostname (rb_originalUrl (cr_body req)) = None \/
  (exists customCode,
      rb_customCode (cr_body req) = Some customCode /\
      customCode <> "" /\ isValidCustomCode customCode = false) ->
  exists status message data,
    run env (createShortUrl req) w = (Json status false (Some message) data, w, []) /\
    (status = 400 \/ status = 401).
Proof.
  intros Hrefused. unfold createShortUrl, prepare. rewrite run_bindProg.
  destruct (cr_errors req) as [|error errors] eqn:Herrors.
  2: { rewrite run_bind, run_pure. cbv iota beta. rewrite run_pure. cbn. eauto 10. }
  destruct (cr_user req) as [userId|] eqn:Huser.
  2: { rewrite run_bind, run_pure. cbv iota beta. rewrite run_pure. cbn. eauto 10. }
  destruct (urlHostname (rb_originalUrl (cr_body req))) as [hostname|] eqn:Hhost.
  2: { rewrite run_bind, run_pure. cbv iota beta. rewrite run_pure. cbn. eauto 10. }
  destruct Hrefused as [Hcontra|[Hcontra|[Hcontra|(customCode & -> & Hgiven & Hshape)]]];
    try congruence.
  unfold chooseShortCode.
  apply String.eqb_neq in Hgiven. rewrite Hgiven, Hshape. cbn [negb].
  rewrite !run_bind, run_pure. cbv iota beta. rewrite run_pure. cbv iota beta.
  rewrite run_pure. cbn. eauto 10.
Qed.

Lemma createShortUrl_rejects_before_any_call_witness :
  exists status message data,
    run (mongoEnv (H := utcHost))
      (createShortUrl (H := utcHost)
         {| cr_errors := []; cr_user := Some 7%N;
            cr_body := {| rb_originalUrl := "https://example.com";
                          rb_customCode := Some "a b";
                          rb_title := None; rb_description := None;
                          rb_expiryDate := None; rb_tags := None |} |})
      (sampleMongo sampleStore [])
    = (Json status false (Some message) data, sampleMongo sampleStore [], []) /\
    (status = 400 \/ status = 401).
Proof.
  apply (createShortUrl_rejects_before_any_call (H := utcHost)).
  right. right. right. exists "a b". split; [reflexivity|].
  split; [discriminate | reflexivity].
Defined.

Lemma no_insert_filter (events : list Event) :
  Forall (fun event => isInsert event = false) events ->
  List.filter isInsert events = [].
Proof.
  induction 1 as [|event events Hevent _ IH]; [reflexivity|].
  cbn. now rewrite Hevent.
Qed.

(** The checks before the insert never insert. *)
Lemma prepare_never_inserts `{Host} env req w :
  Forall (fun event => isInsert event = false) (snd (run env (prepare req) w)).
Proof.
  unfold prepare.
  destruct (cr_errors req); [|constructor].
  destruct (cr_user req); [|constructor].
  destruct (urlHostname (rb_originalUrl (cr_body req))); [|constructor].
  rewrite run_bind.
  assert (exists chosen w1 events1,
            run env (chooseShortCode (rb_customCode (cr_body req))) w
            = (chosen, w1, events1) /\
            Forall (fun event => isInsert event = false) events1)
    as (chosen & w1 & events1 & -> & Hchosen).
  { unfold chooseShortCode.
    assert (exists chosen w1 events1,
              run env (let* shortCode := await (UrlGenerateShortCode 6) in
                       pure (inr (A := Response) shortCode)) w
              = (chosen, w1, events1) /\
              Forall (fun event => isInsert event = false) events1) as Hgenerated.
    { rewrite run_bind, run_await.
      destruct (answer env (UrlGenerateShortCode 6) w) as [[shortCode|e] w1];
        cbv iota beta; rewrite ?run_pure; do 3 eexists;
        (split; [reflexivity | repeat constructor]). }
    destruct (rb_customCode (cr_body req)) as [customCode|]; [|exact Hgenerated].
    destruct (String.eqb customCode ""); [exact Hgenerated|].
    destruct (negb (isValidCustomCode customCode)).
    { rewrite run_pure. do 3 eexists. split; [reflexivity | constructor]. }
    rewrite run_bind, run_await.
    destruct (answer env (UrlFindOne (ByShortCode customCode)) w) as [[[existing|]|e] w1];
      cbv iota beta; rewrite ?run_pure; do 3 eexists;
      (split; [reflexivity | repeat constructor]). }
  destruct chosen as [[response|shortCode]|e]; cbv iota beta;
    rewrite ?run_pure; cbn [snd]; rewrite ?app_nil_r; try exact Hchosen.
  rewrite run_bind.
  assert (exists parsed w2 events2,
            run env (parseExpiryDate (rb_expiryDate (cr_body req))) w1
            = (Resolved parsed, w2, events2) /\
            Forall (fun event => isInsert event = false) events2)
    as (parsed & w2 & events2 & -> & Hparsed).
  { unfold parseExpiryDate. destruct (rb_expiryDate (cr_body req)) as [expiry|].
    - rewrite run_bind, run_ask. destruct (answer env NewDate w1) as [now w2].
      cbv iota beta. destruct (expiry <=? now); rewrite run_pure; do 3 eexists;
        (split; [reflexivity | repeat constructor]).
    - rewrite run_pure. do 3 eexists. split; [reflexivity | constructor]. }
  cbv iota beta. destruct parsed as [response|parsed]; rewrite run_pure; cbn [snd];
    rewrite app_nil_r; now apply Forall_app.
Qed.

(** X14. Once the insert has succeeded the request is answered with 201,
    whatever becomes of the QR code, and no other insert is made.  When the
    QR library fails, the response carries the inserted document as it is
    and the save is not tried.  When the library gives a code, the document
    with that code is saved once and the response carries the document with
    the code, whether the save succeeds or fails. *)
Theorem createShortUrl_created_despite_qr_failure `{Host} env w req p w1 events1 url w2 :
  run env (prepare req) w = (Resolved (inr p), w1, events1) ->
  answer env (UrlCreate (p_urlData p)) w1 = (Resolved url, w2) ->
  let insert := Answered (UrlCreate (p_urlData p)) (Resolved url) in
  let toDataURL := QRCodeToDataURL (shortUrl url) in
  Forall (fun event => isInsert event = false) events1 /\
  match answer env toDataURL w2 with
  | (Rejected e, w3) =>
      run env (createShortUrl req) w
      = (created url, w3, events1 ++ [insert; Answered toDataURL (Rejected e)])
  | (Resolved qrCodeDataUrl, w3) =>
      let save := DocSave (withQrCode url qrCodeDataUrl) in
      let '(saved, w4) := answer env save w3 in
      run env (createShortUrl req) w
      = (created (withQrCode url qrCodeDataUrl), w4,
         events1 ++ [insert; Answered toDataURL (Resolved qrCodeDataUrl);
                     Answered save saved])
  end.
Proof.
  intros Hprepare Hcreate insert toDataURL. subst insert toDataURL.
  split.
  { pose proof (prepare_never_inserts env req w) as Hprepared.
    rewrite Hprepare in Hprepared. exact Hprepared. }
  unfold createShortUrl. rewrite run_bindProg, run_bind, Hprepare.
  cbv iota beta. unfold createAndRespond.
  rewrite run_tryCatch, run_bind, run_await, Hcreate. cbv iota beta.
  rewrite run_bind. unfold attachQrCode.
  rewrite run_tryCatch, run_bind, run_await.
  destruct (answer env (QRCodeToDataURL (shortUrl url)) w2) as [[qr|e] w3];
    cbv iota beta.
  - rewrite run_tryCatch, run_bind, run_await.
    destruct (answer env (DocSave (withQrCode url qr)) w3) as [[saved|e] w4];
      cbv iota beta; rewrite ?run_pure; cbv iota beta; rewrite ?run_pure;
      cbn; rewrite ?app_nil_r; reflexivity.
  - rewrite ?run_pure. cbv iota beta. rewrite ?run_pure.
    cbn. rewrite ?app_nil_r. reflexivity.
Qed.

(** The sample request when the connection is lost at the save: the
    response has the QR code, the stored document has none. *)
Lemma createShortUrl_created_despite_qr_failure_witness :
  exists url w',
    run (mongoEnv (H := utcHost)) (createShortUrl (H := utcHost) sampleCreate)
      (sampleMongo ∅ [Quiet; Quiet; Quiet; Outage])
    = (created (H := utcHost)
         (withQrCode url "data:image/png;base64,http://localhost:5001/aaaaaa"), w',
       [Answered (UrlGenerateShortCode 6) (Resolved "aaaaaa");
        Answered (UrlCreate sampleFirstData) (Resolved url);
        Answered (QRCodeToDataURL "http://localhost:5001/aaaaaa")
          (Resolved "data:image/png;base64,http://localhost:5001/aaaaaa");
        Answered
          (DocSave (withQrCode url "data:image/png;base64,http://localhost:5001/aaaaaa"))
          (Rejected connectionLost)]) /\
    urls w' !! 2%N = Some url /\
    qrCode url = None.
Proof.
  epose proof (createShortUrl_created_despite_qr_failure (H := utcHost)
                 (mongoEnv (H := utcHost)) (sampleMongo ∅ [Quiet; Quiet; Quiet; Outage])
                 sampleCreate _ _ _ _ _) as Hcreated.
  cbv zeta in Hcreated.
  specialize (Hcreated ltac:(vm_compute; reflexivity) ltac:(vm_compute; reflexivity)).
  destruct Hcreated as [_ Hcreated].
  match type of Hcreated with
  | match ?a with _ => _ end =>
      let v := eval vm_compute in a in change a with v in Hcreated
  end.
  cbv iota beta in Hcreated.
  match type of Hcreated with
  | match ?a with _ => _ end =>
      let v := eval vm_compute in a in change a with v in Hcreated
  end.
  cbv iota beta in Hcreated.
  do 2 eexists. split; [exact Hcreated|]. split; reflexivity.
Defined.

(** ** The database when nothing interferes *)

Section QuietDatabase.
Context `{Host}.

Lemma mongoAnswer_quiet A (call : Call A) (w : Mongo) :
  others w = [] ->
  mongoAnswer A call w
  = match call in Call A return A * Mongo with
    | UrlFindOne q => (Resolved (findOne (matches q) (urls w)), w)
    | UrlFindById id => (Resolved (urls w !! id), w)
    | UrlCreate urlData => mongoCreate urlData w
    | UrlGenerateShortCode length =>
        (generateShortCode (chanceOf w (generated w)) (urls w) length,
         {| urls := urls w; clock := clock w; nextId := nextId w;
            chanceOf := chanceOf w; generated := S (generated w);
            qrLibrary := qrLibrary w; others := others w;
            offSchema := offSchema w |})
    | DocSave doc => mongoSave doc w
    | DocIncrementClicks doc clickData => mongoIncrementClicks doc clickData w
    | QRCodeToDataURL text => (qrLibrary w text, w)
    | NewDate => (clock w, tick 1 w)
    end.
Proof.
  intros Hquiet. unfold mongoAnswer. rewrite Hquiet.
  destruct w as [urls0 clock0 nextId0 chanceOf0 generated0 qrLibrary0 others0 offSchema0].
  cbn in Hquiet. subst others0. now destruct call.
Qed.

(** A property of the database that every answered call keeps, every run
    keeps. *)
Lemma run_preserves (Inv : Mongo -> Prop) :
  (forall A (call : Call A) w, Inv w -> Inv (snd (mongoAnswer A call w))) ->
  forall {R : Type} (handler : Prog R) w, Inv w -> Inv (after mongoEnv handler w).
Proof.
  intros Hstep R handler. unfold after.
  induction handler as [r|A call k IH]; intros w Hw; [exact Hw|].
  cbn [run]. pose proof (Hstep A call w Hw) as Hw1.
  change (answer mongoEnv call w) with (mongoAnswer A call w).
  destruct (mongoAnswer A call w) as [a w1]. cbn in Hw1.
  specialize (IH a w1 Hw1).
  now destruct (run mongoEnv (k a) w1) as [[r w2] events].
Qed.

Lemma mongoAnswer_stays_quiet A (call : Call A) (w : Mongo) :
  others w = [] -> others (snd (mongoAnswer A call w)) = [].
Proof.
  intros Hquiet. rewrite mongoAnswer_quiet by exact Hquiet.
  destruct call; cbn; try exact Hquiet.
  - unfold mongoCreate. destruct (validateUrlData _ _); [|exact Hquiet].
    destruct (duplicateKey _ _); exact Hquiet.
  - unfold mongoSave. destruct (urls w !! _id doc); exact Hquiet.
  - unfold mongoIncrementClicks. destruct (incrementClicks _ _ _ _ _); exact Hquiet.
Qed.

Lemma run_stays_quiet {R : Type} (handler : Prog R) (w : Mongo) :
  others w = [] -> others (after mongoEnv handler w) = [].
Proof.
  apply (run_preserves (fun w => others w = [])).
  intros A call w'. apply mongoAnswer_stays_quiet.
Qed.
End QuietDatabase.

(** ** The clicks of one document in a bulk update *)

Section BulkClicks.
Context `{Host}.

Lemma incrementEach_quiet urlClicks :
  forall (w : Mongo) url,
    others w = [] ->
    urls w !! _id url = Some url ->
    exists w' events d,
      run mongoEnv (incrementEach url urlClicks) w = (Resolved tt, w', events) /\
      recordClicks (_id url) (arrivalsFrom (clock w) urlClicks) (urls w)
        = Some (urls w') /\
      others w' = [] /\
      offSchema w' = offSchema w /\
      urls w' !! _id url = Some d /\
      clicks d = clicks url + Z.of_nat (length urlClicks).
Proof.
  induction urlClicks as [|clickData rest IH]; intros w url Hquiet Hstored.
  - cbn. exists w, [], url. repeat split; try assumption. lia.
  - cbn [incrementEach arrivalsFrom recordClicks ar_now ar_stamp ar_data].
    rewrite run_bind, run_await.
    change (answer mongoEnv ?call w) with (mongoAnswer _ call w).
    rewrite mongoAnswer_quiet by exact Hquiet.
    unfold mongoIncrementClicks. rewrite Hstored.
    destruct (incrementClicks_returns (clock w) (clock w + 1) clickData url (urls w)
                Hstored) as (result & Happly & ->).
    cbv iota beta.
    pose proof (applyUpdate_clicks
                  {| ar_now := clock w; ar_stamp := clock w + 1; ar_data := clickData |}
                  url result Happly) as Hclicks.
    assert (_id result = _id url) as Hid.
    { destruct (applyUpdate_self
                  {| ar_now := clock w; ar_stamp := clock w + 1; ar_data := clickData |}
                  url) as (result' & Happly' & Hid').
      cbn in Happly'. congruence. }
    destruct (IH (tick 2 (withUrls w (<[_id url := result]> (urls w)))) result)
      as (w' & events & d & Hrun & Hrecord & Hquiet' & Hschema & Hd & Hcount).
    { exact Hquiet. }
    { cbn. rewrite Hid. apply lookup_insert_eq. }
    rewrite Hrun. cbv iota beta. rewrite Hid in Hrecord, Hd. cbn in Hrecord.
    exists w', (Answered (DocIncrementClicks url clickData) (Resolved result) :: events), d.
    split; [reflexivity|]. split; [exact Hrecord|]. split; [exact Hquiet'|].
    split; [exact Hschema|]. split; [exact Hd|].
    rewrite Hcount, Hclicks. cbn [length]. lia.
Qed.

Lemma incrementEach_events env urlClicks :
  forall url w,
    exists r w' events,
      run env (incrementEach url urlClicks) w = (r, w', events) /\
      (length events <= length urlClicks)%nat /\
      Forall (fun event => isIncrement event = true) events /\
      forall before event rest,
        events = before ++ event :: rest -> isRejection event = true -> rest = [].
Proof.
  induction urlClicks as [|clickData rest IH]; intros url w.
  - cbn. do 3 eexists. split; [reflexivity|]. split; [cbn; lia|].
    split; [constructor|].
    intros [|? ?] ? ? Heq; discriminate Heq.
  - cbn [incrementEach]. rewrite run_bind, run_await.
    destruct (answer env (DocIncrementClicks url clickData) w) as [[result|e] w1];
      cbv iota beta.
    + destruct (IH result w1) as (r & w' & events & -> & Hlen & Hkinds & Hlast).
      do 3 eexists. split; [reflexivity|]. cbn [app length].
      split; [lia|]. split; [now constructor|].
      intros [|first before] event rest' Heq Hrejected.
      * injection Heq as <- _. discriminate Hrejected.
      * injection Heq as _ Heq. exact (Hlast _ _ _ Heq Hrejected).
    + do 3 eexists. split; [reflexivity|]. cbn [length].
      split; [lia|]. split; [repeat constructor|].
      intros [|first [|? ?]] event rest' Heq _; try discriminate Heq.
      now injection Heq as _ <-.
Qed.
End BulkClicks.

(** X15. [bulkUpdateClicks] runs one callback for each document.  In a
    database where nothing interferes, the callback of an active document
    records its clicks exactly as that many redirects in a row would: the
    collection it leaves is the one [recordClicks] computes, so every click
    of the group is counted and what holds of sequences of clicks holds of a
    group. *)
Theorem updateClicksOf_records_every_click `{Host} (w : Mongo) urlId urlClicks url :
  others w = [] ->
  urls w !! urlId = Some url -> _id url = urlId -> isActive url = true ->
  let w' := after mongoEnv (updateClicksOf urlId urlClicks) w in
  recordClicks urlId (arrivalsFrom (clock w) urlClicks) (urls w) = Some (urls w') /\
  offSchema w' = offSchema w /\
  exists d, urls w' !! urlId = Some d /\
            clicks d = clicks url + Z.of_nat (length urlClicks).
Proof.
  intros Hquiet Hstored Hid Hactive. unfold after, updateClicksOf.
  rewrite run_tryCatch, run_bind, run_await.
  change (answer mongoEnv ?call w) with (mongoAnswer _ call w).
  rewrite mongoAnswer_quiet by exact Hquiet. rewrite Hstored. cbv iota beta.
  rewrite Hactive. rewrite <- Hid in Hstored.
  destruct (incrementEach_quiet urlClicks w url Hquiet Hstored)
    as (w' & events & d & -> & Hrecord & _ & Hschema & Hd & Hcount).
  cbn. rewrite <- Hid. eauto.
Qed.

Lemma updateClicksOf_records_every_click_witness :
  exists d,
    urls (after (mongoEnv (H := utcHost))
            (updateClicksOf 1%N [sampleClick; sampleClick; sampleClick])
            (sampleMongo sampleStore [])) !! 1%N = Some d /\
    clicks d = 3.
Proof.
  destruct (updateClicksOf_records_every_click (H := utcHost)
              (sampleMongo sampleStore []) 1%N [sampleClick; sampleClick; sampleClick]
              sampleDoc eq_refl eq_refl eq_refl eq_refl)
    as (_ & _ & d & Hd & Hclicks).
  exists d. split; [exact Hd | exact Hclicks].
Defined.

(** X16. Whatever answers its calls, the callback of a group never throws,
    issues at most one [incrementClicks] for each click of the group, and
    stops at the first call that fails: a rejected call is the last call of
    the group, so the clicks after it are dropped. *)
Theorem updateClicksOf_stops_at_first_failure env w urlId urlClicks :
  exists w' events,
    run env (updateClicksOf urlId urlClicks) w = (Resolved tt, w', events) /\
    (length (filter (fun event => isIncrement event = true) events)
     <= length urlClicks)%nat /\
    forall before event rest,
      events = before ++ event :: rest -> isRejection event = true -> rest = [].
Proof.
  unfold updateClicksOf. rewrite run_tryCatch, run_bind, run_await.
  destruct (answer env (UrlFindById urlId) w) as [[[url|]|e] w1]; cbv iota beta.
  2,3: rewrite ?run_pure; cbv iota beta; do 2 eexists; (split; [reflexivity|]);
       (split; [vm_compute; lia|]);
       intros [|first [|? ?]] event rest Heq _; try discriminate Heq;
       now injection Heq as _ <-.
  destruct (isActive url).
  - destruct (incrementEach_events env urlClicks url w1)
      as (r & w' & events & -> & Hlen & Hkinds & Hlast).
    assert (forall before event rest,
              Answered (UrlFindById urlId) (Resolved (Some url)) :: events
              = before ++ event :: rest ->
              isRejection event = true -> rest = []) as Hlast'.
    { intros [|first before] event rest Heq Hrejected.
      - injection Heq as <- _. discriminate Hrejected.
      - injection Heq as _ Heq. exact (Hlast _ _ _ Heq Hrejected). }
    assert (length (filter (fun event => isIncrement event = true)
                      (Answered (UrlFindById urlId) (Resolved (Some url)) :: events))
            <= length urlClicks)%nat as Hcount.
    { rewrite filter_cons_False by (cbn; congruence).
      etransitivity; [apply length_filter | exact Hlen]. }
    destruct r as [[]|e]; cbv iota beta; rewrite ?run_pure; cbv iota beta;
      rewrite ?app_nil_r; do 2 eexists; (split; [reflexivity|]); split; assumption.
  - rewrite run_pure. cbv iota beta. do 2 eexists. split; [reflexivity|].
    split; [vm_compute; lia|].
    intros [|first [|? ?]] event rest Heq Hrejected; try discriminate Heq.
    injection Heq as <- _. discriminate Hrejected.
Qed.

(** ** Keys and codes *)

Section KeysAndCodes.
Context `{Host}.

(** Replacing a stored document by one with the same [_id] and the same
    code. *)
Lemma consistent_replace store id stored d :
  store !! id = Some stored ->
  _id d = _id stored -> shortCode d = shortCode stored ->
  consistent store -> consistent (<[id := d]> store).
Proof.
  intros Hstored Hid Hcode [Hkeyed Hunique]. split.
  - intros id' d' Hd'.
    apply lookup_insert_Some in Hd' as [[<- <-]|[_ Hd']]; [|now apply Hkeyed].
    rewrite Hid. now apply Hkeyed.
  - intros id1 id2 d1 d2 Hd1 Hd2 Heq.
    apply lookup_insert_Some in Hd1 as [[<- <-]|[Hne1 Hd1]];
      apply lookup_insert_Some in Hd2 as [[<- <-]|[Hne2 Hd2]].
    + reflexivity.
    + rewrite Hcode in Heq. exact (Hunique _ _ _ _ Hstored Hd2 Heq).
    + rewrite Hcode in Heq. exact (Hunique _ _ _ _ Hd1 Hstored Heq).
    + exact (Hunique _ _ _ _ Hd1 Hd2 Heq).
Qed.

Lemma applyUpdate_keeps_key stamp u stored result :
  applyUpdate stamp u stored = Some result ->
  _id result = _id stored /\ shortCode result = shortCode stored.
Proof.
  unfold applyUpdate. destruct (applyDailyStats _ _); [|discriminate].
  intros [= <-]. split; reflexivity.
Qed.

Lemma mongoCreate_consistent urlData (w : Mongo) :
  consistent (urls w) -> consistent (urls (snd (mongoCreate urlData w))).
Proof.
  intros Hconsistent. unfold mongoCreate.
  destruct (validateUrlData _ _); [|exact Hconsistent].
  unfold duplicateKey.
  destruct (findOne (byShortCode _) (urls w)) eqn:Hcode; [exact Hconsistent|].
  destruct (findOne (sameOwnerUrl _) (urls w)); [exact Hconsistent|].
  cbn. destruct Hconsistent as [Hkeyed Hunique].
  pose proof (proj1 (findOne_None _ _) Hcode) as Hfree. cbn in Hfree.
  assert (forall id d, urls w !! id = Some d ->
                       shortCode d <> trim (ud_shortCode urlData)) as Hfree'.
  { intros id d Hd. apply String.eqb_neq. exact (Hfree id d Hd). }
  split.
  - intros id d Hd.
    apply lookup_insert_Some in Hd as [[<- <-]|[_ Hd]]; [reflexivity|now apply Hkeyed].
  - intros id1 id2 d1 d2 Hd1 Hd2 Heq.
    apply lookup_insert_Some in Hd1 as [[<- <-]|[Hne1 Hd1]];
      apply lookup_insert_Some in Hd2 as [[<- <-]|[Hne2 Hd2]].
    + reflexivity.
    + cbn in Heq. symmetry in Heq. now apply Hfree' in Hd2.
    + cbn in Heq. now apply Hfree' in Hd1.
    + exact (Hunique _ _ _ _ Hd1 Hd2 Heq).
Qed.

Lemma mongoSave_consistent doc (w : Mongo) :
  consistent (urls w) -> consistent (urls (snd (mongoSave doc w))).
Proof.
  intros Hconsistent. unfold mongoSave.
  destruct (urls w !! _id doc) as [stored|] eqn:Hstored; [|exact Hconsistent].
  cbn. now apply (consistent_replace _ _ stored).
Qed.

Lemma mongoIncrementClicks_consistent doc clickData (w : Mongo) :
  consistent (urls w) ->
  consistent (urls (snd (mongoIncrementClicks doc clickData w))).
Proof.
  intros Hconsistent. unfold mongoIncrementClicks, incrementClicks.
  destruct (urls w !! _id doc) as [stored|] eqn:Hstored; [|exact Hconsistent].
  destruct (applyUpdate _ _ stored) as [result|] eqn:Happly; [|exact Hconsistent].
  cbn. apply applyUpdate_keeps_key in Happly as [Hid Hcode].
  now apply (consistent_replace _ _ stored).
Qed.

Lemma disturb_consistent i (w : Mongo) :
  consistent (urls w) -> consistent (urls (disturb i w)).
Proof.
  intros Hconsistent. destruct i as [| |urlData|id]; cbn; try exact Hconsistent.
  - now apply mongoCreate_consistent.
  - destruct (urls w !! id) as [stored|] eqn:Hstored.
    + replace (alter deactivate id (urls w))
        with (<[id := deactivate stored]> (urls w)).
      * now apply (consistent_replace _ _ stored).
      * apply map_eq. intros id'. destruct (decide (id' = id)) as [->|Hne].
        -- now rewrite lookup_insert_eq, lookup_alter_eq, Hstored.
        -- now rewrite lookup_insert_ne, lookup_alter_ne by congruence.
    + replace (alter deactivate id (urls w)) with (urls w); [exact Hconsistent|].
      apply map_eq. intros id'. destruct (decide (id' = id)) as [->|Hne].
      * now rewrite lookup_alter_eq, Hstored.
      * now rewrite lookup_alter_ne by congruence.
Qed.

Lemma mongoAnswer_consistent A (call : Call A) (w : Mongo) :
  consistent (urls w) -> consistent (urls (snd (mongoAnswer A call w))).
Proof.
  intros Hconsistent. unfold mongoAnswer.
  set (w' := disturb _ _).
  assert (consistent (urls w')) as Hconsistent' by now apply disturb_consistent.
  clearbody w'.
  destruct call; destruct (match hd Quiet (others w) with Outage => true | _ => false end);
    try exact Hconsistent'.
  - now apply mongoCreate_consistent.
  - now apply mongoSave_consistent.
  - now apply mongoIncrementClicks_consistent.
Qed.
End KeysAndCodes.

(** X17. In the database model, whatever the handler and whatever
    interferes (other inserts, deactivations, lost connections), a run
    started from a collection in which every document is stored under its
    [_id] and no two documents share a [shortCode] ends in such a
    collection: no update of [incrementClicks], no save of a QR code and no
    retried insert writes a code or an [_id] that would clash. *)
Theorem run_keeps_keys_and_codes `{Host} {R : Type} (handler : Prog R) (w : Mongo) :
  keyedById (urls w) -> uniqueCodes (urls w) ->
  keyedById (urls (after mongoEnv handler w)) /\
  uniqueCodes (urls (after mongoEnv handler w)).
Proof.
  intros Hkeyed Hunique.
  apply (run_preserves (fun w => consistent (urls w))); [|now split].
  intros A call w'. apply mongoAnswer_consistent.
Qed.

Lemma run_keeps_keys_and_codes_witness :
  let w' := after (mongoEnv (H := utcHost)) (createShortUrl (H := utcHost) sampleCreate)
              (sampleMongo ∅ [Quiet; OtherCreate racerA; Quiet; OtherCreate racerB]) in
  keyedById (urls w') /\ uniqueCodes (urls w').
Proof.
  apply (run_keeps_keys_and_codes (H := utcHost)).
  - intros id d Hd. cbn in Hd. now rewrite lookup_empty in Hd.
  - intros id1 id2 d1 d2 Hd1. cbn in Hd1. now rewrite lookup_empty in Hd1.
Defined.

(** ** A redirect that finds its document *)

Section QuietRedirect.
Context `{Host}.

Lemma findOne_the_one (store : gmap ObjectId UrlDoc) code id url :
  uniqueCodes store ->
  store !! id = Some url -> shortCode url = code -> isActive url = true ->
  findOne (matches (ByShortCodeActive code)) store = Some url.
Proof.
  intros Hunique Hurl Hcode Hactive.
  destruct (findOne _ store) as [d|] eqn:Hfind.
  - destruct (findOne_Some _ _ _ Hfind) as (Hmatch & id' & Hd).
    cbn in Hmatch. apply andb_true_iff in Hmatch as [Hmatch _].
    apply String.eqb_eq in Hmatch.
    assert (id' = id) as -> by (eapply Hunique; eauto; congruence).
    congruence.
  - pose proof (proj1 (findOne_None _ _) Hfind id url Hurl) as Hno.
    cbn in Hno. unfold byShortCode in Hno.
    rewrite Hactive, (proj2 (String.eqb_eq _ _) Hcode) in Hno. discriminate.
Qed.

Lemma recordClickBeforeRedirect_quiet (w : Mongo) url clickData :
  others w = [] -> urls w !! _id url = Some url -> isActive url = true ->
  exists w' events result,
    run mongoEnv (recordClickBeforeRedirect (_id url) clickData) w
      = (Resolved tt, w', events) /\
    others w' = [] /\
    urls w' = <[_id url := result]> (urls w) /\
    _id result = _id url /\
    clicks result = clicks url + 1 /\
    lastClicked result = Some (clock w) /\
    recentClicks result
      = pushSlice (Click.Build (clock w) (cd_ip clickData) (cd_userAgent clickData)
                     (cd_referer clickData)) 1000 (recentClicks url).
Proof.
  intros Hquiet Hstored Hactive. unfold recordClickBeforeRedirect.
  rewrite run_tryCatch, run_bind, run_await.
  change (answer mongoEnv ?call w) with (mongoAnswer _ call w).
  rewrite mongoAnswer_quiet by exact Hquiet. rewrite Hstored. cbv iota beta.
  rewrite Hactive, run_bind, run_await.
  change (answer mongoEnv ?call w) with (mongoAnswer _ call w).
  rewrite mongoAnswer_quiet by exact Hquiet.
  unfold mongoIncrementClicks.
  destruct (incrementClicks_returns (clock w) (clock w + 1) clickData url (urls w)
              Hstored) as (result & Happly & ->).
  cbv iota beta. rewrite run_pure. cbv iota beta.
  set (a := {| ar_now := clock w; ar_stamp := clock w + 1; ar_data := clickData |}).
  change (applyUpdate (ar_stamp a) (updateData url (ar_now a) (ar_data a)) url
          = Some result) in Happly.
  do 2 eexists. exists result. split; [reflexivity|].
  split; [exact Hquiet|]. split; [reflexivity|].
  split; [exact (proj1 (applyUpdate_keeps_key _ _ _ _ Happly))|].
  split; [exact (applyUpdate_clicks _ _ _ Happly)|].
  split; [|exact (applyUpdate_recentClicks _ _ _ Happly)].
  unfold applyUpdate in Happly.
  destruct (applyDailyStats _ _); [|discriminate]. now injection Happly as <-.
Qed.

Lemma redirect_quiet_run (w : Mongo) req url :
  rr_errors req = [] ->
  others w = [] ->
  findOne (matches (ByShortCodeActive (rr_shortCode req))) (urls w) = Some url ->
  urls w !! _id url = Some url ->
  (forall expiry, expiryDate url = Some expiry -> clock w <= expiry) ->
  exists w' events result t,
    run mongoEnv (redirectToOriginal req) w
      = (RedirectTo 302 (originalUrl url), w', events) /\
    others w' = [] /\
    urls w' = <[_id url := result]> (urls w) /\
    _id result = _id url /\
    clicks result = clicks url + 1 /\
    clock w <= t <= clock w + 1 /\
    lastClicked result = Some t /\
    recentClicks result
      = pushSlice (Click.Build t (cd_ip (clickDataOf req)) (cd_userAgent (clickDataOf req))
                     (cd_referer (clickDataOf req))) 1000 (recentClicks url).
Proof.
  intros Herrors Hquiet Hfind Hstored Hfresh.
  assert (isActive url = true) as Hactive.
  { destruct (findOne_Some _ _ _ Hfind) as [Hmatch _]. cbn in Hmatch.
    now apply andb_true_iff in Hmatch as [_ Hactive]. }
  unfold redirectToOriginal. rewrite run_bindProg, Herrors, run_bind, run_await.
  change (answer mongoEnv ?call w) with (mongoAnswer _ call w).
  rewrite mongoAnswer_quiet by exact Hquiet. rewrite Hfind. cbv iota beta.
  rewrite run_bind.
  destruct (expiryDate url) as [expiry|] eqn:Hexpiry.
  - rewrite run_bind, run_ask.
    change (answer mongoEnv ?call w) with (mongoAnswer _ call w).
    rewrite mongoAnswer_quiet by exact Hquiet. cbv iota beta. rewrite run_pure.
    cbv iota beta.
    rewrite (proj2 (Z.ltb_ge expiry (clock w)) (Hfresh expiry eq_refl)).
    rewrite run_bind.
    destruct (recordClickBeforeRedirect_quiet (tick 1 w) url (clickDataOf req))
      as (w' & events & result & -> & Hquiet' & Hurls & Hid & Hclicks & Hlast & Hrecent);
      try assumption.
    cbv iota beta. rewrite run_pure. cbv iota beta.
    do 2 eexists. exists result, (clock w + 1). split; [reflexivity|].
    cbn in Hurls, Hlast, Hrecent. repeat split; try assumption; lia.
  - rewrite run_pure. cbv iota beta. rewrite run_bind.
    destruct (recordClickBeforeRedirect_quiet w url (clickDataOf req))
      as (w' & events & result & -> & Hquiet' & Hurls & Hid & Hclicks & Hlast & Hrecent);
      try assumption.
    cbv iota beta. rewrite run_pure. cbv iota beta.
    do 2 eexists. exists result, (clock w). split; [reflexivity|].
    repeat split; try assumption; lia.
Qed.
End QuietRedirect.

(** X18. In a database where nothing interferes and whose collection is
    keyed by [_id] with pairwise distinct codes, the redirect of the code of
    a stored document that is active and not expired answers 302 with the
    document's address and records the click on that document alone: its
    [clicks] grows by one, [lastClicked] is the time of the click and the
    last of [recentClicks] is the click with the data of the request; every
    other document is as before. *)
Theorem redirect_records_the_click `{Host} (w : Mongo) req id url :
  others w = [] -> keyedById (urls w) -> uniqueCodes (urls w) ->
  rr_errors req = [] ->
  urls w !! id = Some url ->
  shortCode url = rr_shortCode req -> isActive url = true ->
  (forall expiry, expiryDate url = Some expiry -> clock w <= expiry) ->
  exists w' events result t,
    run mongoEnv (redirectToOriginal req) w
      = (RedirectTo 302 (originalUrl url), w', events) /\
    urls w' !! id = Some result /\
    (forall id', id' <> id -> urls w' !! id' = urls w !! id') /\
    clicks result = clicks url + 1 /\
    clock w <= t <= clock w + 1 /\
    lastClicked result = Some t /\
    last (recentClicks result)
      = Some (Click.Build t (cd_ip (clickDataOf req)) (cd_userAgent (clickDataOf req))
                (cd_referer (clickDataOf req))).
Proof.
  intros Hquiet Hkeyed Hunique Herrors Hurl Hcode Hactive Hfresh.
  pose proof (Hkeyed _ _ Hurl) as Hid.
  destruct (redirect_quiet_run w req url Herrors Hquiet)
    as (w' & events & result & t & Hrun & _ & Hurls & _ & Hclicks & Ht & Hlast & Hrecent).
  { now apply (findOne_the_one _ _ id). }
  { now rewrite Hid. }
  { exact Hfresh. }
  exists w', events, result, t. split; [exact Hrun|].
  rewrite Hurls, Hid. split; [apply lookup_insert_eq|].
  split; [intros id' Hne; now apply lookup_insert_ne|].
  split; [exact Hclicks|]. split; [exact Ht|]. split; [exact Hlast|].
  rewrite Hrecent. apply pushSlice_last. lia.
Qed.

Lemma redirect_records_the_click_witness :
  exists w' events result t,
    run (mongoEnv (H := utcHost)) (redirectToOriginal (H := utcHost) sampleRedirect)
      (sampleMongo sampleStore [])
      = (RedirectTo 302 "https://example.com", w', events) /\
    urls w' !! 1%N = Some result /\
    clicks result = 1 /\
    lastClicked result = Some t.
Proof.
  destruct (redirect_records_the_click (H := utcHost) (sampleMongo sampleStore [])
              sampleRedirect 1%N sampleDoc)
    as (w' & events & result & t & Hrun & Hresult & _ & Hclicks & _ & Hlast & _).
  - reflexivity.
  - intros id d Hd. change (sampleStore !! id = Some d) in Hd.
    unfold sampleStore in Hd. apply lookup_singleton_Some in Hd as [<- <-]. reflexivity.
  - intros id1 id2 d1 d2 Hd1 Hd2 _.
    change (sampleStore !! id1 = Some d1) in Hd1.
    change (sampleStore !! id2 = Some d2) in Hd2.
    unfold sampleStore in Hd1, Hd2.
    apply lookup_singleton_Some in Hd1 as [<- _].
    apply lookup_singleton_Some in Hd2 as [<- _]. reflexivity.
  - reflexivity.
  - reflexivity.
  - reflexivity.
  - reflexivity.
  - intros expiry Hexpiry. discriminate Hexpiry.
  - exists w', events, result, t. auto.
Defined.

(** ** Custom codes that are taken *)

(** X19. A custom code of the right shape that is the [shortCode] of any
    stored document, be it inactive, expired or another user's, is refused
    with 400 after the one query that finds its holder: nothing is generated
    or inserted and the database is left as it was.  (Only [deleteUrl]
    frees a code.) *)
Theorem createShortUrl_refuses_taken_custom_code `{Host}
    (w : Mongo) req userId hostname customCode id d :
  others w = [] ->
  cr_errors req = [] -> cr_user req = Some userId ->
  urlHostname (rb_originalUrl (cr_body req)) = Some hostname ->
  rb_customCode (cr_body req) = Some customCode ->
  isValidCustomCode customCode = true ->
  urls w !! id = Some d -> shortCode d = customCode ->
  exists holder,
    shortCode holder = customCode /\
    run mongoEnv (createShortUrl req) w
    = (Json 400 false (Some "Custom short code is already taken") NoData, w,
       [Answered (UrlFindOne (ByShortCode customCode)) (Resolved (Some holder))]).
Proof.
  intros Hquiet Herrors Huser Hhost Hcustom Hshape Hd Hcode.
  destruct (findOne (matches (ByShortCode customCode)) (urls w)) as [holder|] eqn:Hfind.
  2: { pose proof (proj1 (findOne_None _ _) Hfind id d Hd) as Hno. cbn in Hno.
       unfold byShortCode in Hno. rewrite (proj2 (String.eqb_eq _ _) Hcode) in Hno.
       discriminate. }
  exists holder. split.
  { destruct (findOne_Some _ _ _ Hfind) as [Hmatch _]. now apply String.eqb_eq. }
  assert (String.eqb customCode "" = false) as Hgiven.
  { unfold isValidCustomCode in Hshape.
    destruct (String.eqb customCode ""); [discriminate Hshape | reflexivity]. }
  unfold createShortUrl, prepare.
  rewrite run_bindProg, Herrors, Huser, Hhost, Hcustom, run_bind.
  unfold chooseShortCode. rewrite Hgiven, Hshape. cbn [negb].
  rewrite run_bind, run_bind, run_await.
  change (answer mongoEnv ?call w) with (mongoAnswer _ call w).
  rewrite mongoAnswer_quiet by exact Hquiet. rewrite Hfind. cbv iota beta.
  rewrite run_pure. cbv iota beta. rewrite run_pure. cbv iota beta.
  rewrite run_pure. reflexivity.
Qed.

Lemma createShortUrl_refuses_taken_custom_code_witness :
  exists holder,
    shortCode holder = "abc123" /\
    run (mongoEnv (H := utcHost))
      (createShortUrl (H := utcHost)
         {| cr_errors := []; cr_user := Some 8%N;
            cr_body := {| rb_originalUrl := "https://other.example.net/a";
                          rb_customCode := Some "abc123";
                          rb_title := None; rb_description := None;
                          rb_expiryDate := None; rb_tags := None |} |})
      (sampleMongo (alter deactivate 1%N sampleStore) [])
    = (Json 400 false (Some "Custom short code is already taken") NoData,
       sampleMongo (alter deactivate 1%N sampleStore) [],
       [Answered (UrlFindOne (ByShortCode "abc123")) (Resolved (Some holder))]).
Proof.
  apply (createShortUrl_refuses_taken_custom_code (H := utcHost)
           (sampleMongo (alter deactivate 1%N sampleStore) []) _ 8%N
           "other.example.net" "abc123" 1%N (deactivate sampleDoc));
    reflexivity.
Defined.

(** ** From the 201 to the first redirect *)

Section CreatedThenRedirected.
Context `{Host}.

(** What [prepare] answers itself is a refusal. *)
Lemma prepare_refuses env req w response w1 events1 :
  run env (prepare req) w = (Resolved (inl response), w1, events1) ->
  exists status message data, response = Json status false message data.
Proof.
  unfold prepare.
  destruct (cr_errors req).
  2: { rewrite run_pure. intros [= <- _ _]. eauto. }
  destruct (cr_user req).
  2: { rewrite run_pure. intros [= <- _ _]. eauto. }
  destruct (urlHostname (rb_originalUrl (cr_body req))).
  2: { rewrite run_pure. intros [= <- _ _]. eauto. }
  rewrite run_bind.
  assert (forall chosen w2 events2,
            run env (chooseShortCode (rb_customCode (cr_body req))) w
            = (Resolved (inl chosen), w2, events2) ->
            exists status message data, chosen = Json status false message data)
    as Hchosen.
  { unfold chooseShortCode. intros chosen w2 events2.
    assert (run env (let* shortCode := await (UrlGenerateShortCode 6) in
                     pure (inr (A := Response) shortCode)) w
            = (Resolved (inl chosen), w2, events2) -> False) as Hgenerated.
    { rewrite run_bind, run_await.
      destruct (answer env (UrlGenerateShortCode 6) w) as [[shortCode|e] w3];
        cbv iota beta; rewrite ?run_pure; discriminate. }
    destruct (rb_customCode (cr_body req)) as [customCode|];
      [|intros Hrun; destruct (Hgenerated Hrun)].
    destruct (String.eqb customCode ""); [intros Hrun; destruct (Hgenerated Hrun)|].
    destruct (negb (isValidCustomCode customCode)).
    { rewrite run_pure. intros [= <- _ _]. eauto. }
    rewrite run_bind, run_await.
    destruct (answer env (UrlFindOne (ByShortCode customCode)) w) as [[[existing|]|e] w3];
      cbv iota beta; rewrite ?run_pure; try discriminate.
    intros [= <- _ _]. eauto. }
  destruct (run env (chooseShortCode (rb_customCode (cr_body req))) w)
    as [[[[chosen|shortCode]|e] w2] events2]; cbv iota beta.
  - rewrite run_pure. intros [= <- _ _]. eapply Hchosen. reflexivity.
  - rewrite run_bind. unfold parseExpiryDate.
    destruct (rb_expiryDate (cr_body req)) as [expiry|].
    + rewrite run_bind, run_ask. destruct (answer env NewDate w2) as [now w3].
      cbv iota beta. destruct (expiry <=? now); rewrite run_pure; cbv iota beta;
        rewrite run_pure; [|discriminate].
      intros [= <- _ _]. eauto.
    + rewrite run_pure. cbv iota beta. rewrite run_pure. discriminate.
  - discriminate.
Qed.

(** An insert that succeeds, then the QR code. *)
Lemma create_then_attach (w1 : Mongo) urlData doc w2 :
  others w1 = [] ->
  mongoCreate urlData w1 = (Resolved doc, w2) ->
  exists url' w3 events3,
    run mongoEnv (attachQrCode doc) w2 = (Resolved url', w3, events3) /\
    others w3 = [] /\
    storedAs (urls w3) (urlView url') /\
    ownedAs (urls w3) (urlView url') (ud_userId urlData) (trim (ud_originalUrl urlData)).
Proof.
  intros Hquiet Hcreate. unfold mongoCreate in Hcreate.
  destruct (validateUrlData _ _); [|discriminate].
  unfold duplicateKey in Hcreate.
  destruct (findOne (byShortCode _) (urls w1)) eqn:Hcode; [discriminate|].
  destruct (findOne (sameOwnerUrl _) (urls w1)); [discriminate|].
  injection Hcreate as <- <-.
  pose proof (proj1 (findOne_None _ _) Hcode) as Hfree. cbn in Hfree.
  set (doc := newDoc (nextId w1) (clock w1) (castUrlData urlData)) in *.
  set (w2 := {| urls := <[nextId w1 := doc]> (urls w1); clock := clock w1 + 1;
                nextId := N.succ (nextId w1); chanceOf := chanceOf w1;
                generated := generated w1; qrLibrary := qrLibrary w1;
                others := others w1; offSchema := offSchema w1 |}).
  assert (others w2 = []) as Hquiet2 by exact Hquiet.
  assert (forall (stored : UrlDoc) id' d',
            shortCode stored = shortCode doc ->
            <[nextId w1 := stored]> (urls w2) !! id' = Some d' ->
            shortCode d' = shortCode doc -> id' = nextId w1) as Halone.
  { intros stored id' d' Hstored Hd' Heq.
    destruct (decide (id' = nextId w1)) as [->|Hne]; [reflexivity|].
    rewrite lookup_insert_ne in Hd' by congruence. cbn in Hd'.
    rewrite lookup_insert_ne in Hd' by congruence.
    pose proof (Hfree id' d' Hd') as Hno. unfold byShortCode in Hno.
    apply String.eqb_neq in Hno. contradiction. }
  unfold attachQrCode. rewrite run_tryCatch, run_bind, run_await.
  change (answer mongoEnv ?call w2) with (mongoAnswer _ call w2).
  rewrite mongoAnswer_quiet by exact Hquiet2.
  destruct (qrLibrary w2 (shortUrl doc)) as [qrCodeDataUrl|e]; cbv iota beta.
  - rewrite run_tryCatch, run_bind, run_await.
    change (answer mongoEnv ?call w2) with (mongoAnswer _ call w2).
    rewrite mongoAnswer_quiet by exact Hquiet2.
    unfold mongoSave.
    change (_id (withQrCode doc qrCodeDataUrl)) with (nextId w1).
    change (urls w2 !! nextId w1) with (<[nextId w1 := doc]> (urls w1) !! nextId w1).
    rewrite lookup_insert_eq. cbv iota beta. rewrite run_pure. cbv iota beta.
    do 3 eexists. split; [reflexivity|]. split; [exact Hquiet|]. split.
    + eexists. split; [cbn; apply lookup_insert_eq|].
      repeat (split; [reflexivity|]).
      intros id' d' Hd' Heq. cbn in Hd', Heq |- *.
      eapply (Halone _ id' d'); [|exact Hd'|exact Heq]. reflexivity.
    + intros d Hd. cbn in Hd. rewrite lookup_insert_eq in Hd.
      injection Hd as <-. split; reflexivity.
  - rewrite run_pure. cbv iota beta.
    do 3 eexists. split; [reflexivity|]. split; [exact Hquiet|]. split.
    + exists doc. split; [cbn; apply lookup_insert_eq|].
      repeat (split; [reflexivity|]).
      intros id' d' Hd' Heq. cbn in Heq |- *.
      eapply (Halone doc id' d'); [reflexivity| |exact Heq].
      cbn. now rewrite insert_insert_eq.
    + intros d Hd. cbn in Hd. rewrite lookup_insert_eq in Hd.
      injection Hd as <-. split; reflexivity.
Qed.

(** The document of a 201 is in the collection. *)
Lemma created_is_stored (w : Mongo) req message v w' events :
  others w = [] ->
  run mongoEnv (createShortUrl req) w = (Json 201 true message (UrlPayload v), w', events) ->
  others w' = [] /\ storedAs (urls w') v /\
  ownedAs (urls w') v (cr_user req) (trim (trim (rb_originalUrl (cr_body req)))).
Proof.
  intros Hquiet Hrun. unfold createShortUrl in Hrun.
  rewrite run_bindProg, run_bind in Hrun.
  destruct (run mongoEnv (prepare req) w) as [[prepared w1] events1] eqn:Hprepare.
  assert (others w1 = []) as Hquiet1.
  { pose proof (run_stays_quiet (prepare req) w Hquiet) as Hafter.
    unfold after in Hafter. now rewrite Hprepare in Hafter. }
  destruct prepared as [[response|p]|e]; cbv iota beta in Hrun.
  - rewrite run_pure in Hrun. cbn in Hrun. injection Hrun as -> _ _.
    destruct (prepare_refuses _ _ _ _ _ _ Hprepare) as (? & ? & ? & [=]).
  - destruct (prepare_inr _ _ _ _ _ _ Hprepare) as (Huser & Hnormalized & Howner & Hurl).
    rewrite <- Hnormalized, <- Hurl, Huser, <- Howner.
    unfold createAndRespond in Hrun.
    rewrite run_tryCatch, run_bind, run_await in Hrun.
    change (answer mongoEnv ?call w1) with (mongoAnswer _ call w1) in Hrun.
    rewrite mongoAnswer_quiet in Hrun by exact Hquiet1.
    destruct (mongoCreate (p_urlData p) w1) as [[doc|e] w2] eqn:Hcreate;
      cbv iota beta in Hrun.
    + rewrite run_bind in Hrun.
      destruct (create_then_attach w1 _ doc w2 Hquiet1 Hcreate)
        as (url' & w3 & events3 & Hattach & Hquiet3 & Hstored & Howned).
      rewrite Hattach in Hrun. cbv iota beta in Hrun. rewrite run_pure in Hrun.
      cbn in Hrun. injection Hrun as _ <- <- _. auto.
    + assert (others w2 = []) as Hquiet2.
      { pose proof (mongoAnswer_stays_quiet _ (UrlCreate (p_urlData p)) w1 Hquiet1)
          as Hafter.
        rewrite mongoAnswer_quiet in Hafter by exact Hquiet1.
        now rewrite Hcreate in Hafter. }
      destruct e as [code keyPattern|errors|text|text];
        try (rewrite run_throw in Hrun; cbn in Hrun; discriminate Hrun).
      destruct (code =? 11000);
        [|rewrite run_throw in Hrun; cbn in Hrun; discriminate Hrun].
      destruct (decide (head (default [] keyPattern) = Some "shortCode")) as [_|_].
      * unfold retryWithNewCode in Hrun.
        rewrite run_tryCatch, run_bind, run_await in Hrun.
        change (answer mongoEnv ?call w2) with (mongoAnswer _ call w2) in Hrun.
        rewrite mongoAnswer_quiet in Hrun by exact Hquiet2.
        destruct (generateShortCode _ _ _) as [newShortCode|e]; cbv iota beta in Hrun;
          [|rewrite run_pure in Hrun; cbn in Hrun; discriminate Hrun].
        rewrite run_bind, run_await in Hrun.
        match type of Hrun with
        | context [answer mongoEnv ?call ?w3] =>
            change (answer mongoEnv call w3) with (mongoAnswer _ call w3) in Hrun;
            assert (others w3 = []) as Hquiet3 by exact Hquiet2;
            rewrite (mongoAnswer_quiet _ call w3 Hquiet3) in Hrun;
            destruct (mongoCreate (withShortCode (p_urlData p) newShortCode) w3)
              as [[doc|e] w4] eqn:Hretry; cbv iota beta in Hrun;
            [|rewrite run_pure in Hrun; cbn in Hrun; discriminate Hrun];
            destruct (create_then_attach w3 _ doc w4 Hquiet3 Hretry)
              as (url' & w5 & events5 & Hattach & Hquiet5 & Hstored & Howned)
        end.
        rewrite run_bind, Hattach in Hrun. cbv iota beta in Hrun.
        rewrite run_pure in Hrun. cbn in Hrun. injection Hrun as _ <- <- _.
        auto.
      * unfold returnExisting in Hrun. rewrite run_bind, run_await in Hrun.
        change (answer mongoEnv ?call w2) with (mongoAnswer _ call w2) in Hrun.
        rewrite mongoAnswer_quiet in Hrun by exact Hquiet2.
        destruct (findOne _ (urls w2)); cbv iota beta in Hrun;
          [rewrite run_pure in Hrun | rewrite run_throw in Hrun];
          cbn in Hrun; discriminate Hrun.
  - cbn in Hrun. destruct e; discriminate Hrun.
Qed.
End CreatedThenRedirected.

(** X20. Creating, then following the short URL.  In a database where
    nothing interferes, whatever the collection held before, after a request
    answered with 201 the redirect of the code in the response, while the
    URL has not expired, answers 302 with the address in the response and
    leaves the new document with one click: the code of a 201 always leads
    to its own address, whether it came from the first insert or from the
    retry. *)
Theorem create_then_redirect `{Host} (w : Mongo) create message v w1 events1 redirect :
  others w = [] ->
  run mongoEnv (createShortUrl create) w
    = (Json 201 true message (UrlPayload v), w1, events1) ->
  rr_errors redirect = [] ->
  rr_shortCode redirect = v_shortCode v ->
  (forall expiry, v_expiryDate v = Some expiry -> clock w1 <= expiry) ->
  exists w2 events2 d,
    run mongoEnv (redirectToOriginal redirect) w1
      = (RedirectTo 302 (v_originalUrl v), w2, events2) /\
    urls w2 !! v_id v = Some d /\
    clicks d = 1 /\
    length (recentClicks d) = 1%nat.
Proof.
  intros Hquiet Hcreated Herrors Hcode Hfresh.
  destruct (created_is_stored w create message v w1 events1 Hquiet Hcreated)
    as (Hquiet1 & (stored & Hstored & Hid & Hshort & Hurl & Hexpiry & _ & Hactive
                   & Hclicks & Hrecent & _ & Halone) & _).
  destruct (redirect_quiet_run w1 redirect stored Herrors Hquiet1)
    as (w2 & events2 & result & t & Hrun & _ & Hurls & _ & Hcount & _ & _ & Hpushed).
  - destruct (findOne (matches (ByShortCodeActive (rr_shortCode redirect))) (urls w1))
      as [found|] eqn:Hfind.
    + destruct (findOne_Some _ _ _ Hfind) as (Hmatch & id' & Hfound).
      cbn in Hmatch. apply andb_true_iff in Hmatch as [Hmatch _].
      apply String.eqb_eq in Hmatch. rewrite Hcode in Hmatch.
      rewrite (Halone _ _ Hfound Hmatch) in Hfound. congruence.
    + pose proof (proj1 (findOne_None _ _) Hfind _ _ Hstored) as Hno.
      cbn in Hno. unfold byShortCode in Hno.
      rewrite Hactive, Hcode, (proj2 (String.eqb_eq _ _) Hshort) in Hno.
      discriminate.
  - now rewrite Hid.
  - intros expiry Hsome. apply Hfresh. congruence.
  - exists w2, events2, result. rewrite <- Hurl. split; [exact Hrun|].
    rewrite Hurls, Hid. split; [apply lookup_insert_eq|].
    split; [lia|]. rewrite Hpushed, Hrecent. reflexivity.
Qed.

Lemma create_then_redirect_witness :
  exists w1 events1 v w2 events2 d,
    run (mongoEnv (H := utcHost)) (createShortUrl (H := utcHost) sampleCreate)
      (sampleMongo ∅ [])
      = (Json 201 true (Some "URL shortened successfully") (UrlPayload v), w1, events1) /\
    v_shortCode v = "aaaaaa" /\
    run (mongoEnv (H := utcHost))
      (redirectToOriginal (H := utcHost)
         {| rr_errors := []; rr_shortCode := "aaaaaa"; rr_ip := None;
            rr_remoteAddress := None; rr_forwardedFor := Some "198.51.100.7, 10.0.0.1";
            rr_userAgent := None; rr_referer := None; rr_referrer := None |}) w1
      = (RedirectTo 302 (v_originalUrl v), w2, events2) /\
    urls w2 !! v_id v = Some d /\
    clicks d = 1.
Proof.
  destruct (run (mongoEnv (H := utcHost)) (createShortUrl (H := utcHost) sampleCreate)
              (sampleMongo ∅ [])) as [[response w1] events1] eqn:Hcreated.
  assert (exists v, response
                    = Json 201 true (Some "URL shortened successfully") (UrlPayload v) /\
                    v_shortCode v = "aaaaaa" /\ v_expiryDate v = None)
    as (v & -> & Hcode & Hexpiry).
  { vm_compute in Hcreated. injection Hcreated as <- _ _.
    eexists. split; [reflexivity|]. split; reflexivity. }
  destruct (create_then_redirect (H := utcHost) (sampleMongo ∅ []) sampleCreate
              (Some "URL shortened successfully") v w1 events1
              {| rr_errors := []; rr_shortCode := "aaaaaa"; rr_ip := None;
                 rr_remoteAddress := None;
                 rr_forwardedFor := Some "198.51.100.7, 10.0.0.1";
                 rr_userAgent := None; rr_referer := None; rr_referrer := None |})
    as (w2 & events2 & d & Hrun & Hd & Hclicks & _).
  - reflexivity.
  - exact Hcreated.
  - reflexivity.
  - now rewrite Hcode.
  - intros expiry Hsome. rewrite Hexpiry in Hsome. discriminate Hsome.
  - exists w1, events1, v, w2, events2, d. repeat split; assumption.
Defined.

(** ** The numbers of the analytics *)

Section AnalyticsNumbers.
Context `{Host}.





Lemma countReferrers_resolves clicks :
  forall acc,
    Forall (fun click => urlHostname (default "" (Click.referer click)) <> None) clicks ->
    exists top, countReferrers clicks acc = Resolved top.
Proof.
  induction clicks as [|click rest IH]; intros acc Hparse; [cbn; eauto|].
  apply Forall_cons in Hparse as [Hclick Hrest]. cbn [countReferrers].
  destruct (urlHostname (default "" (Click.referer click))); [|contradiction].
  now apply IH.
Qed.


Lemma countLast24Hours_bound env clicks w :
  exists n w' events,
    run env (countLast24Hours clicks) w = (Resolved n, w', events) /\
    (n <= length clicks)%nat.
Proof.
  revert w. induction clicks as [|click rest IH]; intros w.
  - cbn. do 3 eexists. split; [reflexivity | cbn; lia].
  - cbn [countLast24Hours]. rewrite run_bind, run_ask.
    destruct (answer env NewDate w) as [now w1]. cbv iota beta.
    rewrite run_bind.
    destruct (IH w1) as (n & w2 & events & -> & Hn). cbv iota beta.
    rewrite run_pure. do 3 eexists. split; [reflexivity|].
    cbn [length]. destruct (_ <=? _); lia.
Qed.

Lemma sumClicks_Permutation stats1 stats2 :
  stats1 ≡ₚ stats2 -> sumClicks stats1 = sumClicks stats2.
Proof.
  induction 1 as [|s l1 l2 _ IH|s1 s2 l|l1 l2 l3 _ IH1 _ IH2].
  - reflexivity.
  - rewrite !sumClicks_cons. lia.
  - rewrite !sumClicks_cons. lia.
  - congruence.
Qed.

Lemma sumClicks_filter_le (f g : DailyStat.t -> bool) stats :
  Forall (fun s => 0 <= DailyStat.clicks s) stats ->
  (forall s, f s = true -> g s = true) ->
  0 <= sumClicks (List.filter f stats) <= sumClicks (List.filter g stats) /\
  sumClicks (List.filter g stats) <= sumClicks stats.
Proof.
  intros Hnonneg Himpl.
  induction Hnonneg as [|s stats Hs _ IH]; [cbn; unfold sumClicks; cbn; lia|].
  cbn [List.filter]. rewrite sumClicks_cons.
  pose proof (Himpl s) as Hsg.
  destruct (f s), (g s); rewrite ?sumClicks_cons; try lia;
    discriminate (Hsg eq_refl).
Qed.

Lemma byDate_total : Total byDate.
Proof. intros a b. unfold byDate. lia. Qed.

Lemma filter_submseteq {A : Type} (f : A -> bool) (l : list A) :
  List.filter f l ⊆+ l.
Proof.
  induction l as [|x l IH]; [reflexivity|]. cbn.
  destruct (f x); [now constructor | now apply submseteq_cons].
Qed.
End AnalyticsNumbers.



(** X22. The numbers of a successful analytics response fit together.  In
    a database where nothing interferes, for a document whose daily entries
    are non-negative and whose stored referers all parse, the response is
    200 and in it: [totalClicks] is the document's [clicks];
    [weeklyClicks <= monthlyClicks <= sum of all daily entries];
    [monthlyClicks] is the total of the [dailyStats] returned, which are
    sorted by date and are entries of the document; and the two counts of
    recent clicks are at most [recentClicks.total]. *)
Theorem analytics_numbers_fit `{Host} (w : Mongo) req userId url :
  (forall t1 t2, t1 <= t2 -> daysBefore 30 t1 <= daysBefore 7 t2) ->
  others w = [] ->
  aq_user req = Some userId ->
  findOne (matches (ByIdOwner (aq_id req) userId)) (urls w) = Some url ->
  Forall (fun click => hasReferer click = true ->
                       urlHostname (default "" (Click.referer click)) <> None)
    (recentClicks url) ->
  Forall (fun s => 0 <= DailyStat.clicks s) (dailyStats url) ->
  exists a w' events,
    run mongoEnv (getUrlAnalytics req) w
      = (Json 200 true None (AnalyticsPayload url a), w', events) /\
    an_totalClicks a = clicks url /\
    0 <= an_weeklyClicks a <= an_monthlyClicks a /\
    an_monthlyClicks a <= sumClicks (dailyStats url) /\
    an_monthlyClicks a = sumClicks (an_dailyStats a) /\
    Sorted byDate (an_dailyStats a) /\
    an_dailyStats a ⊆+ dailyStats url /\
    rc_total (an_recentClicks a) = length (recentClicks url) /\
    (rc_last24Hours (an_recentClicks a) <= rc_total (an_recentClicks a))%nat /\
    (rc_last7Days (an_recentClicks a) <= rc_total (an_recentClicks a))%nat.
Proof.
  intros Hdays Hquiet Huser Hfind Hparse Hnonneg.
  unfold getUrlAnalytics. rewrite run_bindProg, Huser, run_bind, run_await.
  change (answer mongoEnv ?call w) with (mongoAnswer _ call w).
  rewrite mongoAnswer_quiet by exact Hquiet. rewrite Hfind. cbv iota beta.
  rewrite run_bind, run_ask.
  change (answer mongoEnv ?call w) with (mongoAnswer _ call w).
  rewrite mongoAnswer_quiet by exact Hquiet. cbv iota beta.
  rewrite run_bind, run_ask.
  change (answer mongoEnv ?call (tick 1 w)) with (mongoAnswer _ call (tick 1 w)).
  rewrite mongoAnswer_quiet by exact Hquiet. cbv iota beta.
  change (clock (tick 1 w)) with (clock w + 1).
  rewrite run_bind.
  destruct (countLast24Hours_bound mongoEnv (recentClicks url) (tick 1 (tick 1 w)))
    as (n & w4 & events4 & -> & Hn). cbv iota beta.
  rewrite run_bind, run_ask.
  destruct (answer mongoEnv NewDate w4) as [now w5]. cbv iota beta.
  rewrite run_bind.
  destruct (countReferrers_resolves (List.filter hasReferer (recentClicks url)) ∅)
    as (top & ->).
  { apply Forall_forall. intros click Hin.
    apply list_elem_of_In, filter_In in Hin as [Hin Hreferer].
    rewrite Forall_forall in Hparse. apply Hparse; [now apply list_elem_of_In|].
    exact Hreferer. }
  cbn [run]. cbv iota beta. rewrite run_bind.
  match goal with
  | |- context [run mongoEnv ?m w5] =>
      assert (exists (expired : bool) w6 events6,
                run mongoEnv m w5 = (Resolved expired, w6, events6))
        as (expired & w6 & events6 & ->)
        by (destruct (expiry_check_lookups mongoEnv (fun b => b) false url w5)
              as (expired & w6 & events6 & Hexpired & _); eauto)
  end.
  cbv iota beta. rewrite run_pure. cbv iota beta.
  do 3 eexists. split; [reflexivity|]. cbn.
  set (monthly := List.filter (fun stat => daysBefore 30 (clock w) <=? DailyStat.date stat)
                    (dailyStats url)).
  set (weekly := List.filter (fun stat => daysBefore 7 (clock w + 1) <=? DailyStat.date stat)
                   (dailyStats url)).
  assert (sumClicks (merge_sort byDate monthly) = sumClicks monthly) as Hsorted
    by apply sumClicks_Permutation, merge_sort_Permutation.
  destruct (sumClicks_filter_le
              (fun stat => daysBefore 7 (clock w + 1) <=? DailyStat.date stat)
              (fun stat => daysBefore 30 (clock w) <=? DailyStat.date stat)
              (dailyStats url) Hnonneg) as [Hweekly Hmonthly].
  { intros s Hs. apply Z.leb_le in Hs. apply Z.leb_le.
    pose proof (Hdays (clock w) (clock w + 1)). lia. }
  fold monthly weekly in Hweekly, Hmonthly.
  split; [reflexivity|]. split; [lia|]. split; [lia|]. split; [reflexivity|].
  split; [pose proof byDate_total as Htotal; apply Sorted_merge_sort; exact Htotal|].
  split.
  { etransitivity; [apply Permutation_submseteq, merge_sort_Permutation|].
    apply filter_submseteq. }
  split; [reflexivity|]. split; [exact Hn|].
  clear. induction (recentClicks url) as [|click clicks IH]; [cbn; lia|].
  cbn. destruct (_ <=? _); cbn; lia.
Qed.

(** The owner's request half a day after the third click of the sample
    document: three clicks in all and in the month, two of them in the
    week and in the last day, on two days. *)
Lemma analytics_numbers_fit_witness :
  exists a w' events,
    run (mongoEnv (H := utcHost)) (getUrlAnalytics (H := utcHost) sampleAnalytics)
      (laterMongo visitedStore)
      = (Json 200 true None (AnalyticsPayload visitedDoc a), w', events) /\
    an_totalClicks a = 3 /\
    an_weeklyClicks a = 2 /\
    an_monthlyClicks a = 3 /\
    an_dailyStats a
      = [DailyStat.Build 1699920000000 1; DailyStat.Build 1700697600000 2] /\
    rc_total (an_recentClicks a) = 3%nat /\
    rc_last24Hours (an_recentClicks a) = 2%nat /\
    rc_last7Days (an_recentClicks a) = 2%nat.
Proof.
  destruct (analytics_numbers_fit (H := utcHost) (laterMongo visitedStore)
              sampleAnalytics 7%N visitedDoc)
    as (a & w' & events & Hrun & Htotal & _ & _ & _ & _ & _ & Hrecent & _).
  - intros t1 t2 Hle. cbn. lia.
  - reflexivity.
  - reflexivity.
  - vm_compute. reflexivity.
  - vm_compute. repeat (constructor; [intros _; discriminate|]). constructor.
  - vm_compute. repeat (constructor; [discriminate|]). constructor.
  - pose (payload := fun r : Response * Mongo * list Event =>
                       match fst (fst r) with
                       | Json _ _ _ (AnalyticsPayload _ a) => Some a
                       | _ => None
                       end).
    assert (payload (run (mongoEnv (H := utcHost))
                       (getUrlAnalytics (H := utcHost) sampleAnalytics)
                       (laterMongo visitedStore)) = Some a) as Ha
      by (rewrite Hrun; reflexivity).
    vm_compute in Ha. injection Ha as Ha.
    exists a, w', events. split; [exact Hrun|].
    rewrite <- Ha. repeat split.
Defined.

(** ** utils/validators.js *)






Section Sanitize.
Context `{Host}.

Lemma removeAngleBrackets_clean s :
  Js.occurs "<" (removeAngleBrackets s) = false /\
  Js.occurs ">" (removeAngleBrackets s) = false.
Proof.
  induction s as [|c s [IHlt IHgt]]; [split; reflexivity|].
  cbn [removeAngleBrackets].
  destruct (Ascii.eqb c "<") eqn:Hlt, (Ascii.eqb c ">") eqn:Hgt; cbn [orb];
    try (split; assumption).
  cbn [Js.occurs]. rewrite Ascii.eqb_sym, Hlt, (Ascii.eqb_sym ">"%char), Hgt.
  now split.
Qed.

Lemma removeAngleBrackets_id s :
  Js.occurs "<" s = false -> Js.occurs ">" s = false -> removeAngleBrackets s = s.
Proof.
  induction s as [|c s IH]; [reflexivity|]. cbn [Js.occurs removeAngleBrackets].
  rewrite (Ascii.eqb_sym "<"%char), (Ascii.eqb_sym ">"%char).
  destruct (Ascii.eqb c "<"), (Ascii.eqb c ">"); try discriminate.
  intros Hlt Hgt. cbn [orb]. now rewrite IH.
Qed.
End Sanitize.

(** X24. The result of [sanitizeInput] contains no angle bracket, and a
    trimmed string without angle brackets is returned as it is.  But the
    brackets are removed after the trim, so the result need not be trimmed:
    what followed a leading bracket keeps its white space, and
    [sanitizeInput] of the result need not equal the result. *)
Theorem sanitizeInput_removes_angle_brackets `{Host} input :
  Js.occurs "<" (sanitizeInput input) = false /\
  Js.occurs ">" (sanitizeInput input) = false /\
  (trim input = input -> Js.occurs "<" input = false -> Js.occurs ">" input = false ->
   sanitizeInput input = input) /\
  (forall rest, trim input = String "<" rest ->
                Js.occurs "<" rest = false -> Js.occurs ">" rest = false ->
                sanitizeInput input = rest).
Proof.
  unfold sanitizeInput.
  destruct (removeAngleBrackets_clean (trim input)) as [Hlt Hgt].
  split; [exact Hlt|]. split; [exact Hgt|]. split.
  - intros ->. apply removeAngleBrackets_id.
  - intros rest -> Hrest_lt Hrest_gt. cbn. now apply removeAngleBrackets_id.
Qed.

Lemma sanitizeInput_removes_angle_brackets_witness :
  sanitizeInput (H := utcHost) "<  bold  " = "  bold" /\
  sanitizeInput (H := utcHost) "  bold" = "bold".
Proof.
  split.
  - apply (proj2 (proj2 (proj2
             (sanitizeInput_removes_angle_brackets (H := utcHost) "<  bold  "))));
      reflexivity.
  - reflexivity.
Defined.

(** ** A redirect that is refused *)

(** X25. In a database where nothing interferes and whose codes are
    pairwise distinct: the redirect of a code that no stored document has,
    or whose document is deactivated, is answered with 404, and the redirect
    of the code of an active document whose [expiryDate] has passed with
    410; in each case the collection is left as it was.  A deactivated
    document is "not found" even when it has expired as well. *)
Theorem redirect_refuses_inactive_and_expired `{Host} (w : Mongo) req :
  others w = [] -> uniqueCodes (urls w) -> rr_errors req = [] ->
  let response := fst (outcome mongoEnv (redirectToOriginal req) w) in
  let w' := after mongoEnv (redirectToOriginal req) w in
  ((forall id d, urls w !! id = Some d -> shortCode d = rr_shortCode req ->
                 isActive d = false) ->
   response = Json 404 false (Some "Short URL not found") NoData /\ urls w' = urls w) /\
  (forall id d expiry,
     urls w !! id = Some d -> shortCode d = rr_shortCode req -> isActive d = true ->
     expiryDate d = Some expiry -> expiry < clock w ->
     response = Json 410 false (Some "This short URL has expired") NoData /\
     urls w' = urls w).
Proof.
  intros Hquiet Hunique Herrors. unfold outcome, after, redirectToOriginal.
  rewrite run_bindProg, Herrors, run_bind, run_await.
  change (answer mongoEnv ?call w) with (mongoAnswer _ call w).
  rewrite mongoAnswer_quiet by exact Hquiet. split.
  - intros Hinactive.
    destruct (findOne (matches (ByShortCodeActive (rr_shortCode req))) (urls w))
      as [found|] eqn:Hfind.
    + destruct (findOne_Some _ _ _ Hfind) as (Hmatch & id & Hfound).
      cbn in Hmatch. apply andb_true_iff in Hmatch as [Hcode Hactive].
      apply String.eqb_eq in Hcode.
      rewrite (Hinactive _ _ Hfound Hcode) in Hactive. discriminate.
    + cbv iota beta. rewrite run_pure. cbn. split; reflexivity.
  - intros id d expiry Hd Hcode Hactive Hexpiry Hpassed.
    rewrite (findOne_the_one _ _ id d Hunique Hd Hcode Hactive). cbv iota beta.
    rewrite run_bind, Hexpiry, run_bind, run_ask.
    change (answer mongoEnv ?call w) with (mongoAnswer _ call w).
    rewrite mongoAnswer_quiet by exact Hquiet. cbv iota beta. rewrite run_pure.
    cbv iota beta. rewrite (proj2 (Z.ltb_lt expiry (clock w)) Hpassed).
    rewrite run_pure. cbn. split; reflexivity.
Qed.

Lemma redirect_refuses_inactive_and_expired_witness :
  fst (outcome (mongoEnv (H := utcHost)) (redirectToOriginal (H := utcHost) sampleRedirect)
         (sampleMongo (alter deactivate 1%N sampleStore) []))
  = Json 404 false (Some "Short URL not found") NoData /\
  urls (after (mongoEnv (H := utcHost)) (redirectToOriginal (H := utcHost) sampleRedirect)
          (sampleMongo (alter deactivate 1%N sampleStore) []))
  = alter deactivate 1%N sampleStore.
Proof.
  destruct (redirect_refuses_inactive_and_expired (H := utcHost)
              (sampleMongo (alter deactivate 1%N sampleStore) []) sampleRedirect)
    as [Hinactive _]; [| | |apply Hinactive].
  - reflexivity.
  - intros id1 id2 d1 d2 Hd1 Hd2 _.
    change (alter deactivate 1%N sampleStore !! id1 = Some d1) in Hd1.
    change (alter deactivate 1%N sampleStore !! id2 = Some d2) in Hd2.
    destruct (decide (id1 = 1%N)) as [->|Hne1].
    + destruct (decide (id2 = 1%N)) as [->|Hne2]; [reflexivity|].
      rewrite lookup_alter_ne in Hd2 by congruence. unfold sampleStore in Hd2.
      apply lookup_singleton_Some in Hd2 as [Heq _]. congruence.
    + rewrite lookup_alter_ne in Hd1 by congruence. unfold sampleStore in Hd1.
      apply lookup_singleton_Some in Hd1 as [Heq _]. congruence.
  - reflexivity.
  - intros id d Hd _.
    change (alter deactivate 1%N sampleStore !! id = Some d) in Hd.
    destruct (decide (id = 1%N)) as [->|Hne].
    + vm_compute in Hd. injection Hd as <-. reflexivity.
    + rewrite lookup_alter_ne in Hd by congruence. unfold sampleStore in Hd.
      apply lookup_singleton_Some in Hd as [Heq _]. congruence.
Defined.

(** ** From the 201 to the QR code *)

Lemma storedAs_found (store : gmap ObjectId UrlDoc) v :
  storedAs store v ->
  exists d,
    findOne (matches (ByShortCodeActive (v_shortCode v))) store = Some d /\
    qrCode d = v_qrCode v.
Proof.
  intros (d & Hd & _ & Hcode & _ & _ & Hqr & Hactive & _ & _ & _ & Halone).
  exists d. split; [|exact Hqr].
  destruct (findOne _ store) as [found|] eqn:Hfind.
  - destruct (findOne_Some _ _ _ Hfind) as (Hmatch & id' & Hfound).
    cbn in Hmatch. apply andb_true_iff in Hmatch as [Hmatch _].
    apply String.eqb_eq in Hmatch.
    rewrite (Halone _ _ Hfound Hmatch) in Hfound. congruence.
  - pose proof (proj1 (findOne_None _ _) Hfind _ _ Hd) as Hno.
    cbn in Hno. unfold byShortCode in Hno.
    rewrite Hactive, (proj2 (String.eqb_eq _ _) Hcode) in Hno. discriminate.
Qed.

(** X26. Creating, then asking for the QR code.  In a database where
    nothing interferes, after a request answered with 201 the QR handler
    serves, for the code in the response, the QR code that the response
    showed (the text after the prefix of the data URL), and answers 404
    where the response showed none. *)
Theorem create_then_qr `{Host} (w : Mongo) create message v w1 events1 :
  others w = [] ->
  run mongoEnv (createShortUrl create) w
    = (Json 201 true message (UrlPayload v), w1, events1) ->
  fst (outcome mongoEnv (getQRCode (v_shortCode v)) w1)
  = match v_qrCode v with
    | Some qr =>
        if String.eqb qr ""
        then NoQr 404 "QR code not available for this URL"
        else QrImage (withoutDataUrlPrefix qr)
    | None => NoQr 404 "QR code not available for this URL"
    end.
Proof.
  intros Hquiet Hcreated.
  destruct (created_is_stored w create message v w1 events1 Hquiet Hcreated)
    as (Hquiet1 & Hstored & _).
  destruct (storedAs_found _ _ Hstored) as (d & Hfind & Hqr).
  unfold outcome, getQRCode. rewrite run_bindProg, run_bind, run_await.
  change (answer mongoEnv ?call w1) with (mongoAnswer _ call w1).
  rewrite mongoAnswer_quiet by exact Hquiet1. rewrite Hfind. cbv iota beta.
  rewrite Hqr. destruct (v_qrCode v) as [qr|].
  - destruct (String.eqb qr ""); rewrite run_pure; reflexivity.
  - rewrite run_pure. reflexivity.
Qed.

Lemma create_then_qr_witness :
  exists v w1 events1,
    run (mongoEnv (H := utcHost)) (createShortUrl (H := utcHost) sampleCreate)
      (sampleMongo ∅ [])
      = (Json 201 true (Some "URL shortened successfully") (UrlPayload v), w1, events1) /\
    fst (outcome (mongoEnv (H := utcHost)) (getQRCode "aaaaaa") w1)
    = QrImage "http://localhost:5001/aaaaaa".
Proof.
  destruct (run (mongoEnv (H := utcHost)) (createShortUrl (H := utcHost) sampleCreate)
              (sampleMongo ∅ [])) as [[response w1] events1] eqn:Hcreated.
  assert (exists v,
            response = Json 201 true (Some "URL shortened successfully") (UrlPayload v) /\
            v_shortCode v = "aaaaaa" /\
            v_qrCode v = Some "data:image/png;base64,http://localhost:5001/aaaaaa")
    as (v & -> & Hcode & Hqr).
  { vm_compute in Hcreated. injection Hcreated as <- _ _.
    eexists. split; [reflexivity|]. split; reflexivity. }
  pose proof (create_then_qr (H := utcHost) (sampleMongo ∅ []) sampleCreate
                (Some "URL shortened successfully") v w1 events1 eq_refl Hcreated)
    as Hserved.
  rewrite Hcode, Hqr in Hserved.
  exists v, w1, events1. split; [reflexivity | exact Hserved].
Defined.

(** ** What no run undoes *)

Section Monotone.
Context `{Host}.

Lemma applyUpdate_daily_within this now stamp clickData stored result :
  applyUpdate stamp (updateData this now clickData) stored = Some result ->
  dailyWithinClicks stored -> dailyWithinClicks result.
Proof.
  intros Happly [Hnonneg Hsum]. unfold applyUpdate in Happly.
  destruct (applyDailyStats _ (dailyStats stored)) as [stats|] eqn:Hstats;
    [|discriminate].
  injection Happly as <-. unfold dailyWithinClicks. cbn [dailyStats clicks inc_clicks updateData].
  unfold updateData in Hstats. cbn [upd_dailyStats] in Hstats.
  destruct (findIndex (localMidnight now) (dailyStats this)) as [i|];
    cbn [applyDailyStats] in Hstats.
  - destruct (dailyStats stored !! i) as [s|] eqn:Hs; [|discriminate].
    injection Hstats as <-.
    assert (0 <= DailyStat.clicks s) as Hs0.
    { eapply (proj1 (Forall_forall _ _) Hnonneg), list_elem_of_lookup_2, Hs. }
    split.
    + apply Forall_insert; [exact Hnonneg | cbn; lia].
    + rewrite (sumClicks_insert _ _ _ _ Hs). cbn. lia.
  - injection Hstats as <-.
    assert (Forall (fun s => 0 <= DailyStat.clicks s)
              (dailyStats stored ++ [DailyStat.Build (localMidnight now) 1])) as Hall.
    { apply Forall_app. split; [exact Hnonneg|]. constructor; [cbn; lia | constructor]. }
    unfold pushSlice, sliceLast. split.
    + now apply Forall_drop.
    + etransitivity; [apply sumClicks_drop, Hall|].
      rewrite sumClicks_app, sumClicks_cons. unfold sumClicks at 2. cbn. lia.
Qed.

Lemma mongoAnswer_daily_within A (call : Call A) (w : Mongo) :
  allWithinClicks w -> allWithinClicks (snd (mongoAnswer A call w)).
Proof.
  assert (forall urlData w, allWithinClicks w ->
                            allWithinClicks (snd (mongoCreate urlData w))) as Hcreate.
  { intros urlData w0 Hw0. unfold mongoCreate.
    destruct (validateUrlData _ _); [|exact Hw0].
    destruct (duplicateKey _ _); [exact Hw0|].
    intros id d Hd. cbn in Hd.
    apply lookup_insert_Some in Hd as [[_ <-]|[_ Hd]]; [|exact (Hw0 _ _ Hd)].
    split; [constructor | reflexivity]. }
  intros Hw. unfold mongoAnswer.
  set (w1 := disturb _ _).
  assert (allWithinClicks w1) as Hw1.
  { subst w1. destruct (hd Quiet (others w)) as [| |urlData|id']; cbn [disturb].
    - exact Hw.
    - exact Hw.
    - now apply Hcreate.
    - intros id d Hd. cbn in Hd.
      apply lookup_alter_Some in Hd as [(_ & d' & Hd' & ->)|[_ Hd]].
      + exact (Hw _ _ Hd').
      + exact (Hw _ _ Hd). }
  clearbody w1.
  destruct call; destruct (match hd Quiet (others w) with Outage => true | _ => false end);
    try exact Hw1.
  - now apply Hcreate.
  - unfold mongoSave. destruct (urls w1 !! _id doc) as [stored|] eqn:Hstored;
      [|exact Hw1].
    intros id d Hd. cbn in Hd.
    apply lookup_insert_Some in Hd as [[_ <-]|[_ Hd]]; [|exact (Hw1 _ _ Hd)].
    exact (Hw1 _ _ Hstored).
  - unfold mongoIncrementClicks, incrementClicks.
    destruct (urls w1 !! _id doc) as [stored|] eqn:Hstored; [|exact Hw1].
    destruct (applyUpdate _ _ stored) as [result|] eqn:Happly; [|exact Hw1].
    intros id d Hd. cbn in Hd.
    apply lookup_insert_Some in Hd as [[_ <-]|[_ Hd]]; [|exact (Hw1 _ _ Hd)].
    eapply applyUpdate_daily_within; [exact Happly|]. exact (Hw1 _ _ Hstored).
Qed.

Lemma persists_refl store : persists store store.
Proof. intros id d Hd. exists d. repeat split; [exact Hd | lia]. Qed.

Lemma persists_trans store1 store2 store3 :
  persists store1 store2 -> persists store2 store3 -> persists store1 store3.
Proof.
  intros H12 H23 id d Hd.
  destruct (H12 _ _ Hd) as (d2 & Hd2 & Hclicks2 & Hcode2 & Hurl2 & Hown2).
  destruct (H23 _ _ Hd2) as (d3 & Hd3 & Hclicks3 & Hcode3 & Hurl3 & Hown3).
  exists d3. repeat split; try congruence; lia.
Qed.

(** Replacing a stored document by one derived from it. *)
Lemma persists_replace store id stored d' :
  store !! id = Some stored ->
  clicks stored <= clicks d' -> shortCode d' = shortCode stored ->
  originalUrl d' = originalUrl stored -> userId d' = userId stored ->
  persists store (<[id := d']> store).
Proof.
  intros Hstored Hclicks Hcode Hurl Howner id0 d Hd.
  destruct (decide (id0 = id)) as [->|Hne].
  - exists d'. rewrite lookup_insert_eq.
    assert (d = stored) as -> by congruence. repeat split; assumption.
  - exists d. rewrite lookup_insert_ne by congruence.
    repeat split; [exact Hd | lia].
Qed.

Lemma mongoCreate_persists urlData (w : Mongo) :
  freshIds w ->
  freshIds (snd (mongoCreate urlData w)) /\
  persists (urls w) (urls (snd (mongoCreate urlData w))).
Proof.
  intros Hfresh. unfold mongoCreate.
  destruct (validateUrlData _ _); [|split; [exact Hfresh | apply persists_refl]].
  destruct (duplicateKey _ _); [split; [exact Hfresh | apply persists_refl]|].
  cbn. split.
  - intros id Hid. cbn in Hid |- *.
    destruct (decide (id = nextId w)) as [->|Hne]; [lia|].
    rewrite lookup_insert_ne in Hid by congruence.
    pose proof (Hfresh id Hid). lia.
  - intros id d Hd. exists d.
    assert (id <> nextId w) as Hne.
    { intros ->. assert (nextId w < nextId w)%N; [|lia]. apply Hfresh. now exists d. }
    rewrite lookup_insert_ne by congruence. repeat split; [exact Hd | lia].
Qed.

Lemma mongoAnswer_persists A (call : Call A) (w : Mongo) :
  freshIds w ->
  freshIds (snd (mongoAnswer A call w)) /\
  persists (urls w) (urls (snd (mongoAnswer A call w))).
Proof.
  intros Hfresh. unfold mongoAnswer.
  set (w1 := disturb _ _).
  assert (freshIds w1 /\ persists (urls w) (urls w1)) as [Hfresh1 Hkept1].
  { subst w1. destruct (hd Quiet (others w)) as [| |urlData|id']; cbn [disturb].
    - split; [exact Hfresh | apply persists_refl].
    - split; [exact Hfresh | apply persists_refl].
    - apply (mongoCreate_persists urlData
               {| urls := urls w; clock := clock w; nextId := nextId w;
                  chanceOf := chanceOf w; generated := generated w;
                  qrLibrary := qrLibrary w; others := tl (others w);
                  offSchema := offSchema w |}).
      exact Hfresh.
    - split.
      + intros id Hid. cbn in Hid |- *. apply Hfresh.
        destruct Hid as [d Hd].
        apply lookup_alter_Some in Hd as [(_ & d' & Hd' & _)|[_ Hd]]; eauto.
      + intros id d Hd. cbn.
        destruct (decide (id = id')) as [->|Hne].
        * exists (deactivate d). rewrite lookup_alter_eq, Hd.
          repeat split. cbn. lia.
        * exists d. rewrite lookup_alter_ne by congruence.
          repeat split; [exact Hd | lia]. }
  clearbody w1.
  assert (forall w2, freshIds w2 /\ persists (urls w1) (urls w2) ->
                     freshIds w2 /\ persists (urls w) (urls w2)) as Hthen.
  { intros w2 [Hfresh2 Hkept2]. split; [exact Hfresh2|].
    now apply (persists_trans _ (urls w1)). }
  destruct call; destruct (match hd Quiet (others w) with Outage => true | _ => false end);
    cbn [snd]; try (split; [exact Hfresh1 | exact Hkept1]).
  - apply Hthen. now apply mongoCreate_persists.
  - apply Hthen. unfold mongoSave.
    destruct (urls w1 !! _id doc) as [stored|] eqn:Hstored;
      [|split; [exact Hfresh1 | apply persists_refl]].
    cbn. split.
    + intros id Hid. cbn in Hid |- *. apply Hfresh1.
      destruct (decide (id = _id doc)) as [->|Hne]; [now exists stored|].
      now rewrite lookup_insert_ne in Hid by congruence.
    + apply (persists_replace _ _ stored); [exact Hstored | cbn; lia | reflexivity ..].
  - apply Hthen. unfold mongoIncrementClicks, incrementClicks.
    destruct (urls w1 !! _id doc) as [stored|] eqn:Hstored;
      [|split; [exact Hfresh1 | apply persists_refl]].
    destruct (applyUpdate _ _ stored) as [result|] eqn:Happly;
      [|split; [exact Hfresh1 | apply persists_refl]].
    cbn. split.
    + intros id Hid. cbn in Hid |- *. apply Hfresh1.
      destruct (decide (id = _id doc)) as [->|Hne]; [now exists stored|].
      now rewrite lookup_insert_ne in Hid by congruence.
    + unfold applyUpdate in Happly.
      destruct (applyDailyStats _ _); [|discriminate]. injection Happly as <-.
      apply (persists_replace _ _ stored); [exact Hstored | cbn; lia | reflexivity ..].
Qed.
End Monotone.

(** X27. In the database model, whatever the handler and whatever
    interferes, and even when [incrementClicks] runs on copies that are out
    of date, a collection in which the daily entries of every document are
    non-negative and sum to at most its [clicks] stays such a collection:
    the daily totals may fall behind [clicks] (entries are evicted) but they
    never run ahead of it. *)
Theorem run_keeps_daily_totals_within_clicks `{Host} {R : Type}
    (handler : Prog R) (w : Mongo) :
  (forall id d, urls w !! id = Some d -> dailyWithinClicks d) ->
  forall id d, urls (after mongoEnv handler w) !! id = Some d -> dailyWithinClicks d.
Proof.
  intros Hw.
  apply (run_preserves (fun w => forall id d, urls w !! id = Some d -> dailyWithinClicks d));
    [|exact Hw].
  intros A call w'. apply mongoAnswer_daily_within.
Qed.

Lemma run_keeps_daily_totals_within_clicks_witness :
  exists d,
    urls (after (mongoEnv (H := utcHost)) (redirectToOriginal (H := utcHost) sampleRedirect)
            (sampleMongo sampleStore [Quiet; OtherCreate racerA])) !! 1%N = Some d /\
    dailyWithinClicks d.
Proof.
  destruct (urls (after (mongoEnv (H := utcHost))
                    (redirectToOriginal (H := utcHost) sampleRedirect)
                    (sampleMongo sampleStore [Quiet; OtherCreate racerA])) !! 1%N)
    as [d|] eqn:Hd; [|vm_compute in Hd; discriminate Hd].
  exists d. split; [reflexivity|].
  apply (run_keeps_daily_totals_within_clicks (H := utcHost)
           (redirectToOriginal (H := utcHost) sampleRedirect)
           (sampleMongo sampleStore [Quiet; OtherCreate racerA])) with (id := 1%N);
    [|exact Hd].
  intros id d0 Hd0. change (sampleStore !! id = Some d0) in Hd0.
  unfold sampleStore in Hd0. apply lookup_singleton_Some in Hd0 as [_ <-].
  split; [constructor | reflexivity].
Defined.

(** X28. What the handlers do on their own.  In the database model, when
    no other request interferes and the [_id]s in use are below the next one
    to be given, no run of a handler made of the calls of [Call] (the
    lookups, the insert, the save of the QR code, [incrementClicks],
    [generateShortCode], the QR library and the clock) loses a document or
    takes a click back: every document of the collection before the run is
    in the collection after it, under the same [_id], with the same code,
    address and owner, and with at least as many [clicks].  The handlers
    [deleteUrl] and [updateUrl], which delete a document and rewrite its
    address, use calls that are not among these. *)
Theorem run_never_takes_back `{Host} {R : Type} (handler : Prog R) (w : Mongo) :
  others w = [] ->
  freshIds w ->
  freshIds (after mongoEnv handler w) /\
  persists (urls w) (urls (after mongoEnv handler w)).
Proof.
  intros Hquiet Hfresh.
  apply (run_preserves
           (fun w' => others w' = [] /\ freshIds w' /\ persists (urls w) (urls w'))).
  - intros A call w' (Hquiet' & Hfresh' & Hkept).
    destruct (mongoAnswer_persists A call w' Hfresh') as [Hfresh'' Hstep].
    split; [now apply mongoAnswer_stays_quiet|].
    split; [exact Hfresh''|]. now apply (persists_trans _ (urls w')).
  - split; [exact Hquiet|]. split; [exact Hfresh | apply persists_refl].
Qed.

(** A redirect of the sample document. *)
Lemma run_never_takes_back_witness :
  exists d',
    urls (after (mongoEnv (H := utcHost)) (redirectToOriginal (H := utcHost) sampleRedirect)
            (sampleMongo sampleStore []))
      !! 1%N = Some d' /\
    0 <= clicks d' /\
    shortCode d' = "abc123" /\
    originalUrl d' = "https://example.com" /\
    userId d' = Some 7%N.
Proof.
  destruct (run_never_takes_back (H := utcHost)
              (redirectToOriginal (H := utcHost) sampleRedirect)
              (sampleMongo sampleStore []))
    as [_ Hkept].
  - reflexivity.
  - intros id [d Hd]. change (sampleStore !! id = Some d) in Hd.
    unfold sampleStore in Hd. apply lookup_singleton_Some in Hd as [<- _].
    reflexivity.
  - apply (Hkept 1%N sampleDoc). reflexivity.
Defined.

(** ** The same address a second time *)

Section CreatedOnce.
Context `{Host}.

(** An insert for an owner and an address that an active stored document
    has is rejected, by the validators or by an index. *)
Lemma mongoCreate_rejects_duplicate (w : Mongo) urlData id d :
  urls w !! id = Some d ->
  userId d = ud_userId urlData ->
  originalUrl d = trim (ud_originalUrl urlData) ->
  isActive d = true ->
  exists e,
    mongoCreate urlData w = (Rejected e, tick 1 w) /\
    ((exists errors, e = ValidationError errors) \/
     (exists keyPattern, e = MongoServerError 11000 (Some keyPattern))).
Proof.
  intros Hd Howner Hurl Hactive. unfold mongoCreate.
  destruct (validateUrlData _ _) as [|error errors]; [|eauto 6].
  unfold duplicateKey.
  destruct (findOne (byShortCode _) (urls w)); [eauto 6|].
  destruct (findOne (sameOwnerUrl _) (urls w)) eqn:Hfind; [eauto 6|].
  pose proof (proj1 (findOne_None _ _) Hfind id d Hd) as Hno.
  unfold sameOwnerUrl in Hno. cbn in Hno.
  rewrite Hactive, (proj2 (String.eqb_eq _ _) Hurl) in Hno.
  rewrite bool_decide_eq_true_2 in Hno by exact Howner. discriminate.
Qed.

Lemma prepare_keeps_urls req (w : Mongo) :
  others w = [] -> urls (after mongoEnv (prepare req) w) = urls w.
Proof.
  intros Hquiet. unfold after, prepare.
  destruct (cr_errors req); [|reflexivity].
  destruct (cr_user req); [|reflexivity].
  destruct (urlHostname (rb_originalUrl (cr_body req))); [|reflexivity].
  rewrite run_bind.
  assert (exists chosen w1 events1,
            run mongoEnv (chooseShortCode (rb_customCode (cr_body req))) w
            = (chosen, w1, events1) /\
            urls w1 = urls w /\ others w1 = [])
    as (chosen & w1 & events1 & -> & Hurls1 & Hquiet1).
  { unfold chooseShortCode.
    assert (exists chosen w1 events1,
              run mongoEnv (let* shortCode := await (UrlGenerateShortCode 6) in
                            pure (inr (A := Response) shortCode)) w
              = (chosen, w1, events1) /\
              urls w1 = urls w /\ others w1 = []) as Hgenerated.
    { rewrite run_bind, run_await.
      change (answer mongoEnv ?call w) with (mongoAnswer _ call w).
      rewrite mongoAnswer_quiet by exact Hquiet.
      destruct (generateShortCode _ _ _) as [shortCode|e]; cbv iota beta;
        rewrite ?run_pure; do 3 eexists; (split; [reflexivity|]); split;
        (reflexivity || exact Hquiet). }
    destruct (rb_customCode (cr_body req)) as [customCode|]; [|exact Hgenerated].
    destruct (String.eqb customCode ""); [exact Hgenerated|].
    destruct (negb (isValidCustomCode customCode)).
    { rewrite run_pure. do 3 eexists. split; [reflexivity|]. now split. }
    rewrite run_bind, run_await.
    change (answer mongoEnv ?call w) with (mongoAnswer _ call w).
    rewrite mongoAnswer_quiet by exact Hquiet.
    destruct (findOne _ (urls w)); cbv iota beta; rewrite run_pure;
      do 3 eexists; (split; [reflexivity|]); now split. }
  destruct chosen as [[response|shortCode]|e]; cbv iota beta;
    rewrite ?run_pure; cbn [fst snd]; try exact Hurls1.
  rewrite run_bind. unfold parseExpiryDate.
  destruct (rb_expiryDate (cr_body req)) as [expiry|].
  - rewrite run_bind, run_ask.
    change (answer mongoEnv ?call w1) with (mongoAnswer _ call w1).
    rewrite mongoAnswer_quiet by exact Hquiet1. cbv iota beta.
    destruct (expiry <=? clock w1); rewrite run_pure; cbv iota beta;
      rewrite run_pure; cbn; exact Hurls1.
  - rewrite run_pure. cbv iota beta. rewrite run_pure. cbn. exact Hurls1.
Qed.

(** A request for an owner and an address that an active stored document
    has creates nothing. *)
Lemma createShortUrl_on_duplicate (w : Mongo) req id d :
  others w = [] ->
  urls w !! id = Some d ->
  userId d = cr_user req ->
  originalUrl d = trim (trim (rb_originalUrl (cr_body req))) ->
  isActive d = true ->
  exists response w' events,
    run mongoEnv (createShortUrl req) w = (response, w', events) /\
    urls w' = urls w /\
    forall message v, response <> Json 201 true message (UrlPayload v).
Proof.
  intros Hquiet Hd Howner Hurl Hactive.
  unfold createShortUrl. rewrite run_bindProg, run_bind.
  pose proof (prepare_keeps_urls req w Hquiet) as Hurls1.
  pose proof (run_stays_quiet (prepare req) w Hquiet) as Hquiet1.
  unfold after in Hurls1, Hquiet1.
  destruct (run mongoEnv (prepare req) w) as [[prepared w1] events1] eqn:Hprepare.
  cbn [fst snd] in Hurls1, Hquiet1.
  destruct prepared as [[response|p]|e]; cbv iota beta.
  - rewrite run_pure. cbn. do 3 eexists. split; [reflexivity|].
    split; [exact Hurls1|].
    destruct (prepare_refuses _ _ _ _ _ _ Hprepare) as (? & ? & ? & ->).
    discriminate.
  - destruct (prepare_inr _ _ _ _ _ _ Hprepare) as (Huser & Hnormalized & Hp & Hpurl).
    assert (forall w2 code,
              urls w2 = urls w ->
              exists e,
                mongoCreate (withShortCode (p_urlData p) code) w2 = (Rejected e, tick 1 w2) /\
                ((exists errors, e = ValidationError errors) \/
                 (exists keyPattern, e = MongoServerError 11000 (Some keyPattern))))
      as Hrejected.
    { intros w2 code Hurls2.
      apply (mongoCreate_rejects_duplicate w2 _ id d); cbn;
        [now rewrite Hurls2 | congruence | congruence | exact Hactive]. }
    unfold createAndRespond. rewrite run_tryCatch, run_bind, run_await.
    change (answer mongoEnv ?call w1) with (mongoAnswer _ call w1).
    rewrite mongoAnswer_quiet by exact Hquiet1.
    destruct (mongoCreate_rejects_duplicate w1 (p_urlData p) id d)
      as (e & -> & He); [now rewrite Hurls1 | congruence | congruence | exact Hactive |].
    cbv iota beta.
    destruct He as [[errors ->]|[keyPattern ->]].
    + rewrite run_throw. cbn. do 3 eexists. split; [reflexivity|].
      split; [exact Hurls1 | discriminate].
    + change (11000 =? 11000) with true. cbv iota.
      destruct (decide (head (default [] (Some keyPattern)) = Some "shortCode")) as [_|_].
      * unfold retryWithNewCode. rewrite run_tryCatch, run_bind, run_await.
        change (answer mongoEnv ?call (tick 1 w1)) with (mongoAnswer _ call (tick 1 w1)).
        rewrite mongoAnswer_quiet by exact Hquiet1.
        destruct (generateShortCode _ _ _) as [newShortCode|e]; cbv iota beta.
        -- rewrite run_bind, run_await.
           match goal with
           | |- context [answer mongoEnv ?call ?w3] =>
               change (answer mongoEnv call w3) with (mongoAnswer _ call w3);
               rewrite (mongoAnswer_quiet _ call w3 Hquiet1);
               destruct (Hrejected w3 newShortCode Hurls1) as (e & -> & _)
           end.
           cbv iota beta. rewrite run_pure. cbn. do 3 eexists.
           split; [reflexivity|]. split; [exact Hurls1 | discriminate].
        -- rewrite run_pure. cbn. do 3 eexists. split; [reflexivity|].
           split; [exact Hurls1 | discriminate].
      * unfold returnExisting. rewrite run_bind, run_await.
        change (answer mongoEnv ?call (tick 1 w1)) with (mongoAnswer _ call (tick 1 w1)).
        rewrite mongoAnswer_quiet by exact Hquiet1.
        destruct (findOne _ (urls (tick 1 w1))); cbv iota beta;
          [rewrite run_pure | rewrite run_throw]; cbn; do 3 eexists;
          (split; [reflexivity|]); (split; [exact Hurls1 | discriminate]).
  - cbn. do 3 eexists. split; [reflexivity|]. split; [exact Hurls1|].
    destruct e; discriminate.
Qed.
End CreatedOnce.

(** X29. One active short URL for each owner and address.  In a database
    where nothing interferes, after a request answered with 201, a request
    of the same user for the same address (up to the white space that is
    trimmed) creates nothing, whatever its other fields: it is never
    answered with 201 and it leaves the collection as it was. *)
Theorem create_again_creates_nothing `{Host} (w : Mongo) req message v w1 events1 req' :
  others w = [] ->
  run mongoEnv (createShortUrl req) w
    = (Json 201 true message (UrlPayload v), w1, events1) ->
  cr_user req' = cr_user req ->
  trim (rb_originalUrl (cr_body req')) = trim (rb_originalUrl (cr_body req)) ->
  exists response w2 events2,
    run mongoEnv (createShortUrl req') w1 = (response, w2, events2) /\
    urls w2 = urls w1 /\
    forall message' v', response <> Json 201 true message' (UrlPayload v').
Proof.
  intros Hquiet Hcreated Huser Hurl.
  destruct (created_is_stored w req message v w1 events1 Hquiet Hcreated)
    as (Hquiet1 & (d & Hd & _ & _ & _ & _ & _ & Hactive & _) & Howned).
  destruct (Howned d Hd) as [Howner Haddress].
  apply (createShortUrl_on_duplicate w1 req' (v_id v) d); try assumption; congruence.
Qed.

Lemma create_again_creates_nothing_witness :
  exists w1 events1 v response w2 events2,
    run (mongoEnv (H := utcHost)) (createShortUrl (H := utcHost) sampleCreate)
      (sampleMongo ∅ [])
      = (Json 201 true (Some "URL shortened successfully") (UrlPayload v), w1, events1) /\
    run (mongoEnv (H := utcHost)) (createShortUrl (H := utcHost) sampleCreate) w1
      = (response, w2, events2) /\
    urls w2 = urls w1 /\
    forall message' v', response <> Json 201 true message' (UrlPayload v').
Proof.
  destruct (run (mongoEnv (H := utcHost)) (createShortUrl (H := utcHost) sampleCreate)
              (sampleMongo ∅ [])) as [[response1 w1] events1] eqn:Hcreated.
  assert (exists v, response1
                    = Json 201 true (Some "URL shortened successfully") (UrlPayload v))
    as (v & ->).
  { vm_compute in Hcreated. injection Hcreated as <- _ _. eexists. reflexivity. }
  destruct (create_again_creates_nothing (H := utcHost) (sampleMongo ∅ []) sampleCreate
              (Some "URL shortened successfully") v w1 events1 sampleCreate
              eq_refl Hcreated eq_refl eq_refl)
    as (response & w2 & events2 & Hagain & Hurls & Hnot).
  exists w1, events1, v, response, w2, events2. auto.
Defined.
